(** * Equity console: input resolution, template selectors and the create action

    A shallow embedding of the client-side logic of the equity console:
    - [inputs/data]       : [validateInput], [isValidInput], [getData],
                            [getGenerateStringInputValue], [getPromisedInputMap];
    - [templates/selectors]: [getContractValue], [areInputsValid],
                            [getContractArgs];
    - [contracts/actions] : [create].

    Conventions of the embedding.
    - A JavaScript string is a [string]; the model covers strings of ASCII
      code units (names, hex digits and decimal digits are all ASCII).
    - A JavaScript number that arises here is [NaN] or the Number value of
      an integer.  [Num z] stands for the Number value for [z]; the rounding
      of integers beyond 2^53 (and their overflow to Infinity) is not
      represented, and the comparisons the code makes (against 0, 520 and
      the numeric bounds) do not observe it.
    - A plain object used as a dictionary is a [gmap string _]; only own
      properties are modelled.  Reading a property of [undefined] raises
      [TypeError].
    - [throw "text"] raises [Thrown "text"].
    - Recursion over ids is not structural (a malformed map can name itself
      as its own child), so recursive functions take a fuel argument;
      running out of fuel is the engine's stack overflow, [RangeError]. *)

From Stdlib Require Import ZArith Ascii String List.
From Stdlib.Strings Require Import Byte.
From stdpp Require Import base option list strings gmap fin_maps.

Open Scope string_scope.
Open Scope list_scope.
Open Scope Z_scope.

(** ** Failures *)

Inductive error :=
| Thrown (msg : string)          (* throw "<msg>" *)
| TypeError                      (* property access on undefined *)
| RangeError                     (* call stack exhausted *)
| ServiceFailure (data : string) (* payload of a rejected or failed remote call *).

Inductive result (A : Type) :=
| Ok (a : A)
| Err (e : error).
Arguments Ok {A} a.
Arguments Err {A} e.

#[global] Instance result_ret : MRet result := @Ok.
#[global] Instance result_bind : MBind result := fun A B f r =>
  match r with Ok a => f a | Err e => Err e end.

(** ** Numbers *)

Inductive number :=
| NaN
| Num (z : Z).

Definition isNaN (n : number) : bool :=
  match n with NaN => true | Num _ => false end.

(* [a < b], [a > b], [a <= b], [a >= b]: every comparison with NaN is false *)
Definition num_lt (a b : number) : bool :=
  match a, b with Num x, Num y => x <? y | _, _ => false end.
Definition num_gt (a b : number) : bool := num_lt b a.
Definition num_le (a b : number) : bool :=
  match a, b with Num x, Num y => x <=? y | _, _ => false end.
Definition num_ge (a b : number) : bool := num_le b a.

(** ** Strings *)

Definition one_of (s : string) (labels : list string) : bool :=
  existsb (String.eqb s) labels.

Arguments one_of !s labels : simpl nomatch.

Definition isWhiteSpace (c : ascii) : bool :=
  let n := N_of_ascii c in
  ((9 <=? n) && (n <=? 13) || (n =? 32))%N.

Fixpoint trimStart (s : string) : string :=
  match s with
  | String c s' => if isWhiteSpace c then trimStart s' else s
  | EmptyString => s
  end.

(* the value of a character as a digit, for radixes up to 36 *)
Definition digitValue (c : ascii) : option Z :=
  let n := Z.of_N (N_of_ascii c) in
  if (48 <=? n) && (n <=? 57) then Some (n - 48)
  else if (97 <=? n) && (n <=? 122) then Some (n - 87)
  else if (65 <=? n) && (n <=? 90) then Some (n - 55)
  else None.

(* the longest prefix of radix-[r] digits, read left to right *)
Fixpoint parseDigits (r : Z) (s : string) (acc : option Z) : option Z :=
  match s with
  | String c s' =>
      match digitValue c with
      | Some d => if d <? r then parseDigits r s' (Some (default 0 acc * r + d)) else acc
      | None => acc
      end
  | EmptyString => acc
  end.

(** [parseInt(s, radix)] for an explicit radix between 2 and 36 other than
    16 (no prefix is stripped); the code only calls it with radix 10. *)
Definition parseInt (s : string) (radix : Z) : number :=
  if (radix <? 2) || (36 <? radix) || (radix =? 16) then NaN
  else
    let t := trimStart s in
    let '(sign, body) :=
      match t with
      | String "-" t' => (-1, t')
      | String "+" t' => (1, t')
      | _ => (1, t)
      end in
    match parseDigits radix body None with
    | Some v => Num (sign * v)
    | None => NaN
    end.

Arguments parseInt : simpl never.

(* String.prototype.slice(start, end) for integer arguments *)
Definition String_slice (s : string) (start end_ : Z) : string :=
  let len := Z.of_nat (String.length s) in
  let from := if start <? 0 then Z.max (len + start) 0 else Z.min start len in
  let to := if end_ <? 0 then Z.max (len + end_) 0 else Z.min end_ len in
  substring (Z.to_nat from) (Z.to_nat (Z.max (to - from) 0)) s.

(** ** Buffers *)

Definition Buffer := list byte.

Definition hexDigit (n : N) : ascii :=
  ascii_of_N (if n <? 10 then 48 + n else 87 + n)%N.

Definition hexOfByte (b : byte) : string :=
  let n := Byte.to_N b in
  String (hexDigit (n / 16)%N) (String (hexDigit (n mod 16)%N) EmptyString).

(* buf.toString('hex') *)
Definition Buffer_toString_hex (buf : Buffer) : string :=
  fold_right (fun b acc => hexOfByte b +:+ acc) "" buf.

Definition hexValue (c : ascii) : option N :=
  match digitValue c with
  | Some d => if d <? 16 then Some (Z.to_N d) else None
  | None => None
  end.

(* Buffer.from(str, 'hex'): decoding stops at the first pair that is not
   two hex digits; a trailing single character is dropped.  (What happens on
   text that is not an even run of hex digits varies between Buffer
   implementations; the properties below decode validated hex only.) *)
Fixpoint Buffer_from_hex (s : string) : Buffer :=
  match s with
  | String c1 (String c2 s') =>
      match hexValue c1, hexValue c2 with
      | Some h, Some l =>
          match Byte.of_N (16 * h + l)%N with
          | Some b => b :: Buffer_from_hex s'
          | None => []
          end
      | _, _ => []
      end
  | _ => []
  end.

(** ** The input model ([inputs/types]) *)

(* ClauseParameterHash: the hash kind carried by hash inputs *)
Record ClauseParameterHash := {
  hash_inputType : string;
  hash_hashFunction : string
}.

Record KeyData := {
  rootXpub : string;
  pubkeyDerivationPath : list string
}.

(** An input as the runtime sees it: the three fields every input has and
    the fields only some input types carry ([None] is [undefined]).  The
    valueType of a parameterInput, which this code never reads, is left
    out. *)
Record Input := {
  type : string;
  name : string;
  value : string;
  seed : option string;
  hashType : option ClauseParameterHash;
  hashFunction : option string;
  computedData : option string;
  keyData : option KeyData;
  keyMap : option (gmap string KeyData)
}.

(* { type, value, name } *)
Definition plainInput (t n v : string) : Input :=
  {| type := t; name := n; value := v; seed := None; hashType := None;
     hashFunction := None; computedData := None; keyData := None;
     keyMap := None |}.

Abbreviation InputMap := (gmap string Input).

(* Buffer | number *)
Inductive Data :=
| DBuffer (b : Buffer)
| DNumber (n : number).

Definition getChild (input : Input) : string :=
  name input +:+ "." +:+ value input.

Definition isPrimaryInputType (str : string) : bool :=
  one_of str ["hashInput"; "numberInput"; "booleanInput"; "stringInput";
              "publicKeyInput"; "timeInput"; "signatureInput"; "valueInput";
              "programInput"; "assetInput"; "amountInput"; "provideOriginInput"].

(* /^([a-f0-9][a-f0-9])*$/ *)
Definition isLowerHex (c : ascii) : bool :=
  let n := N_of_ascii c in
  ((48 <=? n) && (n <=? 57) || (97 <=? n) && (n <=? 102))%N.

Fixpoint validateHex (str : string) : bool :=
  match str with
  | EmptyString => true
  | String c1 (String c2 s') => isLowerHex c1 && isLowerHex c2 && validateHex s'
  | String _ EmptyString => false
  end.

(** ** Application state and the values the action layer exchanges *)

(* core/types: SpendFromAccount *)
Module SpendFromAccount.
Record t := {
  type : string;
  accountId : string;
  assetId : string;
  amount : number;
  password : string
}.
End SpendFromAccount.

(* a compile result: its declared parameters and the name of its value slot *)
Module Compiled.
Record t := {
  name : string;
  params : list string;   (* the [name] of each parameter descriptor *)
  value : string;
  opcodes : string;
  program : string
}.
End Compiled.

Module TemplateState.
Record t := {
  source : string;
  sourceMap : gmap string string;
  idList : list string;
  protectedIdList : list string;
  inputMap : option InputMap;
  compiled : option Compiled.t
}.
End TemplateState.

Module AppState.
Record t := { templates : TemplateState.t }.
End AppState.

(* the runtime values an argument of the compile call may be *)
Inductive jsvalue :=
| VBuffer (b : Buffer)
| VString (s : string)
| VNumber (n : number)
| VBoolean (b : bool)
| VUndefined
| VNull
| VObject
| VFunction
| VSymbol
| VBigInt (z : Z).

Definition typeof (v : jsvalue) : string :=
  match v with
  | VBuffer _ | VNull | VObject => "object"
  | VString _ => "string"
  | VNumber _ => "number"
  | VBoolean _ => "boolean"
  | VUndefined => "undefined"
  | VFunction => "function"
  | VSymbol => "symbol"
  | VBigInt _ => "bigint"
  end.

Definition jsvalue_of_Data (d : Data) : jsvalue :=
  match d with DBuffer b => VBuffer b | DNumber n => VNumber n end.

(* a tagged wire value: { "string": s }, { "integer": n } or { "boolean": b } *)
Inductive WireValue :=
| wire_string (s : string)
| wire_integer (n : number)
| wire_boolean (b : bool).

(* core/types: Action, as far as the create flow builds it *)
Inductive TxAction :=
| ActSpendFromAccount (s : SpendFromAccount.t)
| ActControlWithReceiver (controlProgram assetId : string) (amount : number)
| ActGas (accountId : string) (amount : Z) (type assetId : string).

(* the argument of updateLockMessage *)
Inductive LockMessage :=
| _error (err : error)   (* a bare string [s] is [Thrown s] *)
| _success (text href label : string).

(* the store actions the create flow dispatches *)
Inductive StoreAction :=
| updateIsCalling (isCalling : bool)
| showLockInputMessages (show : bool)
| updateLockMessage (msg : LockMessage)
| setSource (source : string).

(* what a run does to the outside, in order *)
Inductive Event :=
| Dispatch (a : StoreAction)
| ConsoleLog (e : error)
| ClientListReceiver (v : string)
| ClientCreateAccountPubkey (v : string)
| ClientCompile (source : string) (args : list WireValue)
| CreateLockingTx (actions : list TxAction) (password : string).

(* answers of the remote client *)
Record Receiver := { control_program : string }.
Record PubkeyInfo := { pubkey : string; pubkey_derivation_path : list string }.
Record AccountPubkey := { root_xpub : string; pubkey_infos : list PubkeyInfo }.
Inductive CompileResponse :=
| CompileFail (data : error)     (* status === 'fail': data is what is thrown *)
| CompileDone (program : string).    (* any other status: data.program *)
Record Utxo := { transactionId : string }.

(** A computation that emits events and returns or throws. *)
Record M (A : Type) := mkM { events : list Event; outcome : result A }.
Arguments mkM {A} events outcome.
Arguments events {A} m.
Arguments outcome {A} m.

#[global] Instance M_ret : MRet M := fun A a => mkM [] (Ok a).
#[global] Instance M_bind : MBind M := fun A B f m =>
  match outcome m with
  | Ok a => let k := f a in mkM (events m ++ events k) (outcome k)
  | Err e => mkM (events m) (Err e)
  end.

Definition emit (e : Event) : M unit := mkM [e] (Ok tt).
Definition dispatch (a : StoreAction) : M unit := emit (Dispatch a).
Definition lift {A} (r : result A) : M A := mkM [] r.
Definition throw {A} (e : error) : M A := mkM [] (Err e).

(* try { m } catch (e) { h e } *)
Definition try_catch {A} (m : M A) (h : error -> M A) : M A :=
  match outcome m with
  | Ok a => m
  | Err e => let k := h e in mkM (events m ++ events k) (outcome k)
  end.

(* reading a property of a looked-up object *)
Definition prop {A B} (o : option A) (f : A -> B) : result B :=
  match o with Some a => Ok (f a) | None => Err TypeError end.

(** A map of inputs is a plain object.  Reading a name it does not own
    gives the member of that name that every object inherits from
    Object.prototype, when there is one, and [undefined] otherwise.  None of
    the inherited names holds a dot, so the ids name + "." + child are
    never inherited. *)
Definition Object_prototype : list string :=
  ["constructor"; "__defineGetter__"; "__defineSetter__"; "hasOwnProperty";
   "__lookupGetter__"; "__lookupSetter__"; "isPrototypeOf";
   "propertyIsEnumerable"; "toString"; "valueOf"; "__proto__";
   "toLocaleString"].

Definition inherited (id : string) : bool := one_of id Object_prototype.

(* a switch on input.type, for the object read at an id the map does not
   own: the read of [type] fails on [undefined]; an inherited member has no
   [type], so the default case runs and throws [thrown] *)
Definition unowned {A} (id : string) (thrown : string) : result A :=
  if inherited id then Err (Thrown thrown) else Err TypeError.

(** ** Reference versions of the imported functions, and sample data

    The functions the excerpt imports are parameters of the development
    (section [Console]).  To run the model, this part provides versions of
    them: the two digests are the standard algorithms; the other functions
    are stand-ins with the shape the call sites expect. *)

Definition Z_of_byte (b : byte) : Z := Z.of_N (Byte.to_N b).
Definition byte_of_Z (z : Z) : byte :=
  match Byte.of_N (Z.to_N (z mod 256)) with Some b => b | None => x00 end.

(* consecutive groups of [size] elements; [fuel] bounds the number of groups *)
Fixpoint chunks {A} (fuel size : nat) (l : list A) : list (list A) :=
  match fuel, l with
  | S fuel', _ :: _ => firstn size l :: chunks fuel' size (skipn size l)
  | _, _ => []
  end.

Module SHA256.
Definition w32 (x : Z) : Z := x mod 4294967296.
Definition rotr (n x : Z) : Z :=
  Z.lor (Z.shiftr x n) (w32 (Z.shiftl x (32 - n))).

Definition K : list Z :=
  [1116352408; 1899447441; 3049323471; 3921009573; 961987163; 1508970993;
   2453635748; 2870763221; 3624381080; 310598401; 607225278; 1426881987;
   1925078388; 2162078206; 2614888103; 3248222580; 3835390401; 4022224774;
   264347078; 604807628; 770255983; 1249150122; 1555081692; 1996064986;
   2554220882; 2821834349; 2952996808; 3210313671; 3336571891; 3584528711;
   113926993; 338241895; 666307205; 773529912; 1294757372; 1396182291;
   1695183700; 1986661051; 2177026350; 2456956037; 2730485921; 2820302411;
   3259730800; 3345764771; 3516065817; 3600352804; 4094571909; 275423344;
   430227734; 506948616; 659060556; 883997877; 958139571; 1322822218;
   1537002063; 1747873779; 1955562222; 2024104815; 2227730452; 2361852424;
   2428436474; 2756734187; 3204031479; 3329325298].
Definition H0 : list Z :=
  [1779033703; 3144134277; 1013904242; 2773480762; 1359893119; 2600822924;
   528734635; 1541459225].

Definition pad (msg : list Z) : list Z :=
  let l := Z.of_nat (length msg) in
  msg ++ [128] ++ repeat 0 (Z.to_nat ((55 - l) mod 64))
      ++ map (fun i => Z.shiftr (8 * l) (8 * (7 - Z.of_nat i)) mod 256) (seq 0 8).

Fixpoint words (bytes : list Z) : list Z :=
  match bytes with
  | a :: b :: c :: d :: rest =>
      Z.lor (Z.shiftl a 24) (Z.lor (Z.shiftl b 16) (Z.lor (Z.shiftl c 8) d))
      :: words rest
  | _ => []
  end.

Fixpoint schedule (n : nat) (w : list Z) : list Z :=
  match n with
  | O => w
  | S n' =>
      let t := length w in
      let back i := nth (t - i) w 0 in
      let s0 := Z.lxor (rotr 7 (back 15%nat))
                  (Z.lxor (rotr 18 (back 15%nat)) (Z.shiftr (back 15%nat) 3)) in
      let s1 := Z.lxor (rotr 17 (back 2%nat))
                  (Z.lxor (rotr 19 (back 2%nat)) (Z.shiftr (back 2%nat) 10)) in
      schedule n' (w ++ [w32 (back 16%nat + s0 + back 7%nat + s1)])
  end.

Definition round (st : list Z) (kw : Z * Z) : list Z :=
  match st with
  | [a; b; c; d; e; f; g; h] =>
      let S1 := Z.lxor (rotr 6 e) (Z.lxor (rotr 11 e) (rotr 25 e)) in
      let ch := Z.lxor (Z.land e f) (Z.land (Z.lxor e 4294967295) g) in
      let t1 := w32 (h + S1 + ch + fst kw + snd kw) in
      let S0 := Z.lxor (rotr 2 a) (Z.lxor (rotr 13 a) (rotr 22 a)) in
      let maj := Z.lxor (Z.land a b) (Z.lxor (Z.land a c) (Z.land b c)) in
      let t2 := w32 (S0 + maj) in
      [w32 (t1 + t2); a; b; c; w32 (d + t1); e; f; g]
  | _ => st
  end.

Definition compress (H : list Z) (block : list Z) : list Z :=
  let w := schedule 48 block in
  let st := fold_left round (combine K w) H in
  map (fun p => w32 (fst p + snd p)) (combine H st).

Definition be32 (x : Z) : list byte :=
  [byte_of_Z (Z.shiftr x 24); byte_of_Z (Z.shiftr x 16);
   byte_of_Z (Z.shiftr x 8); byte_of_Z x].

Definition digest (buf : Buffer) : Buffer :=
  let ws := words (pad (map Z_of_byte buf)) in
  let H := fold_left compress (chunks (length ws) 16 ws) H0 in
  flat_map (fun i => be32 (nth i H 0)) (seq 0 8).
End SHA256.

Module Keccak.
Definition w64 (x : Z) : Z := x mod 18446744073709551616.
Definition rotl (x n : Z) : Z :=
  Z.lor (w64 (Z.shiftl x n)) (Z.shiftr x (64 - n)).

Definition RC : list Z :=
  [1; 32898; 9223372036854808714; 9223372039002292224; 32907; 2147483649;
   9223372039002292353; 9223372036854808585; 138; 136; 2147516425; 2147483658;
   2147516555; 9223372036854775947; 9223372036854808713; 9223372036854808579;
   9223372036854808578; 9223372036854775936; 32778; 9223372039002259466;
   9223372039002292353; 9223372036854808704; 2147483649; 9223372039002292232].
(* rotation offsets, lane (x, y) at index x + 5 y *)
Definition ROT : list Z :=
  [0; 1; 62; 28; 27; 36; 44; 6; 55; 20; 3; 10; 43; 25; 39; 41; 45; 15; 21; 8;
   18; 2; 61; 56; 14].

Definition lane (st : list Z) (x y : nat) : Z := nth (x mod 5 + 5 * y) st 0.

Definition keccak_round (st : list Z) (rc : Z) : list Z :=
  let C x := Z.lxor (lane st x 0) (Z.lxor (lane st x 1) (Z.lxor (lane st x 2)
               (Z.lxor (lane st x 3) (lane st x 4)))) in
  let D x := Z.lxor (C (x + 4)%nat) (rotl (C (x + 1)%nat) 1) in
  let A := map (fun i => Z.lxor (nth i st 0) (D (i mod 5)%nat)) (seq 0 25) in
  let B := map (fun i =>
                  let X := (i mod 5)%nat in
                  let Y := (i / 5)%nat in
                  let xo := ((X + 3 * Y) mod 5)%nat in
                  rotl (lane A xo X) (nth (xo + 5 * X) ROT 0)) (seq 0 25) in
  let E := map (fun i =>
                  let X := (i mod 5)%nat in
                  let Y := (i / 5)%nat in
                  Z.lxor (lane B X Y)
                    (Z.land (Z.lxor (lane B (X + 1) Y) 18446744073709551615)
                            (lane B (X + 2) Y))) (seq 0 25) in
  match E with
  | e0 :: rest => Z.lxor e0 rc :: rest
  | [] => []
  end.

Definition keccak_f (st : list Z) : list Z := fold_left keccak_round RC st.

Definition rate : nat := 136.

Definition pad (msg : list Z) : list Z :=
  let k := (rate - 1 - length msg mod rate)%nat in
  match k with
  | O => msg ++ [134]
  | S k' => msg ++ [6] ++ repeat 0 k' ++ [128]
  end.

Fixpoint lanes (bytes : list Z) : list Z :=
  match bytes with
  | b0 :: b1 :: b2 :: b3 :: b4 :: b5 :: b6 :: b7 :: rest =>
      fold_right (fun b acc => b + 256 * acc) 0 [b0; b1; b2; b3; b4; b5; b6; b7]
      :: lanes rest
  | _ => []
  end.

Definition absorb (st : list Z) (block : list Z) : list Z :=
  let ls := lanes block in
  keccak_f (map (fun i => Z.lxor (nth i st 0) (nth i ls 0)) (seq 0 25)).

Definition le64 (x : Z) : list byte :=
  map (fun j => byte_of_Z (Z.shiftr x (8 * Z.of_nat j))) (seq 0 8).

Definition sha3_256_digest (buf : Buffer) : Buffer :=
  let m := pad (map Z_of_byte buf) in
  let st := fold_left absorb (chunks (length m) rate m) (repeat 0 25%nat) in
  flat_map (fun i => le64 (nth i st 0)) (seq 0 4).
End Keccak.

Module Sample.
Definition MIN_NUMBER : number := Num (-9223372036854775808).
Definition MAX_NUMBER : number := Num 9223372036854775807.
Definition BTM_ASSET_ID : string :=
  "ffffffffffffffffffffffffffffffffffffffffffffffffffffffffffffffff".
Definition Date_parse (s : string) : number :=
  if String.eqb s "1970-01-01T00:00:00.000Z" then Num 0 else NaN.
(* each character as the two hex digits of its code *)
Definition strToHexCharCode (s : string) : string :=
  Buffer_toString_hex (map byte_of_ascii (list_ascii_of_string s)).
Definition sha256 (buf : Buffer) : Buffer := SHA256.digest buf.
Definition sha3_256 (buf : Buffer) : string :=
  Buffer_toString_hex (Keccak.sha3_256_digest buf).

Definition listReceiver (v : string) : result Receiver :=
  Ok {| control_program := "0014" +:+ v |}.
Definition createAccountPubkey (v : string) : result AccountPubkey :=
  Ok {| root_xpub := "a1b2";
        pubkey_infos := [ {| pubkey := "c3d4";
                             pubkey_derivation_path := ["01"; "02"] |} ] |}.
Definition compile (source : string) (args : list WireValue)
  : result CompileResponse := Ok (CompileDone "00c0").
Definition createLockingTx (actions : list TxAction) (password : string)
  : result Utxo := Ok {| transactionId := "tx1" |}.

(* an input that carries the hash kind, and a provideHashInput *)
Definition hashKindInput (t n v f : string) : Input :=
  {| type := t; name := n; value := v; seed := None;
     hashType := Some {| hash_inputType := "String"; hash_hashFunction := f |};
     hashFunction := None; computedData := None; keyData := None;
     keyMap := None |}.
Definition provideHash (n v f : string) : Input :=
  {| type := "provideHashInput"; name := n; value := v; seed := None;
     hashType := None; hashFunction := Some f; computedData := None;
     keyData := None; keyMap := None |}.

(* a generateStringInput with a seed of 520 bytes (1040 hex digits) *)
Definition generateString (n v : string) : Input :=
  {| type := "generateStringInput"; name := n; value := v;
     seed := Some (Buffer_toString_hex (repeat "Z"%byte 520));
     hashType := None; hashFunction := None; computedData := None;
     keyData := None; keyMap := None |}.

(* the map of a list of inputs, keyed by name *)
Definition byName (inputs : list Input) : InputMap :=
  list_to_map ((fun input => (name input, input)) <$> inputs).

(* the subtree of the value slot "locked" *)
Definition valueInputs (password : string) : list Input :=
  [ plainInput "parameterInput" "contractValue.locked" "valueInput";
    plainInput "valueInput" "contractValue.locked.valueInput" "";
    plainInput "accountInput" "contractValue.locked.valueInput.accountInput" "acc1";
    plainInput "assetInput" "contractValue.locked.valueInput.assetInput"
               "assetAliasInput";
    plainInput "assetAliasInput"
               "contractValue.locked.valueInput.assetInput.assetAliasInput" "gold";
    plainInput "amountInput" "contractValue.locked.valueInput.amountInput" "500";
    plainInput "passwordInput" "contractValue.locked.valueInput.passwordInput"
               password;
    plainInput "gasInput" "contractValue.locked.valueInput.gasInput" "1" ].

(* the subtrees of the parameters "flag" (a boolean) and "secret" (a hash) *)
Definition parameterInputs (flag : string) : list Input :=
  [ plainInput "parameterInput" "contractParameters.flag" "booleanInput";
    plainInput "booleanInput" "contractParameters.flag.booleanInput" flag;
    plainInput "parameterInput" "contractParameters.secret" "hashInput";
    hashKindInput "hashInput" "contractParameters.secret.hashInput"
                  "generateHashInput" "sha256";
    hashKindInput "generateHashInput"
                  "contractParameters.secret.hashInput.generateHashInput"
                  "provideOriginInput" "sha256";
    plainInput "provideOriginInput"
      "contractParameters.secret.hashInput.generateHashInput.provideOriginInput"
      "abc";
    provideHash "contractParameters.secret.hashInput.provideHashInput" ""
                "sha256" ].

Definition inputMap : InputMap :=
  byName (parameterInputs "true" ++ valueInputs "pw").

(* the boolean parameter holds a text that is no boolean *)
Definition invalidInputMap : InputMap :=
  byName (parameterInputs "maybe" ++ valueInputs "pw").

(* the password was left empty *)
Definition noPasswordMap : InputMap :=
  byName (parameterInputs "true" ++ valueInputs "").

(* the preimage of the hash parameter is missing *)
Definition danglingMap : InputMap :=
  delete "contractParameters.secret.hashInput.generateHashInput.provideOriginInput"
         inputMap.

(* the funding subtree of the specification's example *)
Definition fundingMap : InputMap :=
  byName
    [ plainInput "valueInput" "contractValue.v" "";
      plainInput "accountInput" "contractValue.v.accountInput" "acc1";
      plainInput "assetInput" "contractValue.v.assetInput" "asset1";
      plainInput "amountInput" "contractValue.v.amountInput" "500";
      plainInput "passwordInput" "contractValue.v.passwordInput" "pw";
      plainInput "gasInput" "contractValue.v.gasInput" "1" ].

(* a valueInput without any of its children *)
Definition orphanMap : InputMap :=
  byName [ plainInput "valueInput" "contractValue.v" "" ].

(* the funding subtree without its passwordInput child *)
Definition noPasswordChildMap : InputMap :=
  delete "contractValue.v.passwordInput" fundingMap.

(* a generateHashInput whose value is not a primary input type *)
Definition nonPrimaryHashMap : InputMap :=
  byName [ hashKindInput "generateHashInput" "h" "provideStringInput" "sha256";
           plainInput "provideStringInput" "h.provideStringInput" "ab" ].

Definition compiled : Compiled.t :=
  {| Compiled.name := "LockWithSecret";
     Compiled.params := ["flag"; "secret"];
     Compiled.value := "locked";
     Compiled.opcodes := "";
     Compiled.program := "" |}.

Definition stateOf (inputs : option InputMap) (c : option Compiled.t)
  : AppState.t :=
  {| AppState.templates :=
       {| TemplateState.source := "contract LockWithSecret";
          TemplateState.sourceMap := ∅;
          TemplateState.idList := [""; "LockWithSecret"];
          TemplateState.protectedIdList := [];
          TemplateState.inputMap := inputs;
          TemplateState.compiled := c |} |}.

Definition state : AppState.t := stateOf (Some inputMap) (Some compiled).
Definition invalidState : AppState.t :=
  stateOf (Some invalidInputMap) (Some compiled).
End Sample.

(** Sample data for the rest of the excerpt: single inputs of the kinds
    getData reads, states of the create flow, and the trees
    addParameterInput builds. *)
Module Fresh.
(* crypto.randomBytes: every draw returns [size] bytes *)
Definition randomBytes (draw size : nat) : Buffer := repeat "Z"%byte size.

(* inputs of several kinds, each stored under its name *)
Definition kindsMap : InputMap :=
  Sample.byName
    [ plainInput "provideStringInput" "s.provideStringInput" "c0ffee";
      Sample.provideHash "h.provideHashInput"
        "ba7816bf8f01cfea414140de5dae2223b00361a396177a9cb410ff61f20015ad"
        "sha256";
      Sample.generateString "g.generateStringInput" "4";
      plainInput "numberInput" "n.numberInput" "42";
      plainInput "booleanInput" "b.booleanInput" "false" ].

(* a public key and an asset the user typed in: nothing to ask the node *)
Definition offlineMap : InputMap :=
  Sample.byName
    [ plainInput "publicKeyInput" "contractParameters.owner.publicKeyInput"
                 "provideStringInput";
      plainInput "provideStringInput"
        "contractParameters.owner.publicKeyInput.provideStringInput" "c3d4";
      plainInput "assetInput" "contractParameters.coin.assetInput"
                 "assetAliasInput";
      plainInput "assetAliasInput"
        "contractParameters.coin.assetInput.assetAliasInput" "a55e" ].

(* a public key derived by the node, as resolution leaves it *)
Definition derivedKey : Input :=
  {| type := "publicKeyInput";
     name := "contractParameters.owner.publicKeyInput";
     value := "accountInput"; seed := None; hashType := None;
     hashFunction := None; computedData := Some "c3d4";
     keyData := Some {| rootXpub := "a1b2";
                        pubkeyDerivationPath := ["01"; "02"] |};
     keyMap := None |}.
Definition derivedMap : InputMap := Sample.byName [derivedKey].

(* the hash parameter is set to hash a number: every input is valid on its
   own, and getData refuses the number *)
Definition hashOfNumberMap : InputMap :=
  Sample.byName
    ([ plainInput "parameterInput" "contractParameters.flag" "booleanInput";
       plainInput "booleanInput" "contractParameters.flag.booleanInput" "true";
       plainInput "parameterInput" "contractParameters.secret" "hashInput";
       Sample.hashKindInput "hashInput" "contractParameters.secret.hashInput"
                            "generateHashInput" "sha256";
       Sample.hashKindInput "generateHashInput"
         "contractParameters.secret.hashInput.generateHashInput"
         "numberInput" "sha256";
       plainInput "numberInput"
         "contractParameters.secret.hashInput.generateHashInput.numberInput"
         "5" ] ++ Sample.valueInputs "pw").
Definition hashOfNumberState : AppState.t :=
  Sample.stateOf (Some hashOfNumberMap) (Some Sample.compiled).

(* a parameterInput stored under the id of its child *)
Definition misfiledMap : InputMap :=
  {[ "p.hashInput" := plainInput "parameterInput" "p" "hashInput" ]}.

(* a state whose source is one of the stored templates *)
Definition libraryState : AppState.t :=
  {| AppState.templates :=
       {| TemplateState.source := "contract LockWithSecret";
          TemplateState.sourceMap :=
            {[ "LockWithSecret" := "contract LockWithSecret" ]};
          TemplateState.idList := [""; "LockWithSecret"];
          TemplateState.protectedIdList := [];
          TemplateState.inputMap := None;
          TemplateState.compiled := Some Sample.compiled |} |}.

(* the trees of a fresh String, Boolean and clause Time parameter *)
Definition stringParameterMap : InputMap :=
  Sample.byName
    [ plainInput "parameterInput" "contractParameters.secret" "stringInput";
      plainInput "stringInput" "contractParameters.secret.stringInput"
                 "generateStringInput";
      Sample.generateString
        "contractParameters.secret.stringInput.generateStringInput" "32";
      plainInput "provideStringInput"
        "contractParameters.secret.stringInput.provideStringInput" "" ].
Definition booleanParameterMap : InputMap :=
  Sample.byName
    [ plainInput "parameterInput" "contractParameters.flag" "booleanInput";
      plainInput "booleanInput" "contractParameters.flag.booleanInput" "false" ].
Definition timeParameterMap : InputMap :=
  Sample.byName
    [ plainInput "parameterInput" "clauseParameters.spend.deadline" "timeInput";
      plainInput "timeInput" "clauseParameters.spend.deadline.timeInput"
                 "blockheightTimeInput";
      plainInput "timestampTimeInput"
        "clauseParameters.spend.deadline.timeInput.timestampTimeInput" "" ].
End Fresh.

Section Console.

(** What the excerpt imports from files and libraries outside it. *)
Variables MIN_NUMBER MAX_NUMBER : number.       (* inputs/constants *)
Variable BTM_ASSET_ID : string.                 (* contracts/constants *)
Variable Date_parse : string -> number.         (* Date.parse *)
Variable strToHexCharCode : string -> string.   (* contracts/util *)
(* crypto.createHash('sha256').update(buf).digest() *)
Variable crypto_createHash_sha256 : Buffer -> Buffer.
Variable sha3_256 : Buffer -> string.           (* js-sha3, hex text *)

Definition sha256 (buf : Buffer) : Buffer := crypto_createHash_sha256 buf.

(** [validateInput]: the cases are tried in the order the switch lists
    them, so of two cases with the same label the first one is taken. *)
Definition validateInput (input : Input) : result bool :=
  let t := type input in
  let v := value input in
  if one_of t ["parameterInput"; "generateHashInput"] then
    Ok (isPrimaryInputType v)
  else if one_of t ["stringInput"] then
    Ok (String.eqb v "generateStringInput" || String.eqb v "provideStringInput")
  else if one_of t ["hashInput"] then
    Ok (String.eqb v "generateHashInput" || String.eqb v "provideHashInput")
  else if one_of t ["publicKeyInput"; "programInput"] then
    Ok (String.eqb v "accountInput" || String.eqb v "provideStringInput")
  else if one_of t ["generatePublicKeyInput"] then
    Ok (String.eqb v "generatePrivateKeyInput" || String.eqb v "providePrivateKeyInput")
  else if one_of t ["timeInput"] then
    Ok (String.eqb v "timestampTimeInput")
  else if one_of t ["generatePublicKeyInput"] then
    Ok (String.eqb v "accountInput")
  else if one_of t ["generateSignatureInput"] then
    Ok (String.eqb v "providePrivateKeyInput")
  else if one_of t ["provideStringInput"] then
    Ok (validateHex v)
  else if one_of t ["provideHashInput"] then
    if negb (validateHex v) then Ok false
    else match hashFunction input with
         | Some h =>
             if one_of h ["sha256"; "sha3"] then Ok (Z.of_nat (String.length v) =? 64)
             else Err (Thrown ("unsupported hash function: " +:+ h))
         | None => Err (Thrown "unsupported hash function: undefined")
         end
  else if one_of t ["generateStringInput"] then
    let length := parseInt v 10 in
    if isNaN length || num_lt length (Num 0) || num_gt length (Num 520) then Ok false
    else match seed input with
         | Some s => Ok (Z.of_nat (String.length s) =? 1040)
         | None => Err TypeError
         end
  else if one_of t ["booleanInput"] then
    Ok (String.eqb v "true" || String.eqb v "false")
  else if one_of t ["numberInput"] then
    let numberValue := parseInt v 10 in
    if isNaN numberValue then Ok false
    else Ok (num_ge numberValue MIN_NUMBER && num_le numberValue MAX_NUMBER)
  else if one_of t ["timestampTimeInput"] then
    Ok (negb (isNaN (Date_parse v)))
  else if one_of t ["amountInput"] then
    let numberValue := parseInt v 10 in
    if isNaN numberValue then Ok false
    else if num_lt numberValue (Num 0) then Ok false
    else Ok true
  else if one_of t ["accountInput"; "xpubInput"; "pathInput"; "assetInput";
                    "passwordInput"; "gasInput"; "btmUnitInput"; "signatureInput";
                    "assetAliasWithBTMInput"; "provideOriginInput"] then
    Ok (negb (String.eqb v ""))
  else if one_of t ["assetAliasInput"] then
    Ok (negb (String.eqb v "") && negb (String.eqb v BTM_ASSET_ID))
  else if one_of t ["valueInput"] then
    Ok true
  else if one_of t ["choosePublicKeyInput"] then
    Ok (bool_decide (is_Some (keyMap input)))
  else Err (Thrown ("input type not valid " +:+ t)).

Definition getGenerateStringInputValue (input : Input) : result string :=
  let length := parseInt (value input) 10 in
  if isNaN length || num_lt length (Num 0) || num_gt length (Num 520) then
    Err (Thrown ("invalid length value for generateStringInput: " +:+ value input))
  else
    match length, seed input with
    | Num l, Some s => Ok (String_slice s 0 (l * 2))
    | Num _, None => Err TypeError  (* input.seed is undefined *)
    | NaN, _ => Err (Thrown ("invalid length value for generateStringInput: "
                             +:+ value input))
    end.

(** [getData]: the body of the function, with [getData] standing for the
    recursive call. *)
Definition getData_body (getData : string -> InputMap -> result Data)
    (inputId : string) (inputsById : InputMap) : result Data :=
  match inputsById !! inputId with
  | None =>   (* the default case of validateInput *)
      unowned inputId "input type not valid undefined"
  | Some input =>
    valid ← validateInput input;
    if negb valid then Err (Thrown ("invalid input: " +:+ name input))
    else
    let t := type input in
    if one_of t ["timeInput"; "parameterInput"; "stringInput"; "hashInput";
                 "signatureInput"] then
      getData (getChild input) inputsById
    else if one_of t ["programInput"; "publicKeyInput"] then
      match computedData input with
      | None => Err (Thrown "input.computedData unexpectedly undefined")
      | Some d => Ok (DBuffer (Buffer_from_hex d))
      end
    else if one_of t ["provideStringInput"; "providePublicKeyInput";
                      "provideHashInput"; "provideSignatureInput"] then
      Ok (DBuffer (Buffer_from_hex (value input)))
    else if one_of t ["assetInput"] then
      match computedData input with
      | None => Err TypeError   (* Buffer.from(undefined, 'hex') *)
      | Some d => Ok (DBuffer (Buffer_from_hex d))
      end
    else if one_of t ["numberInput"; "amountInput"] then
      Ok (DNumber (parseInt (value input) 10))
    else if one_of t ["booleanInput"] then
      Ok (DNumber (if String.eqb (value input) "true" then Num 0 else Num 1))
    else if one_of t ["timestampTimeInput"] then
      Ok (DNumber (Date_parse (value input)))
    else if one_of t ["generateStringInput"] then
      generated ← getGenerateStringInputValue input;
      Ok (DBuffer (Buffer_from_hex generated))
    else if one_of t ["provideOriginInput"] then
      Ok (DBuffer (Buffer_from_hex (strToHexCharCode (value input))))
    else if one_of t ["generateHashInput"] then
      childData ← getData (getChild input) inputsById;
      match childData with
      | DNumber _ => Err (Thrown "should not generate hash of a number")
      | DBuffer childData =>
        match hashType input with
        | None => Err TypeError   (* input.hashType.hashFunction *)
        | Some ht =>
          if one_of (hash_hashFunction ht) ["sha256"] then
            Ok (DBuffer (sha256 childData))
          else if one_of (hash_hashFunction ht) ["sha3"] then
            Ok (DBuffer (Buffer_from_hex (sha3_256 childData)))
          else Err (Thrown "unexpected hash function")
        end
      end
    else Err (Thrown ("should not call getData with " +:+ t))
  end.

(* [fuel] bounds the depth of the recursion through child ids *)
Fixpoint getData (fuel : nat) : string -> InputMap -> result Data :=
  match fuel with
  | O => fun _ _ => Err RangeError
  | S fuel' => getData_body (getData fuel')
  end.

(* [a && b] on computations that can fail: [b] runs only when [a] is true *)
Definition and_then (a : result bool) (b : result bool) : result bool :=
  x ← a; if x : bool then b else Ok false.

Definition isValidInput_body (isValidInput : string -> InputMap -> result bool)
    (id : string) (inputMap : InputMap) : result bool :=
  match inputMap !! id with
  | None =>   (* the default case returns validateInput(input) *)
      unowned id "input type not valid undefined"
  | Some input =>
    let t := type input in
    if one_of t ["parameterInput"; "stringInput"; "hashInput"; "generateHashInput";
                 "publicKeyInput"; "timeInput"; "signatureInput"; "programInput";
                 "signatureInput"] then
      isValidInput (getChild input) inputMap
    else if one_of t ["valueInput"] then
      and_then (isValidInput (name input +:+ ".accountInput") inputMap)
     (and_then (isValidInput (name input +:+ ".assetInput") inputMap)
     (and_then (isValidInput (name input +:+ ".amountInput") inputMap)
     (and_then (isValidInput (name input +:+ ".passwordInput") inputMap)
               (isValidInput (name input +:+ ".gasInput") inputMap))))
    else validateInput input
  end.

Fixpoint isValidInput (fuel : nat) : string -> InputMap -> result bool :=
  match fuel with
  | O => fun _ _ => Err RangeError
  | S fuel' => isValidInput_body (isValidInput fuel')
  end.

(** ** Derived state ([templates/selectors]) *)

Definition getTemplateState (state : AppState.t) : TemplateState.t :=
  AppState.templates state.

Definition getSource (state : AppState.t) : string :=
  TemplateState.source (getTemplateState state).

Definition getInputMap (state : AppState.t) : option InputMap :=
  TemplateState.inputMap (getTemplateState state).

(* for (const id in inputMap) inputList.push(inputMap[id]); the order of the
   enumeration is the map's, and getContractValue does not depend on it *)
Definition getInputList (state : AppState.t) : option (list Input) :=
  match getInputMap state with
  | None => None
  | Some inputMap => Some ((map_to_list inputMap).*2)
  end.

(* the body of the forEach callback of getContractValue, run over the list;
   [sources] is the array the callback pushes to *)
Fixpoint collectSources (inputMap : InputMap) (inputList : list Input)
    (sources : list SpendFromAccount.t) : result (list SpendFromAccount.t) :=
  match inputList with
  | [] => Ok sources
  | input :: rest =>
    if String.eqb (type input) "valueInput" then
      let inputName := name input in
      accountId ← prop (inputMap !! (inputName +:+ ".accountInput")) value;
      assetId ← prop (inputMap !! (inputName +:+ ".assetInput")) value;
      amountText ← prop (inputMap !! (inputName +:+ ".amountInput")) value;
      let amount := parseInt amountText 10 in
      password ← prop (inputMap !! (inputName +:+ ".passwordInput")) value;
      if isNaN amount || num_lt amount (Num 0)
         || String.eqb accountId "" || String.eqb assetId ""
      then collectSources inputMap rest sources
      else collectSources inputMap rest
             (sources ++ [ {| SpendFromAccount.type := "spendFromAccount";
                              SpendFromAccount.accountId := accountId;
                              SpendFromAccount.assetId := assetId;
                              SpendFromAccount.amount := amount;
                              SpendFromAccount.password := password |} ])
    else collectSources inputMap rest sources
  end.

Definition getContractValue (state : AppState.t)
  : result (option SpendFromAccount.t) :=
  match getInputMap state, getInputList state with
  | Some inputMap, Some inputList =>
      sources ← collectSources inputMap inputList [];
      match sources with
      | [source] => Ok (Some source)
      | _ => Ok None
      end
  | _, _ => Err TypeError   (* inputList.forEach on undefined *)
  end.

Definition getCompiled (state : AppState.t) : option Compiled.t :=
  TemplateState.compiled (getTemplateState state).

Definition getContractParameters (state : AppState.t) : option (list string) :=
  match getCompiled state with
  | None => None
  | Some compiled => Some (Compiled.params compiled)
  end.

Definition getParameterIds (state : AppState.t) : option (list string) :=
  match getContractParameters state with
  | None => None
  | Some contractParameters =>
      Some ((fun param => "contractParameters." +:+ param) <$> contractParameters)
  end.

Definition getContractValueId (state : AppState.t) : option string :=
  match getCompiled state with
  | None => None
  | Some compiled => Some ("contractValue." +:+ Compiled.value compiled)
  end.

(* ids.filter(id => !isValidInput(id, inputMap)) *)
Fixpoint filterInvalid (fuel : nat) (ids : list string) (inputMap : InputMap)
  : result (list string) :=
  match ids with
  | [] => Ok []
  | id :: rest =>
      valid ← isValidInput fuel id inputMap;
      invalid ← filterInvalid fuel rest inputMap;
      Ok (if valid : bool then invalid else id :: invalid)
  end.

Definition areInputsValid (fuel : nat) (state : AppState.t) : result bool :=
  match getInputMap state, getParameterIds state, getContractValueId state with
  | Some inputMap, Some parameterIds, Some contractValueId =>
      invalid ← filterInvalid fuel (parameterIds ++ [contractValueId]) inputMap;
      Ok (Nat.eqb (length invalid) 0)
  | _, _, _ => Ok false
  end.

(* for (let id of parameterIds) contractArgs.push(getData(id, inputMap)) *)
Fixpoint getDataAll (fuel : nat) (parameterIds : list string) (inputMap : InputMap)
  : result (list Data) :=
  match parameterIds with
  | [] => Ok []
  | id :: rest =>
      data ← getData fuel id inputMap;
      contractArgs ← getDataAll fuel rest inputMap;
      Ok (data :: contractArgs)
  end.

Definition getContractArgs (fuel : nat) (state : AppState.t) (inputMap : InputMap)
  : M (list Data) :=
  match getParameterIds state with
  | None => throw (Thrown
      "parameter IDs should not be undefined when getParameterData is called")
  | Some parameterIds =>
      try_catch (lift (getDataAll fuel parameterIds inputMap))
                (fun e => emit (ConsoleLog e);; mret [])
  end.

(** ** Asynchronous resolution ([inputs/data]) *)

(* the remote client and the locking-transaction service: the answer each
   call settles with ([Err] is a rejected promise) *)
Variable client_listReceiver : string -> result Receiver.
Variable client_createAccountPubkey : string -> result AccountPubkey.
Variable client_compile : string -> list WireValue -> result CompileResponse.
Variable createLockingTx : list TxAction -> string -> result Utxo.

(* { ...input, computedData, keyData } *)
Definition withComputed (input : Input) (data : string) (key : option KeyData)
  : Input :=
  {| type := type input; name := name input; value := value input;
     seed := seed input; hashType := hashType input;
     hashFunction := hashFunction input; computedData := Some data;
     keyData := match key with Some k => Some k | None => keyData input end;
     keyMap := keyMap input |}.

(** [getPromiseData]: the events are the calls made while the promise is
    built; the inner result is what the promise settles with. *)
Definition getPromiseData (inputId : string) (inputsById : InputMap)
  : M (result Input) :=
  match inputsById !! inputId with
  | None => lift (unowned inputId "cannot call getPromiseData with undefined")
  | Some input =>
    let t := type input in
    if one_of t ["assetInput"] then
      inputValue ← lift (prop (inputsById !! (name input +:+ "." +:+ value input)) value);
      mret (Ok (withComputed input inputValue None))
    else if one_of t ["programInput"] then
      inputValue ← lift (prop (inputsById !! (name input +:+ "." +:+ value input)) value);
      if String.eqb (value input) "provideStringInput" then
        mret (Ok (withComputed input inputValue None))
      else
        emit (ClientListReceiver inputValue);;
        mret (receiver ← client_listReceiver inputValue;
              Ok (withComputed input (control_program receiver) None))
    else if one_of t ["publicKeyInput"] then
      inputValue ← lift (prop (inputsById !! (name input +:+ "." +:+ value input)) value);
      if String.eqb (value input) "provideStringInput" then
        mret (Ok (withComputed input inputValue None))
      else
        emit (ClientCreateAccountPubkey inputValue);;
        mret (publicKey ← client_createAccountPubkey inputValue;
              match pubkey_infos publicKey with
              | info :: _ =>
                  Ok (withComputed input (pubkey info)
                        (Some {| rootXpub := root_xpub publicKey;
                                 pubkeyDerivationPath := pubkey_derivation_path info |}))
              | [] => Err TypeError
              end)
    else throw (Thrown ("cannot call getPromiseData with " +:+ t))
  end.

(* the loop of getPromisedInputMap over the entries of the map *)
Fixpoint promiseEntries (inputsById : InputMap) (entries : list (string * Input))
  : M (list (string * result Input)) :=
  match entries with
  | [] => mret []
  | (id, input) :: rest =>
      promised ←
        (if one_of (type input) ["publicKeyInput"; "programInput"; "assetInput"]
         then getPromiseData id inputsById
         else mret (Ok input));
      others ← promiseEntries inputsById rest;
      mret ((id, promised) :: others)
  end.

(* Promise.props: the map of the settled values, or the first rejection *)
Fixpoint Promise_props (entries : list (string * result Input)) : result InputMap :=
  match entries with
  | [] => Ok ∅
  | (id, promised) :: rest =>
      input ← promised;
      others ← Promise_props rest;
      Ok (<[id := input]> others)
  end.

Definition getPromisedInputMap (inputsById : InputMap) : M (result InputMap) :=
  entries ← promiseEntries inputsById (map_to_list inputsById);
  mret (Promise_props entries).

(** ** The create action ([contracts/actions]) *)

(* the callback of getContractArgs(...).map(...) *)
Definition coerceArg (param : jsvalue) : result WireValue :=
  match param with
  | VBuffer b => Ok (wire_string (Buffer_toString_hex b))
  | VString s => Ok (wire_string s)
  | VNumber n => Ok (wire_integer n)
  | VBoolean b => Ok (wire_boolean b)
  | _ => Err (Thrown ("unsupported argument type " +:+ typeof param))
  end.

Fixpoint coerceArgs (params : list jsvalue) : result (list WireValue) :=
  match params with
  | [] => Ok []
  | param :: rest =>
      arg ← coerceArg param;
      args ← coerceArgs rest;
      Ok (arg :: args)
  end.

(* from the resolved arguments to the last dispatch of the success handler *)
Definition submit (source : string) (spendFromAccount : SpendFromAccount.t)
    (params : list jsvalue) : M unit :=
  args ← lift (coerceArgs params);
  emit (ClientCompile source args);;
  resp ← lift (client_compile source args);
  match resp with
  | CompileFail data => throw data
  | CompileDone program =>
      let actions :=
        [ ActSpendFromAccount spendFromAccount;
          ActControlWithReceiver program
            (SpendFromAccount.assetId spendFromAccount)
            (SpendFromAccount.amount spendFromAccount);
          ActGas (SpendFromAccount.accountId spendFromAccount) 20000000
            "spendFromAccount"
            "ffffffffffffffffffffffffffffffffffffffffffffffffffffffffffffffff" ] in
      let password := SpendFromAccount.password spendFromAccount in
      emit (CreateLockingTx actions password);;
      utxo ← lift (createLockingTx actions password);
      dispatch (setSource source);;
      dispatch (updateIsCalling false);;
      dispatch (updateLockMessage
        (_success "transactions has been submited successfully."
                  ("/dashboard/transactions/" +:+ transactionId utxo)
                  (transactionId utxo)));;
      dispatch (showLockInputMessages true)
  end.

(* the .catch handler *)
Definition onRejected (err : error) : M unit :=
  emit (ConsoleLog err);;
  dispatch (updateIsCalling false);;
  dispatch (updateLockMessage (_error err));;
  dispatch (showLockInputMessages true).

(** [create]: what is thrown before the promise chain is built escapes the
    action; what fails inside the chain reaches [onRejected].

    The source builds the chain and returns; the handlers of the chain run
    later, as the remote calls settle.  The events of [create] are those of
    the call followed by those of the chain once every remote call has
    answered, in the order they happen, and the outcome [Ok] is that of the
    settled chain; [Err] is a throw of the call itself, before the chain is
    built.  Every prefix of the events that ends before a remote call is
    answered is what a run has done while that call is pending. *)
Definition create (fuel : nat) (state : AppState.t) : M unit :=
  dispatch (updateIsCalling true);;
  valid ← lift (areInputsValid fuel state);
  if negb valid then
    dispatch (updateIsCalling false);;
    dispatch (showLockInputMessages true);;
    dispatch (updateLockMessage
      (_error (Thrown "One or more arguments to the contract are invalid.")))
  else
    inputMap ← match getInputMap state with
               | Some inputMap => mret inputMap
               | None => throw (Thrown
                   "create should not have been called when inputMap is undefined")
               end;
    let source := getSource state in
    contractValue ← lift (getContractValue state);
    spendFromAccount ← match contractValue with
                       | Some s => mret s
                       | None => throw (Thrown
                           "spendFromAccount should not be undefined here")
                       end;
    promisedInputMap ← getPromisedInputMap inputMap;
    try_catch
      (resolved ← lift promisedInputMap;
       params ← getContractArgs fuel state resolved;
       submit source spendFromAccount (jsvalue_of_Data <$> params))
      onRejected.

(** ** Notions the properties are stated with *)

(* the events that reach the remote node *)
Definition is_remote_call (e : Event) : bool :=
  match e with
  | ClientListReceiver _ | ClientCreateAccountPubkey _
  | ClientCompile _ _ | CreateLockingTx _ _ => true
  | Dispatch _ | ConsoleLog _ => false
  end.

(* a runtime type the coercion has no case for *)
Definition unsupported (v : jsvalue) : Prop :=
  match v with
  | VBuffer _ | VString _ | VNumber _ | VBoolean _ => False
  | _ => True
  end.

Definition wire_of_Data (d : Data) : WireValue :=
  match d with
  | DBuffer b => wire_string (Buffer_toString_hex b)
  | DNumber n => wire_integer n
  end.

(** In the specification's words: a valueInput entry qualifies when its
    accountInput and assetInput child values are non-empty and its
    amountInput child parses to a non-negative integer. *)
Definition qualifies (inputMap : InputMap) (input : Input) : bool :=
  String.eqb (type input) "valueInput"
  && match inputMap !! (name input +:+ ".accountInput"),
           inputMap !! (name input +:+ ".assetInput"),
           inputMap !! (name input +:+ ".amountInput") with
     | Some account, Some asset, Some amount =>
         negb (String.eqb (value account) "")
         && negb (String.eqb (value asset) "")
         && match parseInt (value amount) 10 with
            | Num z => 0 <=? z
            | NaN => false
            end
     | _, _, _ => false
     end.

(** In the specification's words: type 'spendFromAccount', accountId,
    assetId and password copied from the child inputs, amount the base-10
    parse of the amountInput child. *)
Definition fundingSource (inputMap : InputMap) (input : Input)
  : option SpendFromAccount.t :=
  account ← inputMap !! (name input +:+ ".accountInput");
  asset ← inputMap !! (name input +:+ ".assetInput");
  amount ← inputMap !! (name input +:+ ".amountInput");
  password ← inputMap !! (name input +:+ ".passwordInput");
  Some {| SpendFromAccount.type := "spendFromAccount";
          SpendFromAccount.accountId := value account;
          SpendFromAccount.assetId := value asset;
          SpendFromAccount.amount := parseInt (value amount) 10;
          SpendFromAccount.password := value password |}.

(* the four children getContractValue reads of a valueInput entry *)
Definition children_present (inputMap : InputMap) (input : Input) : Prop :=
  is_Some (inputMap !! (name input +:+ ".accountInput"))
  /\ is_Some (inputMap !! (name input +:+ ".assetInput"))
  /\ is_Some (inputMap !! (name input +:+ ".amountInput"))
  /\ is_Some (inputMap !! (name input +:+ ".passwordInput")).

#[global] Instance children_present_dec (inputMap : InputMap) (input : Input)
  : Decision (children_present inputMap input) :=
  ltac:(unfold children_present; exact _).

(** [getData_calls m id id']: resolving [id] calls getData on [id']. *)
Inductive getData_calls (inputsById : InputMap) : string -> string -> Prop :=
| getData_calls_child (id : string) (input : Input) :
    inputsById !! id = Some input ->
    validateInput input = Ok true ->
    one_of (type input) ["timeInput"; "parameterInput"; "stringInput";
                         "hashInput"; "signatureInput"; "generateHashInput"]
    = true ->
    getData_calls inputsById id (getChild input).

(* the fixed children of a valueInput, in the order isValidInput visits them *)
Definition valueChildren : list string :=
  [".accountInput"; ".assetInput"; ".amountInput"; ".passwordInput"; ".gasInput"].

(** [isValidInput_calls m id id']: validating [id] calls isValidInput on
    [id']; a child of a valueInput is visited when the children before it
    are valid. *)
Inductive isValidInput_calls (inputMap : InputMap) : string -> string -> Prop :=
| isValidInput_calls_child (id : string) (input : Input) :
    inputMap !! id = Some input ->
    one_of (type input) ["parameterInput"; "stringInput"; "hashInput";
                         "generateHashInput"; "publicKeyInput"; "timeInput";
                         "signatureInput"; "programInput"] = true ->
    isValidInput_calls inputMap id (getChild input)
| isValidInput_calls_value (id : string) (input : Input) (k : nat)
    (suffix : string) :
    inputMap !! id = Some input ->
    type input = "valueInput" ->
    valueChildren !! k = Some suffix ->
    (forall j earlier, (j < k)%nat -> valueChildren !! j = Some earlier ->
       exists fuel,
         isValidInput fuel (name input +:+ earlier) inputMap = Ok true) ->
    isValidInput_calls inputMap id (name input +:+ suffix).

(* the maps the application builds: every input is stored under its name *)
Definition keyed_by_name (inputMap : InputMap) : Prop :=
  forall id input, inputMap !! id = Some input -> name input = id.

(* no key is longer than [bound] *)
Definition key_bound (inputMap : InputMap) (bound : nat) : Prop :=
  forall id input, inputMap !! id = Some input ->
                   (String.length id <= bound)%nat.

(** ** The rest of [inputs/data]: hex rendering, names and type tables *)

Definition computeDataForInput (fuel : nat) (id : string) (inputMap : InputMap)
  : result string :=
  data ← getData fuel id inputMap;
  match data with
  | DNumber _ => Err (Thrown "should not get data for a number")
  | DBuffer b => Ok (Buffer_toString_hex b)
  end.

(* str.split(sep) for a separator of one character: never the empty list *)
Fixpoint String_split (sep : ascii) (s : string) : list string :=
  match s with
  | EmptyString => [""]
  | String c s' =>
      if Ascii.eqb c sep then "" :: String_split sep s'
      else match String_split sep s' with
           | segment :: rest => String c segment :: rest
           | [] => [String c ""]
           end
  end.

(* array[i]: undefined out of range *)
Definition at_index (segments : list string) (i : nat) : option string :=
  segments !! i.

(* name.split(".")[0], which always exists *)
Definition getInputNameContext (name : string) : string :=
  default "" (at_index (String_split "." name) 0).

Definition getInputContext (input : Input) : string :=
  getInputNameContext (name input).

Definition getParameterIdentifier (input : Input) : result (option string) :=
  let context := getInputContext input in
  if one_of context ["contractParameters"; "contractValue"] then
    Ok (at_index (String_split "." (name input)) 1)
  else if one_of context ["clauseParameters"] then
    Ok (at_index (String_split "." (name input)) 2)
  else if one_of context ["clauseValue"] then
    Ok (at_index (String_split "." (name input)) 2)
  else Err (Thrown ("unexpected input for getParameterIdentifier: "
                    +:+ name input)).

Definition isComplexType (inputType : string) : bool :=
  one_of inputType ["parameterInput"; "generateHashInput"; "hashInput";
                    "stringInput"; "publicKeyInput"; "timeInput";
                    "generatePublicKeyInput"; "generateSignatureInput";
                    "signatureInput"; "programInput"].

Definition isComplexInput (input : Input) : bool := isComplexType (type input).

(* ClauseParameterType: the name of a primitive type, or a hash kind *)
Inductive ClauseParameterType :=
| TypeName (t : string)
| TypeHash (h : ClauseParameterHash).

(** Modelled from the spec: [isHash] of inputs/types, the type guard that
    recognises "a parameterized hash kind"; it is absent from the excerpt. *)
Definition isHash (t : ClauseParameterType) : bool :=
  match t with TypeHash _ => true | TypeName _ => false end.

Definition getInputType (t : ClauseParameterType) : result string :=
  if isHash t then Ok "hashInput"
  else match t with
  | TypeName t =>
      if one_of t ["Integer"] then Ok "numberInput"
      else if one_of t ["Boolean"] then Ok "booleanInput"
      else if one_of t ["Hash"; "String"] then Ok "stringInput"
      else if one_of t ["OriginString"] then Ok "provideOriginInput"
      else if one_of t ["PublicKey"] then Ok "publicKeyInput"
      else if one_of t ["Time"] then Ok "timeInput"
      else if one_of t ["Signature"] then Ok "signatureInput"
      else if one_of t ["Value"] then Ok "valueInput"
      else if one_of t ["Program"] then Ok "programInput"
      else if one_of t ["Asset"] then Ok "assetInput"
      else if one_of t ["Amount"] then Ok "amountInput"
      else Err (Thrown ("can't yet get input type for " +:+ t))
  | TypeHash _ => Err (Thrown "can't yet get input type for [object Object]")
  end.

(** The default tables return [undefined] ([None]) for a type they have no
    case for. *)
Definition getDefaultContractParameterValue (inputType inputContext : string)
  : result (option string) :=
  let t := inputType in
  if one_of t ["parameterInput"; "generateHashInput"; "booleanInput"] then
    Ok (Some "false")
  else if one_of t ["generateStringInput"] then Ok (Some "32")
  else if one_of t ["numberInput"; "timestampTimeInput"] then Ok (Some "")
  else if one_of t ["provideStringInput"; "provideHashInput";
                    "providePublicKeyInput"; "providePrivateKeyInput";
                    "provideSignatureInput"] then Ok (Some "")
  else if one_of t ["stringInput"] then Ok (Some "generateStringInput")
  else if one_of t ["hashInput"] then Ok (Some "generateHashInput")
  else if one_of t ["generatePublicKeyInput"] then
    Ok (Some "generatePrivateKeyInput")
  else if one_of t ["publicKeyInput"] then Ok (Some "accountInput")
  else if one_of t ["generateSignatureInput"] then
    Ok (Some "providePrivateKeyInput")
  else if one_of t ["programInput"] then Ok (Some "accountInput")
  else if one_of t ["booleanInput"] then Ok (Some "false")
  else if one_of t ["timeInput"] then Ok (Some "timestampTimeInput")
  else if one_of t ["assetInput"] then
    if String.eqb inputContext "contractValue" then Ok (Some "assetAliasInput")
    else Ok (Some "assetAliasWithBTMInput")
  else if one_of t ["provideOriginInput"; "accountInput"; "assetAliasInput";
                    "xpubInput"; "pathInput"; "valueInput"; "assetInput";
                    "amountInput"; "passwordInput"; "gasInput"; "btmUnitInput"]
  then Ok (Some "")
  else if one_of t ["signatureInput"; "choosePublicKeyInput";
                    "generatePrivateKeyInput"] then
    Err (Thrown (t +:+ " should not be allowed"))
  else Ok None.

Definition getDefaultUnlockValue (inputType inputContext : string)
  : result (option string) :=
  if one_of inputType ["programInput"] then Ok (Some "generateProgramInput")
  else getDefaultContractParameterValue inputType inputContext.

Definition getDefaultClauseParameterValue (inputType : string)
  : result (option string) :=
  let t := inputType in
  if one_of t ["parameterInput"; "generateHashInput"] then
    Err (Thrown ("getDefaultClauseParameterValue should not be called on "
                 +:+ t))
  else if one_of t ["booleanInput"] then Ok (Some "false")
  else if one_of t ["generateStringInput"] then Ok (Some "32")
  else if one_of t ["numberInput"; "timestampTimeInput"] then Ok (Some "")
  else if one_of t ["provideStringInput"; "provideHashInput";
                    "providePublicKeyInput"; "providePrivateKeyInput";
                    "provideSignatureInput"] then Ok (Some "")
  else if one_of t ["stringInput"] then Ok (Some "provideStringInput")
  else if one_of t ["hashInput"] then Ok (Some "provideHashInput")
  else if one_of t ["publicKeyInput"] then Ok (Some "accountInput")
  else if one_of t ["assetInput"] then Ok (Some "assetAliasInput")
  else if one_of t ["signatureInput"] then Ok (Some "accountInput")
  else if one_of t ["generatePublicKeyInput"; "generateSignatureInput"] then
    Ok (Some "providePrivateKeyInput")
  else if one_of t ["booleanInput"] then Ok (Some "false")
  else if one_of t ["timeInput"] then Ok (Some "blockheightTimeInput")
  else if one_of t ["programInput"] then Ok (Some "accountInput")
  else if one_of t ["accountInput"; "xpubInput"; "pathInput"; "assetInput";
                    "valueInput"; "assetAliasInput"; "amountInput";
                    "passwordInput"; "gasInput"; "btmUnitInput";
                    "choosePublicKeyInput"] then Ok (Some "")
  else if one_of t ["generatePrivateKeyInput"] then
    Err (Thrown (t +:+ " should not be allowed"))
  else Ok None.

Definition getDefaultValue (inputType name : string) : result (option string) :=
  let inputContext := getInputNameContext name in
  if one_of inputContext ["clauseParameters"] then
    getDefaultClauseParameterValue inputType
  else if one_of inputContext ["contractParameters"] then
    getDefaultContractParameterValue inputType inputContext
  else if one_of inputContext ["contractValue"] then
    getDefaultContractParameterValue inputType inputContext
  else if one_of inputContext ["clauseValue"] then
    getDefaultClauseParameterValue inputType
  else if one_of inputContext ["unlockValue"] then
    getDefaultUnlockValue inputType inputContext
  else Ok None.

(** ** The rest of [templates/selectors] *)

Definition getSourceMap (state : AppState.t) : gmap string string :=
  TemplateState.sourceMap (getTemplateState state).

Definition getProtectedIdList (state : AppState.t) : list string :=
  TemplateState.protectedIdList (getTemplateState state).

Definition getTemplateIds (state : AppState.t) : list string :=
  TemplateState.idList (getTemplateState state).

Definition getTemplate (id : string) (state : AppState.t) : option string :=
  getSourceMap state !! id.

(* for (const key in sourceMap) if (sourceMap[key] === source) return false *)
Fixpoint noneEquals (source : string) (sources : list string) : bool :=
  match sources with
  | [] => true
  | s :: rest => if String.eqb s source then false else noneEquals source rest
  end.

Definition hasSourceChanged (source : string) (state : AppState.t) : bool :=
  noneEquals source ((map_to_list (getSourceMap state)).*2).

Definition getOpcodes (state : AppState.t) : option string :=
  match getCompiled state with
  | None => None
  | Some compiled => Some (Compiled.opcodes compiled)
  end.

Definition getSelectedTemplate (state : AppState.t) : string :=
  match getCompiled state with
  | None => ""
  | Some compiled =>
      match getSourceMap state !! Compiled.name compiled with
      | None =>   (* an inherited member is not undefined *)
          if inherited (Compiled.name compiled) then Compiled.name compiled
          else ""
      | Some _ => Compiled.name compiled
      end
  end.

(** ** Building the default input tree ([inputs/data]) *)

(* crypto.randomBytes(size): the bytes the n-th call returns *)
Variable crypto_randomBytes : nat -> nat -> Buffer.

(** An input literal as the builders push it.  Its value is what the
    default table returned, [undefined] included. *)
Record NewInput := {
  new_type : string;
  new_value : option string;
  new_name : string;
  new_seed : option string;
  new_hashType : option ClauseParameterHash;
  new_hashFunction : option string;
  new_valueType : option ClauseParameterType
}.

(* { type, value, name } *)
Definition newInput (t : string) (v : option string) (n : string) : NewInput :=
  {| new_type := t; new_value := v; new_name := n; new_seed := None;
     new_hashType := None; new_hashFunction := None; new_valueType := None |}.

(* the input a pushed literal is, when it has a value *)
Definition asInput (n : NewInput) : option Input :=
  v ← new_value n;
  Some {| type := new_type n; name := new_name n; value := v;
          seed := new_seed n; hashType := new_hashType n;
          hashFunction := new_hashFunction n; computedData := None;
          keyData := None; keyMap := None |}.

(** The builders mutate the array they are given and draw random bytes:
    a computation over the array and the number of draws made so far.  What
    was pushed before a throw stays pushed. *)
Record BuildState := { built : list NewInput; drawn : nat }.

Record Build (A : Type) :=
  mkBuild { runBuild : BuildState -> BuildState * result A }.
#[global] Arguments mkBuild {A} runBuild.
#[global] Arguments runBuild {A} b st.

#[global] Instance Build_ret : MRet Build :=
  fun A a => mkBuild (fun st => (st, Ok a)).
#[global] Instance Build_bind : MBind Build := fun A B f b =>
  mkBuild (fun st =>
    match runBuild b st with
    | (st', Ok a) => runBuild (f a) st'
    | (st', Err e) => (st', Err e)
    end).

(* inputs.push(input) *)
Definition push (input : NewInput) : Build unit :=
  mkBuild (fun st => ({| built := built st ++ [input]; drawn := drawn st |},
                      Ok tt)).
Definition randomBytes (size : nat) : Build Buffer :=
  mkBuild (fun st => ({| built := built st; drawn := S (drawn st) |},
                      Ok (crypto_randomBytes (drawn st) size))).
Definition liftB {A} (r : result A) : Build A := mkBuild (fun st => (st, r)).
#[global] Arguments liftB {A} r.

(** [addDefaultInput]: [fuel] bounds the depth of the recursion into the
    children.  The generatePublicKeyInput case has no return and runs on
    into the timeInput case; the gasInput case runs on into the default. *)
Fixpoint addDefaultInput (fuel : nat) (inputType parentName : string)
  : Build unit :=
  match fuel with
  | O => liftB (Err RangeError)
  | S fuel' =>
    let name := parentName +:+ "." +:+ inputType in
    let inputContext := getInputNameContext parentName in
    value ← liftB (getDefaultValue inputType name);
    (if one_of inputType ["generateStringInput"] then
       bytes ← randomBytes 520;
       push {| new_type := "generateStringInput"; new_value := value;
               new_name := name; new_seed := Some (Buffer_toString_hex bytes);
               new_hashType := None; new_hashFunction := None;
               new_valueType := None |}
     else if one_of inputType ["btmUnitInput"] then
       push (newInput "btmUnitInput" (Some "btm") name)
     else push (newInput inputType value name));;
    if one_of inputType ["stringInput"] then
      addDefaultInput fuel' "generateStringInput" name;;
      addDefaultInput fuel' "provideStringInput" name
    else if one_of inputType ["publicKeyInput"] then
      addDefaultInput fuel' "accountInput" name;;
      addDefaultInput fuel' "provideStringInput" name
    else if one_of inputType ["generatePublicKeyInput"] then
      addDefaultInput fuel' "generatePrivateKeyInput" name;;
      addDefaultInput fuel' "providePrivateKeyInput" name;;
      addDefaultInput fuel' "timestampTimeInput" name
    else if one_of inputType ["timeInput"] then
      addDefaultInput fuel' "timestampTimeInput" name
    else if one_of inputType ["signatureInput"] then
      addDefaultInput fuel' "accountInput" name
    else if one_of inputType ["generateSignatureInput"] then
      addDefaultInput fuel' "providePrivateKeyInput" name
    else if one_of inputType ["valueInput"] then
      addDefaultInput fuel' "accountInput" name;;
      addDefaultInput fuel' "assetInput" name;;
      addDefaultInput fuel' "amountInput" name;;
      addDefaultInput fuel' "passwordInput" name;;
      addDefaultInput fuel' "gasInput" name
    else if one_of inputType ["programInput"] then
      addDefaultInput fuel' "accountInput" name;;
      addDefaultInput fuel' "provideStringInput" name
    else if one_of inputType ["assetInput"] then
      (if String.eqb inputContext "contractValue"
          || String.eqb inputContext "clauseParameters"
       then addDefaultInput fuel' "assetAliasInput" name
       else addDefaultInput fuel' "assetAliasWithBTMInput" name);;
      addDefaultInput fuel' "provideStringInput" name
    else if one_of inputType ["gasInput"] then
      addDefaultInput fuel' "btmUnitInput" name
    else mret tt
  end.

(* addHashInputs and addHashInput, with [addInputForType] standing for the
   function of that name *)
Definition addHashInputs
    (addInputForType : ClauseParameterType -> string -> Build unit)
    (type : ClauseParameterHash) (parentName : string) : Build unit :=
  let name := parentName +:+ ".generateHashInput" in
  value ← liftB (getInputType (TypeName "OriginString"));
  push {| new_type := "generateHashInput"; new_value := Some value;
          new_name := name; new_seed := None; new_hashType := Some type;
          new_hashFunction := None; new_valueType := None |};;
  addInputForType (TypeName "OriginString") name;;
  push {| new_type := "provideHashInput"; new_value := Some "";
          new_name := parentName +:+ ".provideHashInput"; new_seed := None;
          new_hashType := None;
          new_hashFunction := Some (hash_hashFunction type);
          new_valueType := None |}.

Definition addHashInput
    (addInputForType : ClauseParameterType -> string -> Build unit)
    (type : ClauseParameterHash) (parentName : string) : Build unit :=
  let name := parentName +:+ ".hashInput" in
  push {| new_type := "hashInput"; new_value := Some "generateHashInput";
          new_name := name; new_seed := None; new_hashType := Some type;
          new_hashFunction := None; new_valueType := None |};;
  addHashInputs addInputForType type name.

(* the first branch is the one isHash(parameterType) selects *)
Fixpoint addInputForType (fuel : nat) (parameterType : ClauseParameterType)
    (parentName : string) : Build unit :=
  match fuel with
  | O => liftB (Err RangeError)
  | S fuel' =>
    match parameterType with
    | TypeHash h => addHashInput (addInputForType fuel') h parentName
    | TypeName _ =>
        inputType ← liftB (getInputType parameterType);
        addDefaultInput fuel' inputType parentName
    end
  end.

Definition addParameterInput (fuel : nat) (valueType : ClauseParameterType)
    (name : string) : Build unit :=
  inputType ← liftB (getInputType valueType);
  push {| new_type := "parameterInput"; new_value := Some inputType;
          new_name := name; new_seed := None; new_hashType := None;
          new_hashFunction := None; new_valueType := Some valueType |};;
  addInputForType fuel valueType name.

(* the loop of getPublicKeys over the entries of the map *)
Fixpoint collectKeys (entries : list Input) (mapping : gmap string KeyData)
  : result (gmap string KeyData) :=
  match entries with
  | [] => Ok mapping
  | input :: rest =>
      if String.eqb (type input) "publicKeyInput" then
        match computedData input with
        | None => Err (Thrown "input.computedData unexpectedly undefined")
        | Some computed =>
            match keyData input with
            | None => Err (Thrown "input.keyData unexpectedly undefined")
            | Some key => collectKeys rest (<[computed := key]> mapping)
            end
        end
      else collectKeys rest mapping
  end.

Definition getPublicKeys (inputsById : InputMap) : result (gmap string KeyData) :=
  collectKeys ((map_to_list inputsById).*2) ∅.

(** ** Notions for the further properties *)

(* what asynchronous resolution may change of an input: it sets
   computedData, and keyData when a key was derived *)
Definition resolved_from (input input' : Input) : Prop :=
  type input' = type input /\ name input' = name input
  /\ value input' = value input /\ seed input' = seed input
  /\ hashType input' = hashType input
  /\ hashFunction input' = hashFunction input
  /\ keyMap input' = keyMap input
  /\ is_Some (computedData input').

(* the calls getPromisedInputMap makes *)
Definition is_resolution_call (e : Event) : bool :=
  match e with
  | ClientListReceiver _ | ClientCreateAccountPubkey _ => true
  | _ => false
  end.

(* what a builder may do to the array it is given when called for
   [parentName]: append inputs whose names lie below [parentName] *)
Definition pushed_below (parentName : string) (st st' : BuildState) : Prop :=
  exists news,
    built st' = built st ++ news
    /\ Forall (fun n => exists path, new_name n = parentName +:+ "." +:+ path)
              news
    /\ (drawn st <= drawn st')%nat.


(* a map that stores each of the built inputs that has a value under its
   name *)
Definition stores (inputMap : InputMap) (news : list NewInput) : Prop :=
  Forall (fun n => forall input,
            asInput n = Some input -> inputMap !! new_name n = Some input)
         news.

(** * Properties *)

(** ** Strings, hex and slices *)

Lemma eqb_true_iff (a b : string) : String.eqb a b = true <-> a = b.
Proof. apply String.eqb_eq. Qed.

Lemma one_of_single (s x : string) : one_of s [x] = String.eqb s x.
Proof. unfold one_of. cbn. apply orb_false_r. Qed.

Lemma substring_prefix_clamp (s : string) (n : nat) :
  substring 0 (Nat.min n (String.length s)) s = substring 0 n s.
Proof.
  revert n; induction s as [|c s IH]; intros [|n]; simpl; try reflexivity.
  f_equal. apply IH.
Qed.

(* slicing from 0 to a non-negative end keeps the first [end_] characters *)
Lemma String_slice_prefix (s : string) (end_ : Z) :
  0 <= end_ -> String_slice s 0 end_ = substring 0 (Z.to_nat end_) s.
Proof.
  intros Hend. unfold String_slice.
  replace (0 <? 0) with false by reflexivity.
  destruct (end_ <? 0) eqn:Hneg; [apply Z.ltb_lt in Hneg; lia|].
  rewrite Z.min_l by lia. cbn [Z.to_nat].
  rewrite Z.sub_0_r, Z.max_l by lia.
  rewrite <- (substring_prefix_clamp s (Z.to_nat end_)).
  f_equal. lia.
Qed.

(** ** C7: the duplicated case of [validateInput] *)

(** C7 (as amended): for an input of type generatePublicKeyInput the case
    that runs is the first one the switch lists, so validateInput returns
    true exactly when the value is generatePrivateKeyInput or
    providePrivateKeyInput; the later case with the same label, which would
    require accountInput, is never reached. *)
Theorem validateInput_generatePublicKeyInput (input : Input) :
  type input = "generatePublicKeyInput" ->
  validateInput input
    = Ok (String.eqb (value input) "generatePrivateKeyInput"
          || String.eqb (value input) "providePrivateKeyInput")
  /\ (validateInput input = Ok true <->
      value input = "generatePrivateKeyInput"
      \/ value input = "providePrivateKeyInput").
Proof.
  intros Ht. unfold validateInput. rewrite Ht. cbn.
  split; [reflexivity|].
  rewrite <- !eqb_true_iff.
  destruct (String.eqb (value input) "generatePrivateKeyInput"),
           (String.eqb (value input) "providePrivateKeyInput");
    cbn; split; intros H; try reflexivity; try discriminate; auto;
    destruct H; discriminate.
Qed.

(** ** C3: booleans resolve with inverted polarity *)

(** C3: for an input of type booleanInput that passes validateInput (so its
    value is "true" or "false"), getData returns the number 0 when the value
    is "true" and the number 1 otherwise. *)
Theorem getData_booleanInput (fuel : nat) (inputId : string)
    (inputsById : InputMap) (input : Input) :
  inputsById !! inputId = Some input ->
  type input = "booleanInput" ->
  validateInput input = Ok true ->
  (value input = "true" \/ value input = "false")
  /\ getData (S fuel) inputId inputsById
     = Ok (DNumber (if String.eqb (value input) "true" then Num 0 else Num 1))
  /\ (value input = "true" ->
      getData (S fuel) inputId inputsById = Ok (DNumber (Num 0)))
  /\ (value input = "false" ->
      getData (S fuel) inputId inputsById = Ok (DNumber (Num 1))).
Proof.
  intros Hin Ht Hv.
  assert (Hdata : getData (S fuel) inputId inputsById
     = Ok (DNumber (if String.eqb (value input) "true" then Num 0 else Num 1))).
  { cbn [getData]. unfold getData_body. rewrite Hin, Hv. cbn. rewrite Ht.
    reflexivity. }
  split; [|split; [exact Hdata|split]].
  - unfold validateInput in Hv. rewrite Ht in Hv. cbn in Hv.
    injection Hv as Hv. apply orb_true_iff in Hv.
    rewrite !eqb_true_iff in Hv. exact Hv.
  - intros E. rewrite Hdata, E. reflexivity.
  - intros E. rewrite Hdata, E. reflexivity.
Qed.

(** ** C6: the generated string is a prefix of the seed *)

(** C6: getGenerateStringInputValue returns the first length*2 characters of
    the seed, where length = parseInt(value, 10), and throws whenever length
    is NaN, negative or greater than 520; with value "4" and a seed of 1040
    characters it returns the first 8 characters of the seed, and with value
    "521" it throws. *)
Theorem getGenerateStringInputValue_spec (input : Input) :
  let length := parseInt (value input) 10 in
  (forall s l, seed input = Some s -> length = Num l -> 0 <= l <= 520 ->
     getGenerateStringInputValue input = Ok (substring 0 (Z.to_nat (l * 2)) s))
  /\ (isNaN length = true \/ num_lt length (Num 0) = true
      \/ num_gt length (Num 520) = true ->
      getGenerateStringInputValue input
      = Err (Thrown ("invalid length value for generateStringInput: "
                     +:+ value input)))
  /\ (forall s, value input = "4" -> seed input = Some s ->
      String.length s = 1040%nat ->
      getGenerateStringInputValue input = Ok (substring 0 8 s))
  /\ (value input = "521" ->
      getGenerateStringInputValue input
      = Err (Thrown "invalid length value for generateStringInput: 521")).
Proof.
  intros length.
  assert (Hok : forall s l, seed input = Some s -> length = Num l ->
     0 <= l <= 520 ->
     getGenerateStringInputValue input = Ok (substring 0 (Z.to_nat (l * 2)) s)).
  { intros s l Hseed Hl Hrange. unfold getGenerateStringInputValue.
    fold length. rewrite Hl, Hseed. cbn.
    destruct (l <? 0) eqn:E1; [apply Z.ltb_lt in E1; lia|].
    destruct (520 <? l) eqn:E2; [apply Z.ltb_lt in E2; lia|].
    cbn. rewrite String_slice_prefix by lia. reflexivity. }
  assert (Hbad : isNaN length = true \/ num_lt length (Num 0) = true
      \/ num_gt length (Num 520) = true ->
      getGenerateStringInputValue input
      = Err (Thrown ("invalid length value for generateStringInput: "
                     +:+ value input))).
  { intros Hcase. unfold getGenerateStringInputValue. fold length.
    destruct (isNaN length || num_lt length (Num 0) || num_gt length (Num 520))
      eqn:E; [reflexivity|].
    apply orb_false_iff in E as [E E3]. apply orb_false_iff in E as [E1 E2].
    destruct Hcase as [H|[H|H]]; congruence. }
  split; [exact Hok|split; [exact Hbad|split]].
  - intros s Hv Hseed _. apply (Hok s 4 Hseed); [|lia].
    unfold length. rewrite Hv. reflexivity.
  - intros Hv. rewrite Hbad; [rewrite Hv; reflexivity|].
    right; right. unfold length. rewrite Hv. reflexivity.
Qed.

(** ** C8: [getContractArgs] *)

Lemma getDataAll_Ok (fuel : nat) (ids : list string) (inputMap : InputMap)
    (args : list Data) :
  getDataAll fuel ids inputMap = Ok args <->
  Forall2 (fun id d => getData fuel id inputMap = Ok d) ids args.
Proof.
  revert args; induction ids as [|id ids IH]; intros args; cbn.
  - split; [intros [= <-]; constructor|intros H; inversion H; reflexivity].
  - destruct (getData fuel id inputMap) as [d|e] eqn:Hd; cbn.
    + destruct (getDataAll fuel ids inputMap) as [ds|e] eqn:Hds; cbn.
      * split.
        -- intros [= <-]. constructor; [exact Hd|]. apply IH. reflexivity.
        -- intros H. inversion H as [|? d' ? ds' Hd' Hrest]; subst.
           apply IH in Hrest. congruence.
      * split; [discriminate|].
        intros H. inversion H as [|? d' ? ds' Hd' Hrest]; subst.
        apply IH in Hrest. discriminate.
    + split; [discriminate|].
      intros H. inversion H; subst. congruence.
Qed.

Lemma getDataAll_Err (fuel : nat) (ids : list string) (inputMap : InputMap) :
  Exists (fun id => exists e, getData fuel id inputMap = Err e) ids ->
  exists id e, In id ids /\ getData fuel id inputMap = Err e
               /\ getDataAll fuel ids inputMap = Err e.
Proof.
  induction ids as [|id ids IH]; intros H; [inversion H|].
  cbn. destruct (getData fuel id inputMap) as [d|e] eqn:Hd; cbn.
  - inversion H as [? ? [e He]|? ? Hrest]; subst; [congruence|].
    destruct (IH Hrest) as (id' & e & Hin & He & Hall).
    exists id', e. rewrite Hall. cbn. auto.
  - exists id, e. auto.
Qed.

(** C8: getContractArgs throws when the parameter-id list is undefined;
    otherwise, if getData throws for some parameter id, it logs the failure
    and returns the empty list, and when no resolution fails it returns the
    getData results in parameter order. *)
Theorem getContractArgs_spec (fuel : nat) (state : AppState.t)
    (inputMap : InputMap) :
  (getParameterIds state = None ->
   getContractArgs fuel state inputMap
   = mkM [] (Err (Thrown
       "parameter IDs should not be undefined when getParameterData is called")))
  /\ (forall ids, getParameterIds state = Some ids ->
      (Exists (fun id => exists e, getData fuel id inputMap = Err e) ids ->
       exists id e, In id ids /\ getData fuel id inputMap = Err e
         /\ getContractArgs fuel state inputMap = mkM [ConsoleLog e] (Ok []))
      /\ (forall args,
          Forall2 (fun id d => getData fuel id inputMap = Ok d) ids args ->
          getContractArgs fuel state inputMap = mkM [] (Ok args))).
Proof.
  split; [|intros ids Hids; split].
  - intros Hnone. unfold getContractArgs. rewrite Hnone. reflexivity.
  - intros Hex. destruct (getDataAll_Err _ _ _ Hex) as (id & e & Hin & He & Hall).
    exists id, e. split; [exact Hin|split; [exact He|]].
    unfold getContractArgs. rewrite Hids. unfold try_catch, lift. cbn.
    rewrite Hall. reflexivity.
  - intros args Hall. apply getDataAll_Ok in Hall.
    unfold getContractArgs. rewrite Hids. unfold try_catch, lift. cbn.
    rewrite Hall. reflexivity.
Qed.

(** ** C1: [create] stops at invalid inputs *)

(** C1: in a state where areInputsValid is false, create (after marking the
    flow busy) dispatches updateIsCalling(false), showLockInputMessages(true)
    and the fixed message "One or more arguments to the contract are
    invalid.", and returns: the remote compiler is not called and no
    transaction is submitted. *)
Theorem create_invalid_inputs (fuel : nat) (state : AppState.t) :
  areInputsValid fuel state = Ok false ->
  create fuel state
  = mkM [ Dispatch (updateIsCalling true);
          Dispatch (updateIsCalling false);
          Dispatch (showLockInputMessages true);
          Dispatch (updateLockMessage (_error (Thrown
            "One or more arguments to the contract are invalid."))) ]
        (Ok tt)
  /\ forallb (fun e => negb (is_remote_call e)) (events (create fuel state)) = true.
Proof.
  intros Hinvalid.
  assert (H : create fuel state
  = mkM [ Dispatch (updateIsCalling true);
          Dispatch (updateIsCalling false);
          Dispatch (showLockInputMessages true);
          Dispatch (updateLockMessage (_error (Thrown
            "One or more arguments to the contract are invalid."))) ]
        (Ok tt)).
  { unfold create. rewrite Hinvalid. reflexivity. }
  split; [exact H|]. rewrite H. reflexivity.
Qed.

(** ** C5: coercion of the contract arguments *)

Lemma hexOfByte_decode (b : byte) (s : string) :
  Buffer_from_hex (hexOfByte b +:+ s) = b :: Buffer_from_hex s.
Proof. destruct b; reflexivity. Qed.

Lemma hexOfByte_lower (b : byte) (s : string) :
  validateHex (hexOfByte b +:+ s) = validateHex s.
Proof. destruct b; reflexivity. Qed.

Lemma hexOfByte_length (b : byte) (s : string) :
  String.length (hexOfByte b +:+ s) = S (S (String.length s)).
Proof. reflexivity. Qed.

(* the hex rendering: two lowercase hex digits per byte, decoding back *)
Lemma Buffer_toString_hex_spec (buf : Buffer) :
  validateHex (Buffer_toString_hex buf) = true
  /\ String.length (Buffer_toString_hex buf) = (2 * length buf)%nat
  /\ Buffer_from_hex (Buffer_toString_hex buf) = buf.
Proof.
  induction buf as [|b buf (IH1 & IH2 & IH3)]; [repeat split|].
  cbn [Buffer_toString_hex fold_right]. fold (Buffer_toString_hex buf).
  rewrite hexOfByte_lower, hexOfByte_length, hexOfByte_decode.
  rewrite IH2, IH3. repeat split; [exact IH1|cbn [length]; lia].
Qed.

Lemma coerceArgs_Ok (params : list jsvalue) (args : list WireValue) :
  coerceArgs params = Ok args <->
  Forall2 (fun p a => coerceArg p = Ok a) params args.
Proof.
  revert args; induction params as [|p params IH]; intros args; cbn.
  - split; [intros [= <-]; constructor|intros H; inversion H; reflexivity].
  - destruct (coerceArg p) as [a|e] eqn:Ha; cbn.
    + destruct (coerceArgs params) as [l|e] eqn:Hl; cbn.
      * split.
        -- intros [= <-]. constructor; [exact Ha|]. apply IH. reflexivity.
        -- intros H. inversion H as [|? a' ? l' Ha' Hrest]; subst.
           apply IH in Hrest. congruence.
      * split; [discriminate|].
        intros H. inversion H as [|? a' ? l' Ha' Hrest]; subst.
        apply IH in Hrest. discriminate.
    + split; [discriminate|].
      intros H. inversion H; subst. congruence.
Qed.

Lemma coerceArg_unsupported (v : jsvalue) :
  unsupported v ->
  coerceArg v = Err (Thrown ("unsupported argument type " +:+ typeof v)).
Proof. destruct v; cbn; intros H; try reflexivity; destruct H. Qed.

Lemma coerceArg_supported (v : jsvalue) :
  ~ unsupported v -> exists a, coerceArg v = Ok a.
Proof. destruct v; cbn; intros H; eauto; destruct H; exact I. Qed.

Lemma coerceArgs_Err (params : list jsvalue) :
  Exists unsupported params ->
  exists v, In v params /\ unsupported v
    /\ coerceArgs params
       = Err (Thrown ("unsupported argument type " +:+ typeof v)).
Proof.
  induction params as [|p params IH]; intros H; [inversion H|].
  cbn. destruct (coerceArg p) as [a|e] eqn:Ha; cbn.
  - inversion H as [? ? Hp|? ? Hrest]; subst.
    + rewrite coerceArg_unsupported in Ha by exact Hp. discriminate.
    + destruct (IH Hrest) as (v & Hin & Hv & Hall).
      exists v. rewrite Hall. cbn. auto.
  - exists p. split; [auto|].
    assert (Hp : unsupported p).
    { destruct p; cbn in *; try exact I; discriminate. }
    split; [exact Hp|]. rewrite coerceArg_unsupported in Ha by exact Hp.
    congruence.
Qed.

Lemma coerceArgs_Data (ds : list Data) :
  coerceArgs (jsvalue_of_Data <$> ds) = Ok (wire_of_Data <$> ds).
Proof.
  induction ds as [|d ds IH]; [reflexivity|].
  cbn. fold (fmap (M:=list) jsvalue_of_Data ds).
  destruct d; cbn; rewrite IH; reflexivity.
Qed.

(* in a run of create that reaches the compile call, the call carries the
   coerced results of getData *)
Lemma create_compile_call (fuel : nat) (state : AppState.t) (inputMap : InputMap)
    (spendFromAccount : SpendFromAccount.t) (calls logs : list Event)
    (resolved : InputMap) (params : list Data) :
  areInputsValid fuel state = Ok true ->
  getInputMap state = Some inputMap ->
  getContractValue state = Ok (Some spendFromAccount) ->
  getPromisedInputMap inputMap = mkM calls (Ok (Ok resolved)) ->
  getContractArgs fuel state resolved = mkM logs (Ok params) ->
  exists rest,
    events (create fuel state)
    = Dispatch (updateIsCalling true)
      :: calls ++ logs
      ++ ClientCompile (getSource state) (wire_of_Data <$> params) :: rest.
Proof.
  intros Hvalid Hmap Hvalue Hpromised Hargs.
  unfold create. rewrite Hvalid, Hmap, Hvalue. cbn.
  rewrite Hpromised. cbn. rewrite Hargs. cbn.
  unfold submit. rewrite coerceArgs_Data. cbn.
  destruct (client_compile _ _) as [[data|program]|e]; cbn;
    [|destruct (createLockingTx _ _) as [utxo|e]; cbn|];
    rewrite <- ?app_assoc; cbn; eexists; reflexivity.
Qed.

(** C5: in the create flow every resolved argument is coerced to one tagged
    wire value: a byte payload to {string: lowercase hex}, a text to
    {string: text}, a number to {integer: n}, a boolean to {boolean: b};
    the compile call receives the coerced list, and an argument of any other
    runtime type makes the flow fail with the thrown text "unsupported
    argument type ...", which reaches the rejection handler before any
    compile call. *)
Theorem create_argument_coercion :
  (forall b, coerceArg (VBuffer b) = Ok (wire_string (Buffer_toString_hex b))
             /\ validateHex (Buffer_toString_hex b) = true
             /\ Buffer_from_hex (Buffer_toString_hex b) = b)
  /\ (forall s, coerceArg (VString s) = Ok (wire_string s))
  /\ (forall n, coerceArg (VNumber n) = Ok (wire_integer n))
  /\ (forall b, coerceArg (VBoolean b) = Ok (wire_boolean b))
  /\ (forall v, unsupported v ->
        coerceArg v = Err (Thrown ("unsupported argument type " +:+ typeof v)))
  /\ (forall ds, coerceArgs (jsvalue_of_Data <$> ds) = Ok (wire_of_Data <$> ds))
  /\ (forall source spendFromAccount params args,
        Forall2 (fun p a => coerceArg p = Ok a) params args ->
        exists rest,
          events (try_catch (submit source spendFromAccount params) onRejected)
          = ClientCompile source args :: rest)
  /\ (forall fuel state inputMap spendFromAccount calls logs resolved params,
        areInputsValid fuel state = Ok true ->
        getInputMap state = Some inputMap ->
        getContractValue state = Ok (Some spendFromAccount) ->
        getPromisedInputMap inputMap = mkM calls (Ok (Ok resolved)) ->
        getContractArgs fuel state resolved = mkM logs (Ok params) ->
        exists rest,
          events (create fuel state)
          = Dispatch (updateIsCalling true)
            :: calls ++ logs
            ++ ClientCompile (getSource state) (wire_of_Data <$> params) :: rest)
  /\ (forall source spendFromAccount params,
        Exists unsupported params ->
        exists v, In v params /\ unsupported v /\
          let err := Thrown ("unsupported argument type " +:+ typeof v) in
          try_catch (submit source spendFromAccount params) onRejected
          = mkM [ ConsoleLog err;
                  Dispatch (updateIsCalling false);
                  Dispatch (updateLockMessage (_error err));
                  Dispatch (showLockInputMessages true) ]
                (Ok tt)).
Proof.
  split; [|split; [|split; [|split; [|split; [|split; [|split; [|split]]]]]]];
    try (intros; reflexivity).
  - intros b. destruct (Buffer_toString_hex_spec b) as (H1 & _ & H3).
    split; [reflexivity|split; assumption].
  - apply coerceArg_unsupported.
  - apply coerceArgs_Data.
  - intros source sfa params args Hall. apply coerceArgs_Ok in Hall.
    unfold submit, try_catch. rewrite Hall. cbn.
    destruct (client_compile source args) as [[data|program]|e]; cbn;
      try (eexists; reflexivity).
    destruct (createLockingTx _ _); cbn; eexists; reflexivity.
  - intros fuel state inputMap sfa calls logs resolved params.
    apply create_compile_call.
  - intros source sfa params Hex.
    destruct (coerceArgs_Err _ Hex) as (v & Hin & Hv & Hall).
    exists v. split; [exact Hin|split; [exact Hv|]].
    unfold submit, try_catch. rewrite Hall. reflexivity.
Qed.

(** ** C2, C9: the funding source *)

Lemma collectSources_spec (inputMap : InputMap) (inputList : list Input)
    (sources : list SpendFromAccount.t) :
  Forall (fun input => type input = "valueInput" ->
                       children_present inputMap input) inputList ->
  exists pushed,
    collectSources inputMap inputList sources = Ok (sources ++ pushed)
    /\ Forall2 (fun input source => fundingSource inputMap input = Some source)
               (List.filter (qualifies inputMap) inputList) pushed.
Proof.
  revert sources; induction inputList as [|input rest IH]; intros sources Hall.
  - exists []. rewrite app_nil_r. split; [reflexivity|constructor].
  - inversion Hall as [|? ? Hinput Hrest]; subst.
    cbn [collectSources List.filter]. unfold qualifies at 1, fundingSource at 1.
    destruct (String.eqb (type input) "valueInput") eqn:Ht; cbn [andb].
    2: { apply IH, Hrest. }
    apply eqb_true_iff in Ht.
    destruct (Hinput Ht) as ([a Ha] & [b Hb] & [c Hc] & [d Hd]).
    rewrite Ha, Hb, Hc, Hd. cbn.
    destruct (parseInt (value c) 10) as [|z] eqn:Hz; cbn.
    { rewrite andb_false_r. apply IH, Hrest. }
    destruct (z <? 0) eqn:Hneg; cbn.
    { assert ((0 <=? z) = false) as -> by (apply Z.leb_gt, Z.ltb_lt, Hneg).
      rewrite andb_false_r. apply IH, Hrest. }
    assert ((0 <=? z) = true) as -> by (apply Z.leb_le; apply Z.ltb_ge in Hneg; lia).
    rewrite andb_true_r.
    destruct (String.eqb (value a) ""); cbn; [apply IH, Hrest|].
    destruct (String.eqb (value b) ""); cbn; [apply IH, Hrest|].
    destruct (IH (sources ++
      [ {| SpendFromAccount.type := "spendFromAccount";
           SpendFromAccount.accountId := value a;
           SpendFromAccount.assetId := value b;
           SpendFromAccount.amount := Num z;
           SpendFromAccount.password := value d |} ]) Hrest)
      as (pushed & Hrun & Hsrc).
    eexists (_ :: pushed). split.
    + rewrite Hrun, <- app_assoc. reflexivity.
    + constructor; [|exact Hsrc]. rewrite Ha, Hb, Hc, Hd. cbn. rewrite Hz.
      reflexivity.
Qed.

(* under the presence of the children, the selector returns the source
   pushed for the only qualifying entry, or undefined *)
Lemma getContractValue_collect (state : AppState.t) (inputMap : InputMap) :
  getInputMap state = Some inputMap ->
  (forall id input, inputMap !! id = Some input -> type input = "valueInput" ->
                    children_present inputMap input) ->
  exists pushed,
    getContractValue state
    = Ok (match pushed with [source] => Some source | _ => None end)
    /\ Forall2 (fun input source => fundingSource inputMap input = Some source)
         (List.filter (qualifies inputMap) (map_to_list inputMap).*2) pushed.
Proof.
  intros Hmap Hpresent.
  assert (Hall : Forall (fun input => type input = "valueInput" ->
                   children_present inputMap input) (map_to_list inputMap).*2).
  { apply Forall_forall. intros input Hin.
    apply list_elem_of_fmap in Hin as ([id input'] & -> & Hin).
    apply elem_of_map_to_list in Hin. apply (Hpresent id), Hin. }
  destruct (collectSources_spec inputMap _ [] Hall) as (pushed & Hrun & Hsrc).
  exists pushed. split; [|exact Hsrc].
  unfold getContractValue, getInputList. rewrite Hmap, Hrun. cbn.
  destruct pushed as [|? [|? ?]]; reflexivity.
Qed.

(** C2 (as amended): for every input map in which each valueInput entry has
    its accountInput, assetInput, amountInput and passwordInput children,
    getContractValue returns a SpendFromAccount (type 'spendFromAccount',
    accountId, assetId and password copied from the children, amount the
    base-10 parse of the amountInput child) if and only if exactly one
    valueInput entry qualifies; when zero or more than one entry qualifies
    it returns undefined. *)
Theorem getContractValue_spec (state : AppState.t) (inputMap : InputMap) :
  getInputMap state = Some inputMap ->
  (forall id input, inputMap !! id = Some input -> type input = "valueInput" ->
                    children_present inputMap input) ->
  let qualifying :=
    List.filter (qualifies inputMap) (map_to_list inputMap).*2 in
  (forall source, getContractValue state = Ok (Some source) <->
     exists input, qualifying = [input]
                   /\ fundingSource inputMap input = Some source)
  /\ (length qualifying <> 1%nat -> getContractValue state = Ok None).
Proof.
  intros Hmap Hpresent qualifying.
  destruct (getContractValue_collect state inputMap Hmap Hpresent)
    as (pushed & -> & Hsrc).
  fold qualifying in Hsrc.
  destruct Hsrc as [|input source l1 l2 Hone Hmore].
  - split; [|reflexivity].
    intros source; split; [discriminate|]. intros (? & [=] & _).
  - destruct Hmore as [|input2 source2 l1 l2 Htwo Hmore].
    + split; [|cbn; congruence].
      intros src; split.
      * intros [= <-]. exists input. auto.
      * intros (i & [= <-] & Hi). congruence.
    + split; [|reflexivity].
      intros src; split; [discriminate|]. intros (? & [=] & _).
Qed.

(* the presence of the children cannot be dropped: a valueInput entry
   that lacks one of the four makes the selector fail *)
Lemma collectSources_missing_child (inputMap : InputMap)
    (inputList : list Input) (sources : list SpendFromAccount.t) :
  Exists (fun input => type input = "valueInput"
                       /\ ~ children_present inputMap input) inputList ->
  collectSources inputMap inputList sources = Err TypeError.
Proof.
  revert sources; induction inputList as [|input rest IH]; intros sources Hex;
    [inversion Hex|].
  cbn [collectSources].
  destruct (String.eqb (type input) "valueInput") eqn:Ht.
  2: { inversion Hex as [? ? [Hv _]|? ? Hrest]; subst; [|apply IH, Hrest].
       apply eqb_true_iff in Hv. congruence. }
  destruct (inputMap !! (name input +:+ ".accountInput")) as [a|] eqn:Ha;
    [|reflexivity].
  destruct (inputMap !! (name input +:+ ".assetInput")) as [b|] eqn:Hb;
    [|reflexivity].
  destruct (inputMap !! (name input +:+ ".amountInput")) as [c|] eqn:Hc;
    [|reflexivity].
  destruct (inputMap !! (name input +:+ ".passwordInput")) as [d|] eqn:Hd;
    [|reflexivity].
  assert (Hrest : Exists (fun input => type input = "valueInput"
                     /\ ~ children_present inputMap input) rest).
  { inversion Hex as [? ? [_ Hmiss]|? ? Hrest]; subst; [|exact Hrest].
    destruct Hmiss. unfold children_present. rewrite Ha, Hb, Hc, Hd.
    repeat split; eauto. }
  cbn. destruct (_ || _); apply IH, Hrest.
Qed.

Lemma getContractValue_needs_children (state : AppState.t) (inputMap : InputMap)
    (id : string) (input : Input) :
  getInputMap state = Some inputMap ->
  inputMap !! id = Some input ->
  type input = "valueInput" ->
  ~ children_present inputMap input ->
  getContractValue state = Err TypeError.
Proof.
  intros Hmap Hin Ht Hmiss.
  unfold getContractValue, getInputList. rewrite Hmap.
  rewrite (collectSources_missing_child inputMap); [reflexivity|].
  apply Exists_exists. exists input. split; [|auto].
  apply list_elem_of_fmap. exists (id, input). split; [reflexivity|].
  apply elem_of_map_to_list, Hin.
Qed.

Lemma filter_unique {A} (f : A -> bool) (l : list A) (x : A) :
  NoDup l -> In x l -> f x = true ->
  (forall y, In y l -> f y = true -> y = x) ->
  List.filter f l = [x].
Proof.
  induction l as [|a l IH]; intros Hnd Hin Hx Huniq; [destruct Hin|].
  apply NoDup_cons in Hnd as [Hnotin Hnd]. cbn.
  assert (Hnone : forall l', (forall y, In y l' -> f y = true -> False) ->
                             List.filter f l' = []).
  { induction l' as [|b l' IH']; intros Hl'; [reflexivity|]. cbn.
    destruct (f b) eqn:Hb; [destruct (Hl' b); cbn; auto|].
    apply IH'. intros y Hy. apply Hl'. cbn; auto. }
  destruct Hin as [->|Hin].
  - rewrite Hx. f_equal. apply Hnone. intros y Hy Hfy.
    apply Hnotin. rewrite <- (Huniq y); [apply list_elem_of_In, Hy|cbn; auto|exact Hfy].
  - destruct (f a) eqn:Ha.
    + exfalso. apply Hnotin. rewrite (Huniq a); [apply list_elem_of_In, Hin|cbn; auto|exact Ha].
    + apply IH; auto. intros y Hy. apply Huniq. cbn; auto.
Qed.

Lemma filter_fmap {A B} (f : B -> bool) (g : A -> B) (l : list A) :
  List.filter f (g <$> l) = g <$> List.filter (fun a => f (g a)) l.
Proof.
  induction l as [|a l IH]; [reflexivity|]. cbn.
  fold (fmap (M:=list) g l). rewrite IH. destruct (f (g a)); reflexivity.
Qed.

(** C9: getContractValue does not look at the gasInput child and puts no
    condition on the value of the passwordInput child, which it reads: a
    valueInput whose passwordInput child is present, whose accountInput and
    assetInput values are non-empty and whose amountInput parses to a
    non-negative integer yields a SpendFromAccount carrying the password
    child's value as it is, the empty string included, whatever the gasInput
    child is and whether or not it exists. *)
Theorem getContractValue_password_unchecked (state : AppState.t)
    (inputMap : InputMap) (id : string)
    (input account asset amount password : Input) (z : Z) :
  getInputMap state = Some inputMap ->
  inputMap !! id = Some input ->
  type input = "valueInput" ->
  inputMap !! (name input +:+ ".accountInput") = Some account ->
  value account <> "" ->
  inputMap !! (name input +:+ ".assetInput") = Some asset ->
  value asset <> "" ->
  inputMap !! (name input +:+ ".amountInput") = Some amount ->
  parseInt (value amount) 10 = Num z ->
  0 <= z ->
  inputMap !! (name input +:+ ".passwordInput") = Some password ->
  let source :=
    {| SpendFromAccount.type := "spendFromAccount";
       SpendFromAccount.accountId := value account;
       SpendFromAccount.assetId := value asset;
       SpendFromAccount.amount := Num z;
       SpendFromAccount.password := value password |} in
  (forall sources,
     collectSources inputMap [input] sources = Ok (sources ++ [source]))
  /\ (forall sources gas,
       collectSources (<[name input +:+ ".gasInput" := gas]> inputMap)
         [input] sources = Ok (sources ++ [source])
       /\ collectSources (delete (name input +:+ ".gasInput") inputMap)
            [input] sources = Ok (sources ++ [source]))
  /\ ((forall id' input', inputMap !! id' = Some input' ->
         type input' = "valueInput" -> id' = id) ->
      getContractValue state = Ok (Some source))
  /\ (value password = "" -> SpendFromAccount.password source = "").
Proof.
  intros Hmap Hin Ht Ha Hav Hb Hbv Hc Hz Hpos Hd source.
  assert (Hpush : forall m sources,
    m !! (name input +:+ ".accountInput") = Some account ->
    m !! (name input +:+ ".assetInput") = Some asset ->
    m !! (name input +:+ ".amountInput") = Some amount ->
    m !! (name input +:+ ".passwordInput") = Some password ->
    collectSources m [input] sources = Ok (sources ++ [source])).
  { intros m sources Ha' Hb' Hc' Hd'. cbn. rewrite Ht. cbn.
    rewrite Ha', Hb', Hc', Hd'. cbn. rewrite Hz. cbn.
    destruct (z <? 0) eqn:Hneg; [apply Z.ltb_lt in Hneg; lia|].
    apply String.eqb_neq in Hav, Hbv. rewrite Hav, Hbv. reflexivity. }
  assert (Hgas : forall suffix, suffix <> ".gasInput" ->
            name input +:+ ".gasInput" <> name input +:+ suffix).
  { intros suffix Hne E. apply Hne. symmetry.
    exact (inj (String.app (name input)) _ _ E). }
  assert (Hq : qualifies inputMap input = true).
  { unfold qualifies. rewrite Ha, Hb, Hc, Hz, Ht. cbn.
    apply String.eqb_neq in Hav, Hbv. rewrite Hav, Hbv. cbn.
    apply Z.leb_le, Hpos. }
  assert (Hf : fundingSource inputMap input = Some source).
  { unfold fundingSource. rewrite Ha, Hb, Hc, Hd. cbn. rewrite Hz. reflexivity. }
  split; [|split; [|split]].
  - intros sources. apply Hpush; assumption.
  - intros sources gas. split; apply Hpush;
      rewrite ?lookup_insert_ne, ?lookup_delete_ne
        by (apply Hgas; discriminate); assumption.
  - intros Honly.
    assert (Hpresent : forall id' input', inputMap !! id' = Some input' ->
              type input' = "valueInput" -> children_present inputMap input').
    { intros id' input' Hin' Ht'. rewrite (Honly _ _ Hin' Ht') in Hin'.
      assert (input' = input) as -> by congruence.
      unfold children_present. rewrite Ha, Hb, Hc, Hd. repeat split; eauto. }
    destruct (getContractValue_collect state inputMap Hmap Hpresent)
      as (pushed & -> & Hsrc).
    assert (Hone : List.filter (qualifies inputMap) (map_to_list inputMap).*2
                   = [input]); [|rewrite Hone in Hsrc].
    2: { inversion Hsrc as [|? s1 ? l2 Hs1 Hnil]; subst.
         inversion Hnil; subst. congruence. }
    rewrite filter_fmap.
    rewrite (filter_unique _ _ (id, input)); [reflexivity| | | |].
    + apply NoDup_map_to_list.
    + apply list_elem_of_In, elem_of_map_to_list, Hin.
    + exact Hq.
    + intros [id' input'] Hin' Hq'. cbn in Hq'.
      apply list_elem_of_In, elem_of_map_to_list in Hin'.
      unfold qualifies in Hq'. apply andb_true_iff in Hq' as [Ht' _].
      apply eqb_true_iff in Ht'. rewrite (Honly _ _ Hin' Ht') in Hin' |- *.
      congruence.
  - intros Hp. exact Hp.
Qed.

(** ** Fuel: a result other than stack exhaustion does not depend on it *)

Lemma getData_body_mono (rec rec' : string -> InputMap -> result Data)
    (inputsById : InputMap) :
  (forall id, rec id inputsById <> Err RangeError ->
              rec' id inputsById = rec id inputsById) ->
  forall id, getData_body rec id inputsById <> Err RangeError ->
             getData_body rec' id inputsById = getData_body rec id inputsById.
Proof.
  intros Hrec id. unfold getData_body.
  destruct (inputsById !! id) as [input|]; [|reflexivity].
  destruct (validateInput input) as [[]|]; cbn; try reflexivity.
  destruct (one_of (type input) _); [apply Hrec|].
  repeat (destruct (one_of (type input) _); [reflexivity|]).
  destruct (one_of (type input) _); [|reflexivity].
  intros H. rewrite Hrec; [reflexivity|].
  intros E. apply H. rewrite E. reflexivity.
Qed.

Lemma getData_fuel_S (fuel : nat) (inputsById : InputMap) (id : string) :
  getData fuel id inputsById <> Err RangeError ->
  getData (S fuel) id inputsById = getData fuel id inputsById.
Proof.
  revert id; induction fuel as [|fuel IH]; intros id H.
  - destruct H. reflexivity.
  - apply (getData_body_mono (getData fuel) (getData (S fuel))); assumption.
Qed.

Lemma getData_fuel_le (fuel fuel' : nat) (inputsById : InputMap) (id : string) :
  (fuel <= fuel')%nat ->
  getData fuel id inputsById <> Err RangeError ->
  getData fuel' id inputsById = getData fuel id inputsById.
Proof.
  induction 1 as [|fuel' Hle IH]; intros H; [reflexivity|].
  rewrite getData_fuel_S; rewrite IH; auto.
Qed.

Lemma and_then_mono (a a' b b' : result bool) :
  (a <> Err RangeError -> a' = a) ->
  (b <> Err RangeError -> b' = b) ->
  and_then a b <> Err RangeError ->
  and_then a' b' = and_then a b.
Proof.
  intros Ha Hb. destruct a as [[]|e]; cbn; intros H.
  - rewrite Ha by discriminate. cbn. auto.
  - rewrite Ha by discriminate. reflexivity.
  - rewrite Ha by exact H. reflexivity.
Qed.

Lemma isValidInput_body_mono (rec rec' : string -> InputMap -> result bool)
    (inputMap : InputMap) :
  (forall id, rec id inputMap <> Err RangeError ->
              rec' id inputMap = rec id inputMap) ->
  forall id, isValidInput_body rec id inputMap <> Err RangeError ->
             isValidInput_body rec' id inputMap
             = isValidInput_body rec id inputMap.
Proof.
  intros Hrec id. unfold isValidInput_body.
  destruct (inputMap !! id) as [input|]; [|reflexivity].
  cbn zeta.
  destruct (one_of (type input) _); [apply Hrec|].
  destruct (one_of (type input) _); [|reflexivity].
  repeat (apply and_then_mono; [apply Hrec|]). apply Hrec.
Qed.

Lemma isValidInput_fuel_S (fuel : nat) (inputMap : InputMap) (id : string) :
  isValidInput fuel id inputMap <> Err RangeError ->
  isValidInput (S fuel) id inputMap = isValidInput fuel id inputMap.
Proof.
  revert id; induction fuel as [|fuel IH]; intros id H.
  - destruct H. reflexivity.
  - apply (isValidInput_body_mono (isValidInput fuel) (isValidInput (S fuel)));
      assumption.
Qed.

Lemma isValidInput_fuel_le (fuel fuel' : nat) (inputMap : InputMap) (id : string) :
  (fuel <= fuel')%nat ->
  isValidInput fuel id inputMap <> Err RangeError ->
  isValidInput fuel' id inputMap = isValidInput fuel id inputMap.
Proof.
  induction 1 as [|fuel' Hle IH]; intros H; [reflexivity|].
  rewrite isValidInput_fuel_S; rewrite IH; auto.
Qed.

(** ** Termination on maps keyed by name

    In a map keyed by name a child id is longer than the id of its parent,
    so the recursion ends: fuel beyond the longest key is never exhausted. *)

Lemma length_append (a b : string) :
  String.length (a +:+ b) = (String.length a + String.length b)%nat.
Proof.
  induction a as [|c a IH]; [reflexivity|].
  change (S (String.length (a +:+ b))
          = S (String.length a + String.length b)).
  f_equal. exact IH.
Qed.

Lemma validateInput_no_RangeError (input : Input) :
  validateInput input <> Err RangeError.
Proof.
  unfold validateInput.
  repeat (destruct (one_of (type input) _); [try discriminate|]);
    try discriminate.
  - destruct (negb _); [discriminate|].
    destruct (hashFunction input); [|discriminate].
    destruct (one_of _ _); discriminate.
  - destruct (_ || _); [discriminate|]. destruct (seed input); discriminate.
  - destruct (isNaN _); discriminate.
  - destruct (isNaN _); [discriminate|]. destruct (num_lt _ _); discriminate.
Qed.

Lemma getGenerateStringInputValue_no_RangeError (input : Input) :
  getGenerateStringInputValue input <> Err RangeError.
Proof.
  unfold getGenerateStringInputValue.
  destruct (_ || _); [discriminate|].
  destruct (parseInt _ _); [discriminate|]. destruct (seed input); discriminate.
Qed.

Lemma unowned_no_RangeError {A : Type} (id thrown : string) :
  @unowned A id thrown <> Err RangeError.
Proof. unfold unowned. destruct (inherited id); discriminate. Qed.

Lemma getData_terminates (inputsById : InputMap) (bound : nat) :
  keyed_by_name inputsById -> key_bound inputsById bound ->
  forall fuel id,
    (1 <= fuel)%nat -> (bound + 2 <= fuel + String.length id)%nat ->
    getData fuel id inputsById <> Err RangeError.
Proof.
  intros Hkeyed Hbound.
  induction fuel as [|fuel IH]; intros id Hpos Hfuel; [lia|].
  cbn [getData]. unfold getData_body.
  destruct (inputsById !! id) as [input|] eqn:Hin;
    [|apply unowned_no_RangeError].
  pose proof (Hkeyed _ _ Hin) as Hname. pose proof (Hbound _ _ Hin) as Hlen.
  assert (Hchild : getData fuel (getChild input) inputsById <> Err RangeError).
  { apply IH; [lia|]. unfold getChild. rewrite Hname, !length_append. cbn. lia. }
  pose proof (validateInput_no_RangeError input) as Hv.
  destruct (validateInput input) as [[]|e]; cbn; [|discriminate|congruence].
  destruct (one_of (type input) _); [exact Hchild|].
  destruct (one_of (type input) _); [destruct (computedData input); discriminate|].
  destruct (one_of (type input) _); [discriminate|].
  destruct (one_of (type input) _); [destruct (computedData input); discriminate|].
  do 3 (destruct (one_of (type input) _); [discriminate|]).
  destruct (one_of (type input) _).
  { pose proof (getGenerateStringInputValue_no_RangeError input) as Hg.
    destruct (getGenerateStringInputValue input); cbn; congruence. }
  destruct (one_of (type input) _); [discriminate|].
  destruct (one_of (type input) _); [|discriminate].
  destruct (getData fuel (getChild input) inputsById) as [[b|n]|e]; cbn;
    [|discriminate|congruence].
  destruct (hashType input); [|discriminate].
  repeat (destruct (one_of _ _); [discriminate|]). discriminate.
Qed.

Lemma and_then_no_RangeError (a b : result bool) :
  a <> Err RangeError -> b <> Err RangeError ->
  and_then a b <> Err RangeError.
Proof. destruct a as [[]|e]; cbn; intros Ha Hb; congruence. Qed.

Lemma isValidInput_terminates (inputMap : InputMap) (bound : nat) :
  keyed_by_name inputMap -> key_bound inputMap bound ->
  forall fuel id,
    (1 <= fuel)%nat -> (bound + 2 <= fuel + String.length id)%nat ->
    isValidInput fuel id inputMap <> Err RangeError.
Proof.
  intros Hkeyed Hbound.
  induction fuel as [|fuel IH]; intros id Hpos Hfuel; [lia|].
  cbn [isValidInput]. unfold isValidInput_body.
  destruct (inputMap !! id) as [input|] eqn:Hin;
    [|apply unowned_no_RangeError].
  pose proof (Hkeyed _ _ Hin) as Hname. pose proof (Hbound _ _ Hin) as Hlen.
  assert (Hchild : forall suffix,
    isValidInput fuel (name input +:+ "." +:+ suffix) inputMap <> Err RangeError).
  { intros suffix. apply IH; [lia|]. rewrite Hname, !length_append. cbn. lia. }
  cbn zeta.
  destruct (one_of (type input) _); [apply (Hchild (value input))|].
  destruct (one_of (type input) _); [|apply validateInput_no_RangeError].
  repeat (apply and_then_no_RangeError;
          [match goal with
           | |- isValidInput _ (_ +:+ String "." ?x) _ <> _ => apply (Hchild x)
           end|]).
  apply (Hchild "gasInput").
Qed.

(* beyond the longest key plus two, more fuel changes nothing *)
Lemma getData_fuel_enough (inputsById : InputMap) (bound fuel : nat)
    (id : string) :
  keyed_by_name inputsById -> key_bound inputsById bound ->
  (bound + 2 <= fuel)%nat ->
  getData fuel id inputsById = getData (bound + 2) id inputsById.
Proof.
  intros Hkeyed Hbound Hfuel.
  apply getData_fuel_le; [exact Hfuel|].
  apply (getData_terminates inputsById bound Hkeyed Hbound); lia.
Qed.

Lemma isValidInput_fuel_enough (inputMap : InputMap) (bound fuel : nat)
    (id : string) :
  keyed_by_name inputMap -> key_bound inputMap bound ->
  (bound + 2 <= fuel)%nat ->
  isValidInput fuel id inputMap = isValidInput (bound + 2) id inputMap.
Proof.
  intros Hkeyed Hbound Hfuel.
  apply isValidInput_fuel_le; [exact Hfuel|].
  apply (isValidInput_terminates inputMap bound Hkeyed Hbound); lia.
Qed.

(** ** C4: hashing a resolved child *)

Lemma isLowerHex_hexValue (c : ascii) :
  isLowerHex c = true -> exists h, hexValue c = Some h /\ (h < 16)%N.
Proof.
  destruct c as [[] [] [] [] [] [] [] []]; cbn; intros H;
    try discriminate; eexists; split; try reflexivity; lia.
Qed.

(* an even run of lowercase hex digits decodes to half as many bytes *)
Lemma Buffer_from_hex_length (s : string) :
  (validateHex s = true ->
   (2 * length (Buffer_from_hex s))%nat = String.length s)
  /\ (forall c, validateHex (String c s) = true ->
      (2 * length (Buffer_from_hex (String c s)))%nat = S (String.length s)).
Proof.
  induction s as [|c' s [IH1 IH2]].
  - split; [reflexivity|]. intros c H. discriminate.
  - split; [apply IH2|]. intros c H.
    cbn [validateHex] in H.
    apply andb_true_iff in H as [H Hs]. apply andb_true_iff in H as [Hc Hc'].
    destruct (isLowerHex_hexValue c Hc) as (h & Hh & Hhlt).
    destruct (isLowerHex_hexValue c' Hc') as (l & Hl & Hllt).
    cbn [Buffer_from_hex]. rewrite Hh, Hl.
    destruct (Byte.of_N (16 * h + l)) as [b|] eqn:Hb.
    + cbn [length String.length]. rewrite <- (IH1 Hs). lia.
    + apply Byte.of_N_None_iff in Hb. lia.
Qed.

(** C4 (as amended): for a generateHashInput that passes validateInput (its
    value names a primary input type) and whose child resolves to a byte
    payload b, getData returns the 32-byte SHA-256 digest of b when
    hashType.hashFunction is 'sha256' and the 32-byte SHA3-256 digest of b
    when it is 'sha3', and throws "unexpected hash function" for any other
    name; it throws when the child resolves to a number. *)
Theorem getData_generateHashInput (fuel : nat) (inputId : string)
    (inputsById : InputMap) (input : Input) (ht : ClauseParameterHash) :
  (forall buf, length (crypto_createHash_sha256 buf) = 32%nat) ->
  (forall buf, String.length (sha3_256 buf) = 64%nat
               /\ validateHex (sha3_256 buf) = true) ->
  inputsById !! inputId = Some input ->
  type input = "generateHashInput" ->
  validateInput input = Ok true ->
  hashType input = Some ht ->
  isPrimaryInputType (value input) = true
  /\ (forall b, getData fuel (getChild input) inputsById = Ok (DBuffer b) ->
      (hash_hashFunction ht = "sha256" ->
         getData (S fuel) inputId inputsById = Ok (DBuffer (sha256 b))
         /\ length (sha256 b) = 32%nat)
      /\ (hash_hashFunction ht = "sha3" ->
         getData (S fuel) inputId inputsById
         = Ok (DBuffer (Buffer_from_hex (sha3_256 b)))
         /\ length (Buffer_from_hex (sha3_256 b)) = 32%nat)
      /\ (hash_hashFunction ht <> "sha256" -> hash_hashFunction ht <> "sha3" ->
         getData (S fuel) inputId inputsById
         = Err (Thrown "unexpected hash function")))
  /\ (forall n, getData fuel (getChild input) inputsById = Ok (DNumber n) ->
      getData (S fuel) inputId inputsById
      = Err (Thrown "should not generate hash of a number")).
Proof.
  intros Hsha256 Hsha3 Hin Ht Hv Hht.
  assert (Hstep : getData (S fuel) inputId inputsById
    = (childData ← getData fuel (getChild input) inputsById;
       match childData with
       | DNumber _ => Err (Thrown "should not generate hash of a number")
       | DBuffer childData =>
           if one_of (hash_hashFunction ht) ["sha256"] then
             Ok (DBuffer (sha256 childData))
           else if one_of (hash_hashFunction ht) ["sha3"] then
             Ok (DBuffer (Buffer_from_hex (sha3_256 childData)))
           else Err (Thrown "unexpected hash function")
       end)).
  { cbn [getData]. unfold getData_body. rewrite Hin, Hv. cbn. rewrite Ht. cbn.
    destruct (getData fuel (getChild input) inputsById) as [[b|n]|e];
      cbn; rewrite ?Hht; reflexivity. }
  split; [|split].
  - unfold validateInput in Hv. rewrite Ht in Hv. cbn in Hv. congruence.
  - intros b Hb. rewrite Hstep, Hb. cbn. split; [|split].
    + intros ->. split; [reflexivity|]. apply Hsha256.
    + intros ->. split; [reflexivity|].
      destruct (Hsha3 b) as [Hlen Hhex].
      pose proof (proj1 (Buffer_from_hex_length _) Hhex) as H. lia.
    + intros H1 H2. apply String.eqb_neq in H1, H2.
      rewrite !one_of_single, H1, H2. reflexivity.
  - intros n Hn. rewrite Hstep, Hn. reflexivity.
Qed.

(** ** C10: resolution and validation are partial in the id *)

Lemma one_of_In (s : string) (labels : list string) :
  one_of s labels = true -> In s labels.
Proof.
  unfold one_of. intros H. apply existsb_exists in H as (x & Hin & Hx).
  apply eqb_true_iff in Hx. subst. exact Hin.
Qed.

(* an id with a dot is not the name of an inherited member *)
Lemma dot_in_append (a b : string) :
  In "."%char (list_ascii_of_string (a +:+ "." +:+ b)).
Proof.
  induction a as [|c a IH]; [left; reflexivity|].
  change (In "."%char (c :: list_ascii_of_string (a +:+ "." +:+ b))).
  right. exact IH.
Qed.

Lemma inherited_dotted (a b : string) : inherited (a +:+ "." +:+ b) = false.
Proof.
  destruct (inherited (a +:+ "." +:+ b)) eqn:E; [|reflexivity].
  exfalso. apply one_of_In in E. pose proof (dot_in_append a b) as Hdot.
  revert Hdot. cbn in E.
  repeat (destruct E as [E|E];
          [rewrite <- E; cbn; intros H;
           repeat (destruct H as [H|H]; [discriminate H|]); exact H|]).
  destruct E.
Qed.

Lemma getData_missing (fuel : nat) (inputsById : InputMap) (id : string) :
  inputsById !! id = None ->
  getData (S fuel) id inputsById
  = unowned id "input type not valid undefined".
Proof. intros H. cbn [getData]. unfold getData_body. rewrite H. reflexivity. Qed.

Lemma isValidInput_missing (fuel : nat) (inputMap : InputMap) (id : string) :
  inputMap !! id = None ->
  isValidInput (S fuel) id inputMap
  = unowned id "input type not valid undefined".
Proof.
  intros H. cbn [isValidInput]. unfold isValidInput_body. rewrite H. reflexivity.
Qed.

(* a failure of the child is the failure of the parent *)
Lemma getData_calls_Err (fuel : nat) (inputsById : InputMap) (id id' : string)
    (e : error) :
  getData_calls inputsById id id' ->
  getData fuel id' inputsById = Err e ->
  getData (S fuel) id inputsById = Err e.
Proof.
  intros [id0 input Hin Hv Ht] He.
  cbn [getData]. unfold getData_body. rewrite Hin, Hv. cbn.
  apply one_of_In in Ht. cbn in Ht.
  destruct Ht as [Ht|[Ht|[Ht|[Ht|[Ht|[Ht|[]]]]]]]; rewrite <- Ht; cbn;
    rewrite He; reflexivity.
Qed.

Lemma isValidInput_settled (fuel fuel' : nat) (inputMap : InputMap)
    (id : string) (b : bool) :
  isValidInput fuel id inputMap = Ok b -> (fuel <= fuel')%nat ->
  isValidInput fuel' id inputMap = Ok b.
Proof.
  intros H Hle. rewrite (isValidInput_fuel_le fuel fuel') by (rewrite ?H; done).
  exact H.
Qed.

Lemma isValidInput_calls_Err (inputMap : InputMap) (id id' : string)
    (e : error) (n : nat) :
  isValidInput_calls inputMap id id' ->
  (forall fuel, (n <= fuel)%nat -> isValidInput fuel id' inputMap = Err e) ->
  exists n', forall fuel, (n' <= fuel)%nat ->
                          isValidInput fuel id inputMap = Err e.
Proof.
  intros [id0 input Hin Ht|id0 input k suffix Hin Ht Hk Hearlier] He.
  - exists (S n). intros [|fuel] Hle; [lia|].
    cbn [isValidInput]. unfold isValidInput_body. rewrite Hin. cbn zeta.
    apply one_of_In in Ht. cbn in Ht.
    destruct Ht as [Ht|[Ht|[Ht|[Ht|[Ht|[Ht|[Ht|[Ht|[]]]]]]]]]; rewrite <- Ht;
      cbn; apply He; lia.
  - assert (Hall : exists n1, forall j earlier, (j < k)%nat ->
              valueChildren !! j = Some earlier ->
              forall fuel, (n1 <= fuel)%nat ->
                isValidInput fuel (name input +:+ earlier) inputMap = Ok true).
    { clear Hk He. induction k as [|k IH].
      - exists 0%nat. intros j earlier Hj. lia.
      - destruct IH as [n1 Hn1].
        { intros j earlier Hj. apply Hearlier. lia. }
        destruct (valueChildren !! k) as [c|] eqn:Hc.
        + destruct (Hearlier k c) as [n2 Hn2]; [lia|exact Hc|].
          exists (Nat.max n1 n2). intros j earlier Hj Hlook fuel Hfuel.
          destruct (decide (j = k)) as [->|Hne].
          * assert (earlier = c) as -> by congruence.
            apply (isValidInput_settled n2); [exact Hn2|lia].
          * apply (Hn1 j earlier); [lia|exact Hlook|lia].
        + exists n1. intros j earlier Hj Hlook fuel Hfuel.
          destruct (decide (j = k)) as [->|Hne]; [congruence|].
          apply (Hn1 j earlier); [lia|exact Hlook|exact Hfuel]. }
    destruct Hall as [n1 Hn1].
    exists (S (Nat.max n n1)). intros [|fuel] Hle; [lia|].
    cbn [isValidInput]. unfold isValidInput_body. rewrite Hin, Ht. cbn.
    assert (Hf : (n <= fuel)%nat) by lia.
    assert (Hf1 : (n1 <= fuel)%nat) by lia.
    assert (Hj : forall j earlier, (j < k)%nat ->
              valueChildren !! j = Some earlier ->
              isValidInput fuel (name input +:+ earlier) inputMap = Ok true).
    { intros j earlier Hlt Hlook. apply (Hn1 j earlier Hlt Hlook fuel Hf1). }
    do 5 (destruct k as [|k];
      [cbn in Hk; injection Hk as <-;
       rewrite ?(Hj 0%nat ".accountInput"), ?(Hj 1%nat ".assetInput"),
               ?(Hj 2%nat ".amountInput"), ?(Hj 3%nat ".passwordInput")
         by (lia || reflexivity);
       rewrite (He fuel Hf); reflexivity|]).
    cbn in Hk. discriminate.
Qed.

(* every call the relation describes ends at an id with a dot *)
Lemma getData_calls_dotted (inputMap : InputMap) (id id' : string) :
  getData_calls inputMap id id' -> inherited id' = false.
Proof. intros [id0 input _ _ _]. apply inherited_dotted. Qed.

Lemma isValidInput_calls_dotted (inputMap : InputMap) (id id' : string) :
  isValidInput_calls inputMap id id' -> inherited id' = false.
Proof.
  intros [id0 input _ _|id0 input k suffix _ _ Hk _]; [apply inherited_dotted|].
  do 5 (destruct k as [|k];
        [cbn in Hk; injection Hk as <-;
         apply (inherited_dotted (name input))|]).
  cbn in Hk. discriminate.
Qed.

(** C10: getData and isValidInput are partial in the id: when the id, or a
    child id name + "." + value (or a fixed child of a valueInput) reached
    during the recursion, is not a key of the input map and is not the name
    of a member every object inherits, they fail with the TypeError of a
    property read on undefined: no boolean is returned and no text is
    thrown.  A child id reached by the recursion holds a dot and is never
    such a name; for the id given, when it is one and the map does not own
    it, they throw the text "input type not valid undefined". *)
Theorem getData_isValidInput_partial (inputMap : InputMap) (id id' : string) :
  inputMap !! id' = None ->
  (inherited id' = false ->
   (rtc (getData_calls inputMap) id id' ->
    exists n, forall fuel, (n <= fuel)%nat ->
      getData fuel id inputMap = Err TypeError)
   /\ (rtc (isValidInput_calls inputMap) id id' ->
       exists n, forall fuel, (n <= fuel)%nat ->
         isValidInput fuel id inputMap = Err TypeError))
  /\ (inherited id' = true ->
      (rtc (getData_calls inputMap) id id' -> id = id')
      /\ (rtc (isValidInput_calls inputMap) id id' -> id = id')
      /\ forall fuel,
           getData (S fuel) id' inputMap
           = Err (Thrown "input type not valid undefined")
           /\ isValidInput (S fuel) id' inputMap
              = Err (Thrown "input type not valid undefined")).
Proof.
  intros Hmissing. split.
  - intros Hown. split.
    + induction 1 as [id|id id1 id' Hstep _ IH].
      * exists 1%nat. intros [|fuel] Hle; [lia|].
        rewrite getData_missing by exact Hmissing.
        unfold unowned. rewrite Hown. reflexivity.
      * destruct (IH Hmissing Hown) as [n Hn]. exists (S n).
        intros [|fuel] Hle; [lia|].
        apply (getData_calls_Err _ _ _ _ _ Hstep), Hn. lia.
    + induction 1 as [id|id id1 id' Hstep _ IH].
      * exists 1%nat. intros [|fuel] Hle; [lia|].
        rewrite isValidInput_missing by exact Hmissing.
        unfold unowned. rewrite Hown. reflexivity.
      * destruct (IH Hmissing Hown) as [n Hn].
        apply (isValidInput_calls_Err _ _ _ _ n Hstep), Hn.
  - intros Hinherited. split; [|split].
    + intros Hcalls. apply rtc_inv_r in Hcalls as [Heq|(id1 & _ & Hstep)];
        [exact Heq|].
      apply getData_calls_dotted in Hstep.
      rewrite Hstep in Hinherited. discriminate.
    + intros Hcalls. apply rtc_inv_r in Hcalls as [Heq|(id1 & _ & Hstep)];
        [exact Heq|].
      apply isValidInput_calls_dotted in Hstep.
      rewrite Hstep in Hinherited. discriminate.
    + intros fuel.
      rewrite getData_missing, isValidInput_missing by exact Hmissing.
      unfold unowned. rewrite Hinherited. split; reflexivity.
Qed.

(** * Further properties *)

(** ** Hex text and bytes *)

Lemma isLowerHex_cases (c : ascii) :
  isLowerHex c = true ->
  In c (list_ascii_of_string "0123456789abcdef").
Proof.
  destruct c as [[] [] [] [] [] [] [] []]; cbn; intros H;
    try discriminate; tauto.
Qed.

Lemma hex_pair_roundtrip (c1 c2 : ascii) (s : string) :
  isLowerHex c1 = true -> isLowerHex c2 = true ->
  exists b, Buffer_from_hex (String c1 (String c2 s)) = b :: Buffer_from_hex s
            /\ hexOfByte b = String c1 (String c2 "").
Proof.
  intros H1 H2. apply isLowerHex_cases in H1, H2. cbn in H1, H2.
  repeat (destruct H1 as [<-|H1]; [|]); try destruct H1;
    repeat (destruct H2 as [<-|H2]; [|]); try destruct H2;
    eexists; split; reflexivity.
Qed.

(* rendering the bytes of validated hex text gives the text back *)
Lemma hex_roundtrip_aux (s : string) :
  (validateHex s = true -> Buffer_toString_hex (Buffer_from_hex s) = s)
  /\ (forall c, validateHex (String c s) = true ->
      Buffer_toString_hex (Buffer_from_hex (String c s)) = String c s).
Proof.
  induction s as [|c' s [IH1 IH2]].
  - split; [reflexivity|]. intros c H. discriminate.
  - split; [apply IH2|]. intros c H. cbn [validateHex] in H.
    apply andb_true_iff in H as [H Hs]. apply andb_true_iff in H as [Hc Hc'].
    destruct (hex_pair_roundtrip c c' s Hc Hc') as (b & -> & Hb).
    cbn [Buffer_toString_hex fold_right]. fold (Buffer_toString_hex (Buffer_from_hex s)).
    rewrite Hb, (IH1 Hs). reflexivity.
Qed.

Lemma hex_roundtrip (s : string) :
  validateHex s = true -> Buffer_toString_hex (Buffer_from_hex s) = s.
Proof. apply hex_roundtrip_aux. Qed.

(** X1: when getData resolves to bytes, computeDataForInput returns their
    lowercase hex rendering; what it returns is always such a rendering:
    even-length lowercase hex that decodes back to the bytes getData
    resolved, two digits for each byte.  It throws exactly when getData
    throws (the same error) or resolves to a number. *)
Theorem computeDataForInput_hex (fuel : nat) (id : string)
    (inputMap : InputMap) :
  (forall s, computeDataForInput fuel id inputMap = Ok s ->
     validateHex s = true
     /\ exists b, getData fuel id inputMap = Ok (DBuffer b)
                  /\ Buffer_from_hex s = b
                  /\ String.length s = (2 * length b)%nat)
  /\ (forall n, getData fuel id inputMap = Ok (DNumber n) ->
      computeDataForInput fuel id inputMap
      = Err (Thrown "should not get data for a number"))
  /\ (forall e, getData fuel id inputMap = Err e ->
      computeDataForInput fuel id inputMap = Err e)
  /\ (forall b, getData fuel id inputMap = Ok (DBuffer b) ->
      computeDataForInput fuel id inputMap = Ok (Buffer_toString_hex b))
  /\ (forall e, computeDataForInput fuel id inputMap = Err e ->
      getData fuel id inputMap = Err e
      \/ exists n, getData fuel id inputMap = Ok (DNumber n)).
Proof.
  unfold computeDataForInput. split; [|split; [|split; [|split]]].
  - intros s. destruct (getData fuel id inputMap) as [[b|n]|e]; cbn;
      try discriminate.
    intros [= <-]. destruct (Buffer_toString_hex_spec b) as (H1 & H2 & H3).
    split; [exact H1|]. exists b. auto.
  - intros n ->. reflexivity.
  - intros e ->. reflexivity.
  - intros b ->. reflexivity.
  - intros e. destruct (getData fuel id inputMap) as [[b|n]|e']; cbn;
      [discriminate|eauto|intros [= ->]; auto].
Qed.

(** X2: for a provideStringInput that passes validateInput,
    computeDataForInput returns the text the user entered, unchanged. *)
Theorem computeDataForInput_provideStringInput (fuel : nat) (id : string)
    (inputMap : InputMap) (input : Input) :
  inputMap !! id = Some input ->
  type input = "provideStringInput" ->
  validateInput input = Ok true ->
  computeDataForInput (S fuel) id inputMap = Ok (value input).
Proof.
  intros Hin Ht Hv. unfold computeDataForInput.
  cbn [getData]. unfold getData_body. rewrite Hin, Hv. cbn. rewrite Ht. cbn.
  unfold validateInput in Hv. rewrite Ht in Hv. cbn in Hv.
  injection Hv as Hv. rewrite (hex_roundtrip _ Hv). reflexivity.
Qed.

(** X3: a provideHashInput that passes validateInput resolves to exactly 32
    bytes, whose hex rendering is the value entered. *)
Theorem getData_provideHashInput (fuel : nat) (id : string)
    (inputsById : InputMap) (input : Input) :
  inputsById !! id = Some input ->
  type input = "provideHashInput" ->
  validateInput input = Ok true ->
  exists b, getData (S fuel) id inputsById = Ok (DBuffer b)
            /\ length b = 32%nat
            /\ Buffer_toString_hex b = value input.
Proof.
  intros Hin Ht Hv. exists (Buffer_from_hex (value input)).
  cbn [getData]. unfold getData_body. rewrite Hin, Hv. cbn. rewrite Ht. cbn.
  unfold validateInput in Hv. rewrite Ht in Hv. cbn in Hv.
  destruct (validateHex (value input)) eqn:Hhex; cbn in Hv; [|discriminate].
  destruct (hashFunction input) as [h|]; [|discriminate].
  destruct (one_of h _); [|discriminate].
  injection Hv as Hlen. apply Z.eqb_eq in Hlen.
  split; [reflexivity|split; [|apply hex_roundtrip, Hhex]].
  pose proof (proj1 (Buffer_from_hex_length _) Hhex). lia.
Qed.

Lemma substring_hex_prefix (s : string) (n : nat) :
  validateHex s = true ->
  Buffer_from_hex (substring 0 (2 * n) s) = firstn n (Buffer_from_hex s).
Proof.
  intros Hs. rewrite <- (hex_roundtrip s Hs) at 1.
  generalize (Buffer_from_hex s) as b. clear Hs. intros b.
  revert n; induction b as [|x b IH]; intros n.
  - destruct n; reflexivity.
  - destruct n as [|n]; [reflexivity|].
    cbn [Buffer_toString_hex fold_right]. fold (Buffer_toString_hex b).
    replace (2 * S n)%nat with (S (S (2 * n))) by lia.
    change (hexOfByte x +:+ Buffer_toString_hex b)
      with (String (hexDigit (Byte.to_N x / 16)%N)
              (String (hexDigit (Byte.to_N x mod 16)%N) (Buffer_toString_hex b))).
    cbn [substring].
    change (String (hexDigit (Byte.to_N x / 16)%N)
              (String (hexDigit (Byte.to_N x mod 16)%N)
                 (substring 0 (2 * n) (Buffer_toString_hex b))))
      with (hexOfByte x +:+ substring 0 (2 * n) (Buffer_toString_hex b)).
    rewrite hexOfByte_decode, IH. reflexivity.
Qed.

(** X4: a generateStringInput that passes validateInput and whose seed is
    hex text (as the builder generates it) resolves to the first [length]
    bytes of the seed, [length] being its value read as a number: exactly
    that many bytes, at most 520. *)
Theorem getData_generateStringInput (fuel : nat) (id : string)
    (inputsById : InputMap) (input : Input) (s : string) :
  inputsById !! id = Some input ->
  type input = "generateStringInput" ->
  validateInput input = Ok true ->
  seed input = Some s ->
  validateHex s = true ->
  exists l, parseInt (value input) 10 = Num l /\ 0 <= l <= 520
    /\ getData (S fuel) id inputsById
       = Ok (DBuffer (firstn (Z.to_nat l) (Buffer_from_hex s)))
    /\ length (firstn (Z.to_nat l) (Buffer_from_hex s)) = Z.to_nat l.
Proof.
  intros Hin Ht Hv Hseed Hhex.
  pose proof Hv as Hv'. unfold validateInput in Hv'. rewrite Ht in Hv'.
  cbn in Hv'. rewrite Hseed in Hv'.
  destruct (parseInt (value input) 10) as [|l] eqn:Hl; [discriminate|].
  cbn in Hv'.
  destruct (l <? 0) eqn:H0; [discriminate|].
  destruct (520 <? l) eqn:H520; [discriminate|]. cbn in Hv'.
  injection Hv' as Hlen. apply Z.eqb_eq in Hlen.
  apply Z.ltb_ge in H0, H520.
  exists l. split; [reflexivity|split; [lia|]].
  assert (Hbytes : length (Buffer_from_hex s) = 520%nat).
  { pose proof (proj1 (Buffer_from_hex_length _) Hhex). lia. }
  split.
  - cbn [getData]. unfold getData_body. rewrite Hin, Hv. cbn. rewrite Ht. cbn.
    unfold getGenerateStringInputValue. rewrite Hl, Hseed. cbn.
    apply Z.ltb_ge in H0, H520. rewrite H0, H520. cbn.
    rewrite String_slice_prefix by lia.
    replace (Z.to_nat (l * 2)) with (2 * Z.to_nat l)%nat by lia.
    rewrite substring_hex_prefix by exact Hhex. reflexivity.
  - rewrite length_firstn. lia.
Qed.

(** X5: validation bounds what the numeric inputs resolve to: a numberInput
    that passes validateInput resolves to a number between MIN_NUMBER and
    MAX_NUMBER, an amountInput to a number that is not negative, and a
    timestampTimeInput never to NaN. *)
Theorem getData_numeric_bounds (fuel : nat) (id : string)
    (inputsById : InputMap) (input : Input) :
  inputsById !! id = Some input ->
  validateInput input = Ok true ->
  (type input = "numberInput" ->
   exists z, getData (S fuel) id inputsById = Ok (DNumber (Num z))
             /\ num_le MIN_NUMBER (Num z) = true
             /\ num_le (Num z) MAX_NUMBER = true)
  /\ (type input = "amountInput" ->
      exists z, getData (S fuel) id inputsById = Ok (DNumber (Num z))
                /\ 0 <= z)
  /\ (type input = "timestampTimeInput" ->
      exists n, getData (S fuel) id inputsById = Ok (DNumber n)
                /\ isNaN n = false).
Proof.
  intros Hin Hv. split; [|split]; intros Ht;
    cbn [getData]; unfold getData_body; rewrite Hin, Hv; cbn; rewrite Ht; cbn;
    unfold validateInput in Hv; rewrite Ht in Hv; cbn in Hv.
  - destruct (parseInt (value input) 10) as [|z]; [discriminate|].
    cbn in Hv. injection Hv as Hv. apply andb_true_iff in Hv as [H1 H2].
    exists z. auto.
  - destruct (parseInt (value input) 10) as [|z]; [discriminate|].
    cbn in Hv. destruct (z <? 0) eqn:H0; [discriminate|].
    apply Z.ltb_ge in H0. exists z. auto.
  - injection Hv as Hv. apply negb_true_iff in Hv. eauto.
Qed.

(** ** Aggregate validity *)

Lemma and_then_true (a b : result bool) :
  and_then a b = Ok true <-> a = Ok true /\ b = Ok true.
Proof.
  destruct a as [[]|e]; cbn; split; try tauto; try discriminate;
    intros [H _]; discriminate.
Qed.

(** X6: a valueInput is valid exactly when each of its five fixed children
    (accountInput, assetInput, amountInput, passwordInput, gasInput) is
    valid; one invalid child makes the whole invalid. *)
Theorem isValidInput_valueInput (fuel : nat) (id : string)
    (inputMap : InputMap) (input : Input) :
  inputMap !! id = Some input ->
  type input = "valueInput" ->
  (isValidInput (S fuel) id inputMap = Ok true <->
   forall suffix, In suffix valueChildren ->
     isValidInput fuel (name input +:+ suffix) inputMap = Ok true)
  /\ (forall suffix, In suffix valueChildren ->
      isValidInput fuel (name input +:+ suffix) inputMap = Ok false ->
      isValidInput (S fuel) id inputMap <> Ok true).
Proof.
  intros Hin Ht.
  assert (Hiff : isValidInput (S fuel) id inputMap = Ok true <->
   forall suffix, In suffix valueChildren ->
     isValidInput fuel (name input +:+ suffix) inputMap = Ok true).
  { cbn [isValidInput]. unfold isValidInput_body. rewrite Hin, Ht. cbn.
    rewrite !and_then_true. split.
    - intros (H1 & H2 & H3 & H4 & H5) suffix [<-|[<-|[<-|[<-|[<-|[]]]]]];
        assumption.
    - intros H. repeat split; apply H; cbn; tauto. }
  split; [exact Hiff|].
  intros suffix Hs Hfalse Htrue. rewrite Hiff in Htrue.
  rewrite (Htrue suffix Hs) in Hfalse. discriminate.
Qed.

Lemma filterInvalid_nil (fuel : nat) (ids : list string) (inputMap : InputMap) :
  filterInvalid fuel ids inputMap = Ok [] <->
  Forall (fun id => isValidInput fuel id inputMap = Ok true) ids.
Proof.
  induction ids as [|id ids IH]; cbn.
  - split; [constructor|reflexivity].
  - destruct (isValidInput fuel id inputMap) as [[]|e] eqn:Hid; cbn.
    + destruct (filterInvalid fuel ids inputMap) as [l|e] eqn:Hl; cbn.
      * split.
        -- intros [= ->]. constructor; [exact Hid|]. apply IH. reflexivity.
        -- intros H. apply Forall_cons in H as [_ H]. apply IH in H.
           congruence.
      * split; [discriminate|].
        intros H. apply Forall_cons in H as [_ H]. apply IH in H. discriminate.
    + split.
      * destruct (filterInvalid fuel ids inputMap); cbn; discriminate.
      * intros H. apply Forall_cons in H as [H _]. congruence.
    + split; [discriminate|].
      intros H. apply Forall_cons in H as [H _]. congruence.
Qed.

(** X7: areInputsValid is true exactly when the input map and the compiled
    template are present and isValidInput is true for every parameter id
    "contractParameters.<name>" and for the value id "contractValue.<value>";
    without an input map or a compiled template it is false. *)
Theorem areInputsValid_spec (fuel : nat) (state : AppState.t) :
  (areInputsValid fuel state = Ok true <->
   exists inputMap compiled,
     getInputMap state = Some inputMap
     /\ getCompiled state = Some compiled
     /\ Forall (fun id => isValidInput fuel id inputMap = Ok true)
          (((fun param => "contractParameters." +:+ param)
              <$> Compiled.params compiled)
           ++ ["contractValue." +:+ Compiled.value compiled]))
  /\ (getInputMap state = None \/ getCompiled state = None ->
      areInputsValid fuel state = Ok false).
Proof.
  unfold areInputsValid, getParameterIds, getContractParameters,
    getContractValueId.
  destruct (getInputMap state) as [inputMap|];
    destruct (getCompiled state) as [compiled|]; split;
    try (intros [H|H]; (discriminate || reflexivity));
    try (split; [discriminate|intros (? & ? & H1 & H2 & _); discriminate]).
  split.
  - intros H.
    destruct (filterInvalid fuel _ inputMap) as [invalid|e] eqn:Hf;
      [|discriminate].
    cbn in H. destruct invalid; [|discriminate].
    exists inputMap, compiled. split; [reflexivity|split; [reflexivity|]].
    apply filterInvalid_nil, Hf.
  - intros (m & c & [= <-] & [= <-] & H). apply filterInvalid_nil in H.
    rewrite H. reflexivity.
Qed.

(** ** Asynchronous resolution *)

Lemma M_eta {A} (m : M A) : m = mkM (events m) (outcome m).
Proof. destruct m; reflexivity. Qed.

Lemma M_bind_Ok {A B} (m : M A) (f : A -> M B) (evs : list Event) (b : B) :
  m ≫= f = mkM evs (Ok b) ->
  exists a evs1 evs2,
    m = mkM evs1 (Ok a) /\ f a = mkM evs2 (Ok b) /\ evs = evs1 ++ evs2.
Proof.
  destruct m as [evs1 [a|e]]; cbn; [|discriminate].
  intros [= <- Hout]. exists a, evs1, (events (f a)).
  split; [reflexivity|split; [|reflexivity]].
  rewrite (M_eta (f a)), Hout. reflexivity.
Qed.

Lemma M_bind_events {A B} (m : M A) (f : A -> M B) (P : Event -> Prop) :
  Forall P (events m) -> (forall a, Forall P (events (f a))) ->
  Forall P (events (m ≫= f)).
Proof.
  intros Hm Hf. destruct m as [evs [a|e]]; cbn; [|exact Hm].
  apply Forall_app. split; [exact Hm|apply Hf].
Qed.

Lemma getPromiseData_resolved (inputId : string) (inputsById : InputMap)
    (input input' : Input) (evs : list Event) :
  inputsById !! inputId = Some input ->
  getPromiseData inputId inputsById = mkM evs (Ok (Ok input')) ->
  resolved_from input input'.
Proof.
  intros Hin. unfold getPromiseData. rewrite Hin. cbn zeta.
  assert (Hw : forall data key, resolved_from input (withComputed input data key)).
  { intros data key. unfold resolved_from. cbn. repeat split; eauto. }
  destruct (inputsById !! (name input +:+ "." +:+ value input)) as [child|];
    cbn.
  2: { repeat (destruct (one_of (type input) _); [discriminate|]).
       discriminate. }
  destruct (one_of (type input) _); [intros [= <- <-]; apply Hw|].
  destruct (one_of (type input) _).
  { destruct (String.eqb (value input) "provideStringInput"); cbn.
    - intros [= <- <-]. apply Hw.
    - destruct (client_listReceiver (value child)); cbn; [|discriminate].
      intros [= <- <-]. apply Hw. }
  destruct (one_of (type input) _); [|discriminate].
  destruct (String.eqb (value input) "provideStringInput"); cbn.
  - intros [= <- <-]. apply Hw.
  - destruct (client_createAccountPubkey (value child)) as [pk|]; cbn;
      [|discriminate].
    destruct (pubkey_infos pk); [discriminate|].
    intros [= <- <-]. apply Hw.
Qed.

Lemma getPromiseData_calls (inputId : string) (inputsById : InputMap) :
  Forall (fun e => is_resolution_call e = true)
         (events (getPromiseData inputId inputsById)).
Proof.
  unfold getPromiseData.
  destruct (inputsById !! inputId) as [input|]; [|constructor]. cbn zeta.
  destruct (inputsById !! (name input +:+ "." +:+ value input)) as [child|];
    cbn.
  2: { repeat (destruct (one_of (type input) _); [constructor|]).
       constructor. }
  destruct (one_of (type input) _); [constructor|].
  destruct (one_of (type input) _).
  { destruct (String.eqb (value input) "provideStringInput"); cbn;
      repeat constructor. }
  destruct (one_of (type input) _); [|constructor].
  destruct (String.eqb (value input) "provideStringInput"); cbn;
    repeat constructor.
Qed.

Lemma promiseEntries_calls (inputsById : InputMap)
    (entries : list (string * Input)) :
  Forall (fun e => is_resolution_call e = true)
         (events (promiseEntries inputsById entries)).
Proof.
  induction entries as [|[id input] rest IH]; [constructor|].
  cbn [promiseEntries]. apply M_bind_events.
  - destruct (one_of (type input) _); [apply getPromiseData_calls|constructor].
  - intros promised. apply M_bind_events; [exact IH|]. intros; constructor.
Qed.

Lemma getPromisedInputMap_calls (inputsById : InputMap) :
  Forall (fun e => is_resolution_call e = true)
         (events (getPromisedInputMap inputsById)).
Proof.
  unfold getPromisedInputMap. apply M_bind_events.
  - apply promiseEntries_calls.
  - intros; constructor.
Qed.

(* the entries of the resolved map, one for each entry that was given *)
Lemma resolve_entries (inputsById : InputMap) (entries : list (string * Input)) :
  NoDup entries.*1 ->
  (forall id input, (id, input) ∈ entries -> inputsById !! id = Some input) ->
  forall evs promised resolved,
    promiseEntries inputsById entries = mkM evs (Ok promised) ->
    Promise_props promised = Ok resolved ->
    (forall id, resolved !! id = None <-> id ∉ entries.*1)
    /\ (forall id input, (id, input) ∈ entries ->
        exists input', resolved !! id = Some input'
          /\ if one_of (type input)
                  ["publicKeyInput"; "programInput"; "assetInput"]
             then resolved_from input input' else input' = input).
Proof.
  induction entries as [|[id0 input0] rest IH];
    intros Hnd Hlook evs promised resolved Hrun Hprops.
  - cbn in Hrun. injection Hrun as <- <-. cbn in Hprops.
    injection Hprops as <-. split.
    + intros id. rewrite lookup_empty. split; [intros _|reflexivity].
      apply not_elem_of_nil.
    + intros id input Hin. apply elem_of_nil in Hin. destruct Hin.
  - cbn [promiseEntries] in Hrun.
    apply M_bind_Ok in Hrun as (p0 & evs1 & evs2 & Hfirst & Hrun & ->).
    apply M_bind_Ok in Hrun as (others & evs3 & evs4 & Hrest & Hret & ->).
    cbn in Hret. injection Hret as <- <-.
    cbn [Promise_props] in Hprops.
    destruct p0 as [input0'|e]; cbn in Hprops; [|discriminate].
    destruct (Promise_props others) as [resolved'|e] eqn:Hothers; cbn in Hprops;
      [|discriminate].
    injection Hprops as <-.
    cbn in Hnd. apply NoDup_cons in Hnd as [Hfresh Hnd].
    destruct (IH Hnd (fun id input H => Hlook id input (proj2 (elem_of_cons _ _ _) (or_intror H)))
                 _ _ _ Hrest Hothers) as [Hnone Hsome].
    assert (H0 : if one_of (type input0)
                      ["publicKeyInput"; "programInput"; "assetInput"]
                 then resolved_from input0 input0' else input0' = input0).
    { destruct (one_of (type input0) _) eqn:E.
      - apply (getPromiseData_resolved id0 inputsById input0 input0' evs1);
          [apply Hlook; left|exact Hfirst].
      - cbv [mret M_ret] in Hfirst. injection Hfirst as _ <-. reflexivity. }
    split.
    + intros id. cbn. rewrite lookup_insert. case_decide as Hid.
      * subst. split; [discriminate|]. intros H. destruct H. left.
      * rewrite Hnone. rewrite not_elem_of_cons.
        split; [intros H; split; [congruence|exact H]|intros [_ H]; exact H].
    + intros id input Hin. apply elem_of_cons in Hin as [[= -> ->]|Hin].
      * exists input0'. rewrite lookup_insert_eq. auto.
      * destruct (Hsome id input Hin) as (input' & Hl & HR).
        exists input'. split; [|exact HR].
        rewrite lookup_insert_ne; [exact Hl|].
        intros ->. apply Hfresh. apply list_elem_of_fmap.
        exists (id, input). auto.
Qed.

(* what resolution makes of one entry *)
Lemma getPromisedInputMap_entry (inputsById resolved : InputMap)
    (evs : list Event) (id : string) (input : Input) :
  getPromisedInputMap inputsById = mkM evs (Ok (Ok resolved)) ->
  inputsById !! id = Some input ->
  exists input', resolved !! id = Some input'
    /\ if one_of (type input)
            ["publicKeyInput"; "programInput"; "assetInput"]
       then resolved_from input input' else input' = input.
Proof.
  intros Hrun Hin. unfold getPromisedInputMap in Hrun.
  apply M_bind_Ok in Hrun as (promised & evs1 & evs2 & Hentries & Hret & ->).
  cbn in Hret. injection Hret as <- Hprops.
  apply (proj2 (resolve_entries inputsById (map_to_list inputsById)
                  (NoDup_fst_map_to_list inputsById)
                  (fun id input H => proj1 (elem_of_map_to_list _ _ _) H)
                  _ _ _ Hentries Hprops)).
  apply elem_of_map_to_list, Hin.
Qed.


Lemma validateInput_resolved (input input' : Input) :
  resolved_from input input' ->
  one_of (type input) ["publicKeyInput"; "programInput"; "assetInput"] = true ->
  validateInput input' = validateInput input.
Proof.
  intros (Ht & _ & Hv & _) Hone. apply one_of_In in Hone. cbn in Hone.
  unfold validateInput. rewrite Ht, Hv.
  destruct Hone as [<-|[<-|[<-|[]]]]; reflexivity.
Qed.


Lemma getPromiseData_offline (inputId : string) (inputsById : InputMap)
    (input : Input) :
  inputsById !! inputId = Some input ->
  one_of (type input) ["publicKeyInput"; "programInput"; "assetInput"] = true ->
  (one_of (type input) ["publicKeyInput"; "programInput"] = true ->
   value input = "provideStringInput") ->
  events (getPromiseData inputId inputsById) = []
  /\ (outcome (getPromiseData inputId inputsById) = Err TypeError
      \/ exists input', outcome (getPromiseData inputId inputsById)
                        = Ok (Ok input')).
Proof.
  intros Hin Hone Hchoice. unfold getPromiseData. rewrite Hin. cbn zeta.
  apply one_of_In in Hone. cbn in Hone.
  destruct (inputsById !! (name input +:+ "." +:+ value input)) as [child|];
    destruct Hone as [Ht|[Ht|[Ht|[]]]]; rewrite <- Ht in *; cbn;
    try rewrite (Hchoice eq_refl); cbn; eauto.
Qed.

Lemma promiseEntries_offline (inputsById : InputMap)
    (entries : list (string * Input)) :
  (forall id input, (id, input) ∈ entries -> inputsById !! id = Some input) ->
  (forall id input, (id, input) ∈ entries ->
     one_of (type input) ["publicKeyInput"; "programInput"] = true ->
     value input = "provideStringInput") ->
  events (promiseEntries inputsById entries) = []
  /\ (outcome (promiseEntries inputsById entries) = Err TypeError
      \/ exists promised resolved,
           outcome (promiseEntries inputsById entries) = Ok promised
           /\ Promise_props promised = Ok resolved).
Proof.
  induction entries as [|[id input] rest IH]; intros Hlook Hchoice.
  - split; [reflexivity|]. right. exists [], ∅. split; reflexivity.
  - destruct IH as [Hev Hout].
    { intros id' input' H. apply Hlook. right. exact H. }
    { intros id' input' H. apply (Hchoice id'). right. exact H. }
    cbn [promiseEntries].
    assert (Hfirst : exists first,
      (if one_of (type input) ["publicKeyInput"; "programInput"; "assetInput"]
       then getPromiseData id inputsById else mret (Ok input)) = first
      /\ events first = []
      /\ (outcome first = Err TypeError
          \/ exists input', outcome first = Ok (Ok input'))).
    { eexists. split; [reflexivity|].
      destruct (one_of (type input) _) eqn:Hone.
      - apply (getPromiseData_offline id inputsById input);
          [apply Hlook; left|exact Hone|].
        intros H. apply (Hchoice id input); [left|exact H].
      - split; [reflexivity|]. right. exists input. reflexivity. }
    destruct Hfirst as (first & -> & Hev1 & Hout1).
    destruct first as [evs1 out1]. cbn in Hev1, Hout1. subst evs1.
    destruct (promiseEntries inputsById rest) as [evs2 out2].
    cbn in Hev, Hout. subst evs2.
    destruct Hout1 as [->|[input' ->]]; cbn; [auto|].
    destruct Hout as [->|(promised & resolved & -> & Hprops)]; cbn; [auto|].
    split; [reflexivity|]. right.
    exists ((id, Ok input') :: promised), (<[id := input']> resolved).
    split; [reflexivity|]. cbn. rewrite Hprops. reflexivity.
Qed.

(** X10: when every publicKeyInput and programInput of the map selects its
    provideStringInput child, getPromisedInputMap makes no remote call, and
    no promise can be rejected: it resolves, or throws the TypeError of a
    missing child. *)
Theorem getPromisedInputMap_offline (inputsById : InputMap) :
  (forall id input, inputsById !! id = Some input ->
     one_of (type input) ["publicKeyInput"; "programInput"] = true ->
     value input = "provideStringInput") ->
  events (getPromisedInputMap inputsById) = []
  /\ (outcome (getPromisedInputMap inputsById) = Err TypeError
      \/ exists resolved,
           outcome (getPromisedInputMap inputsById) = Ok (Ok resolved)).
Proof.
  intros Hchoice.
  destruct (promiseEntries_offline inputsById (map_to_list inputsById))
    as [Hev Hout].
  { intros id input H. apply elem_of_map_to_list, H. }
  { intros id input H. apply (Hchoice id). apply elem_of_map_to_list, H. }
  unfold getPromisedInputMap.
  destruct (promiseEntries inputsById (map_to_list inputsById)) as [evs out].
  cbn in Hev, Hout. subst evs.
  destruct Hout as [->|(promised & resolved & -> & Hprops)]; cbn; [auto|].
  split; [reflexivity|]. right. exists resolved. rewrite Hprops. reflexivity.
Qed.

(** ** Runs of [create] *)

Lemma getContractArgs_logs (fuel : nat) (state : AppState.t)
    (inputMap : InputMap) :
  Forall (fun ev => exists e, ev = ConsoleLog e)
         (events (getContractArgs fuel state inputMap)).
Proof.
  unfold getContractArgs. destruct (getParameterIds state); [|constructor].
  unfold try_catch, lift. cbn.
  destruct (getDataAll fuel _ inputMap); cbn; repeat constructor. eauto.
Qed.

(** X11: a run of create that throws leaves the busy flag set.  The throw
    of the call itself (of the validity check, of the funding source or of
    the resolution of the inputs, before the promise chain is built) comes
    after updateIsCalling(true), and nothing else was dispatched: besides
    that dispatch the run has only made resolution calls. *)
Theorem create_busy_flag (fuel : nat) (state : AppState.t) (e : error) :
  outcome (create fuel state) = Err e ->
  exists calls,
    events (create fuel state) = Dispatch (updateIsCalling true) :: calls
    /\ Forall (fun ev => is_resolution_call ev = true) calls.
Proof.
  unfold create, try_catch, submit.
  pose proof (fun inputMap => getPromisedInputMap_calls inputMap) as Hcalls.
  destruct (areInputsValid fuel state) as [[]|e0]; cbn;
    [destruct (getInputMap state) as [inputMap|]; cbn;
     [destruct (getContractValue state) as [[spendFromAccount|]|e0]; cbn;
      [specialize (Hcalls inputMap);
       destruct (getPromisedInputMap inputMap) as [calls [[resolved|e0]|e0]];
       cbn;
       [destruct (getContractArgs fuel state resolved)
          as [logs [params|e0]]; cbn;
        [rewrite coerceArgs_Data; cbn;
         destruct (client_compile _ _) as [[data|program]|e0]; cbn;
         [|destruct (createLockingTx _ _) as [utxo|e0]; cbn|]|]|
        |]| |]|]| |];
    intros He; try discriminate He;
    eexists; (split; [reflexivity|]); rewrite ?app_nil_r; auto.
Qed.

Lemma resolution_calls_no_tx (calls : list Event) (actions : list TxAction)
    (password : string) :
  Forall (fun ev => is_resolution_call ev = true) calls ->
  ~ In (CreateLockingTx actions password) calls.
Proof.
  intros Hall Hin. apply list_elem_of_In in Hin.
  rewrite Forall_forall in Hall. apply Hall in Hin. discriminate.
Qed.

Lemma logs_no_tx (logs : list Event) (actions : list TxAction)
    (password : string) :
  Forall (fun ev => exists e, ev = ConsoleLog e) logs ->
  ~ In (CreateLockingTx actions password) logs.
Proof.
  intros Hall Hin. apply list_elem_of_In in Hin.
  rewrite Forall_forall in Hall. apply Hall in Hin as [e He]. discriminate.
Qed.

(** X12: create submits a locking transaction only after a compile call of
    the current source that succeeded, and once: the submission is the event
    that follows the compile call, the compile call was answered with a
    program (a status other than 'fail'), and no other compile call or
    submission is made in the run.  The transaction is fixed by the funding
    source and the compiled program: it spends the funding source, controls
    the same asset and amount with the compiled program, and pays 20000000
    of the all-f asset from the same account as gas; the password sent with
    it is the one of the funding source. *)
Theorem create_locking_tx (fuel : nat) (state : AppState.t)
    (actions : list TxAction) (password : string) :
  In (CreateLockingTx actions password) (events (create fuel state)) ->
  exists spendFromAccount args program before after,
    areInputsValid fuel state = Ok true
    /\ getContractValue state = Ok (Some spendFromAccount)
    /\ events (create fuel state)
       = before ++ ClientCompile (getSource state) args
                :: CreateLockingTx actions password :: after
    /\ Forall (fun ev => is_remote_call ev = true ->
                         is_resolution_call ev = true) (before ++ after)
    /\ client_compile (getSource state) args = Ok (CompileDone program)
    /\ actions
       = [ ActSpendFromAccount spendFromAccount;
           ActControlWithReceiver program
             (SpendFromAccount.assetId spendFromAccount)
             (SpendFromAccount.amount spendFromAccount);
           ActGas (SpendFromAccount.accountId spendFromAccount) 20000000
             "spendFromAccount"
             "ffffffffffffffffffffffffffffffffffffffffffffffffffffffffffffffff" ]
    /\ password = SpendFromAccount.password spendFromAccount.
Proof.
  unfold create, try_catch, submit.
  pose proof (fun inputMap => getPromisedInputMap_calls inputMap) as Hcalls.
  pose proof (fun resolved => getContractArgs_logs fuel state resolved) as Hlogs.
  destruct (areInputsValid fuel state) as [[]|e0]; cbn;
    [destruct (getInputMap state) as [inputMap|]; cbn;
     [destruct (getContractValue state) as [[spendFromAccount|]|e0]; cbn;
      [specialize (Hcalls inputMap);
       destruct (getPromisedInputMap inputMap) as [calls [[resolved|e0]|e0]];
       cbn;
       [specialize (Hlogs resolved);
        destruct (getContractArgs fuel state resolved)
          as [logs [params|e0]]; cbn;
        [rewrite coerceArgs_Data; cbn;
         destruct (client_compile _ _) as [[data|program]|e0] eqn:Hcompile;
         cbn;
         [|destruct (createLockingTx _ _) as [utxo|e0]; cbn|]|]|
        |]| |]|]| |];
    cbn in Hcalls; try cbn in Hlogs;
    intros Hin; pose proof Hin as Hin';
    rewrite ?in_app_iff in Hin'; cbn in Hin'; rewrite ?in_app_iff in Hin';
    cbn in Hin';
    repeat match type of Hin' with
           | _ \/ _ => destruct Hin' as [Hin'|Hin']
           | False => contradiction
           | In _ _ =>
               exfalso;
               first [ exact (resolution_calls_no_tx _ _ _ Hcalls Hin')
                     | exact (logs_no_tx _ _ _ Hlogs Hin') ]
           | _ = _ => first [discriminate|injection Hin' as <- <-]
           end;
    exists spendFromAccount, (wire_of_Data <$> params), program,
      (Dispatch (updateIsCalling true) :: calls ++ logs);
    eexists;
    (split; [reflexivity|]); (split; [reflexivity|]);
    (split; [cbn; rewrite <- ?app_assoc; reflexivity|]);
    (split; [|split; [exact Hcompile|split; reflexivity]]).
  all: cbn; (constructor; [discriminate|]);
    rewrite !Forall_app; (split; [split|]);
    [ eapply Forall_impl; [exact Hcalls|]; cbn; auto
    | eapply Forall_impl; [exact Hlogs|]; cbn; intros ev [e ->]; discriminate
    | repeat constructor; discriminate ].
Qed.

Lemma resolution_calls_no_dispatch (calls : list Event) (a : StoreAction) :
  Forall (fun ev => is_resolution_call ev = true) calls ->
  ~ In (Dispatch a) calls.
Proof.
  intros Hall Hin. apply list_elem_of_In in Hin.
  rewrite Forall_forall in Hall. apply Hall in Hin. discriminate.
Qed.

Lemma logs_no_dispatch (logs : list Event) (a : StoreAction) :
  Forall (fun ev => exists e, ev = ConsoleLog e) logs ->
  ~ In (Dispatch a) logs.
Proof.
  intros Hall Hin. apply list_elem_of_In in Hin.
  rewrite Forall_forall in Hall. apply Hall in Hin as [e He]. discriminate.
Qed.

(** X13: create reports success only for a transaction the node accepted:
    a success message among its dispatches carries the transaction id that
    createLockingTx answered to a submission made in the same run, links to
    that transaction's dashboard page, and comes with the source being
    stored. *)
Theorem create_success_message (fuel : nat) (state : AppState.t)
    (text href label : string) :
  In (Dispatch (updateLockMessage (_success text href label)))
     (events (create fuel state)) ->
  exists actions password utxo,
    In (CreateLockingTx actions password) (events (create fuel state))
    /\ createLockingTx actions password = Ok utxo
    /\ label = transactionId utxo
    /\ href = "/dashboard/transactions/" +:+ transactionId utxo
    /\ In (Dispatch (setSource (getSource state))) (events (create fuel state))
    /\ outcome (create fuel state) = Ok tt.
Proof.
  unfold create, try_catch, submit.
  pose proof (fun inputMap => getPromisedInputMap_calls inputMap) as Hcalls.
  pose proof (fun resolved => getContractArgs_logs fuel state resolved) as Hlogs.
  destruct (areInputsValid fuel state) as [[]|e0]; cbn;
    [destruct (getInputMap state) as [inputMap|]; cbn;
     [destruct (getContractValue state) as [[spendFromAccount|]|e0]; cbn;
      [specialize (Hcalls inputMap);
       destruct (getPromisedInputMap inputMap) as [calls [[resolved|e0]|e0]];
       cbn;
       [specialize (Hlogs resolved);
        destruct (getContractArgs fuel state resolved)
          as [logs [params|e0]]; cbn;
        [rewrite coerceArgs_Data; cbn;
         destruct (client_compile _ _) as [[data|program]|e0]; cbn;
         [|destruct (createLockingTx _ _) as [utxo|e0] eqn:Htx; cbn|]|]|
        |]| |]|]| |];
    cbn in Hcalls; try cbn in Hlogs;
    rewrite ?in_app_iff; cbn; rewrite ?in_app_iff; cbn;
    intros Hin;
    repeat match type of Hin with
           | _ \/ _ => destruct Hin as [Hin|Hin]
           | False => contradiction
           | In _ _ =>
               exfalso;
               first [ exact (resolution_calls_no_dispatch _ _ Hcalls Hin)
                     | exact (logs_no_dispatch _ _ Hlogs Hin) ]
           | _ = _ => first [discriminate|injection Hin as <- <- <-]
           end;
    eexists _, _, utxo;
    repeat split; try exact Htx; rewrite ?in_app_iff; cbn; auto 12.
Qed.

(** X14: when the inputs are valid and resolved but getData fails for a
    contract parameter, create does not stop: the failure is logged and the
    remote compiler is called with an empty argument list. *)
Theorem create_unresolved_arguments (fuel : nat) (state : AppState.t)
    (inputMap resolved : InputMap) (spendFromAccount : SpendFromAccount.t)
    (calls : list Event) (ids : list string) :
  areInputsValid fuel state = Ok true ->
  getInputMap state = Some inputMap ->
  getContractValue state = Ok (Some spendFromAccount) ->
  getPromisedInputMap inputMap = mkM calls (Ok (Ok resolved)) ->
  getParameterIds state = Some ids ->
  Exists (fun id => exists e, getData fuel id resolved = Err e) ids ->
  exists id e rest,
    In id ids /\ getData fuel id resolved = Err e
    /\ events (create fuel state)
       = Dispatch (updateIsCalling true)
         :: calls ++ ConsoleLog e :: ClientCompile (getSource state) [] :: rest.
Proof.
  intros Hvalid Hmap Hvalue Hpromised Hids Hex.
  destruct (getDataAll_Err _ _ _ Hex) as (id & e & Hin & He & Hall).
  assert (getContractArgs fuel state resolved = mkM [ConsoleLog e] (Ok []))
    as Hargs.
  { unfold getContractArgs. rewrite Hids. unfold try_catch, lift. cbn.
    rewrite Hall. reflexivity. }
  destruct (create_compile_call _ _ _ _ _ _ _ _ Hvalid Hmap Hvalue Hpromised
              Hargs) as [rest Hrest].
  exists id, e, rest. split; [exact Hin|split; [exact He|exact Hrest]].
Qed.

(** ** Termination of the recursion through child ids *)

(** X15: on a map that stores every input under its name, getData and
    isValidInput terminate: each recursive call is on a longer id, so a
    depth of two more than the longest key is never exceeded, and any larger
    allowance gives the same result. *)
Theorem getData_isValidInput_depth (inputMap : InputMap) (bound fuel : nat)
    (id : string) :
  keyed_by_name inputMap -> key_bound inputMap bound ->
  (bound + 2 <= fuel)%nat ->
  getData fuel id inputMap <> Err RangeError
  /\ getData fuel id inputMap = getData (bound + 2) id inputMap
  /\ isValidInput fuel id inputMap <> Err RangeError
  /\ isValidInput fuel id inputMap = isValidInput (bound + 2) id inputMap.
Proof.
  intros Hkeyed Hbound Hfuel. repeat split.
  - apply (getData_terminates _ bound); [assumption|assumption|lia|lia].
  - apply getData_fuel_enough; assumption.
  - apply (isValidInput_terminates _ bound); [assumption|assumption|lia|lia].
  - apply isValidInput_fuel_enough; assumption.
Qed.

(** X16: the recursion relies on the map being keyed by name: where a valid
    input that getData resolves through its child is stored under the id of
    that child, getData calls itself on the same id again and exhausts any
    call depth. *)
Theorem getData_self_child (inputMap : InputMap) (id : string) (input : Input) :
  inputMap !! id = Some input ->
  validateInput input = Ok true ->
  one_of (type input) ["timeInput"; "parameterInput"; "stringInput";
                       "hashInput"; "signatureInput"] = true ->
  getChild input = id ->
  forall fuel, getData fuel id inputMap = Err RangeError.
Proof.
  intros Hin Hvalid Htype Hchild fuel.
  induction fuel as [|fuel IH]; [reflexivity|].
  cbn [getData]. unfold getData_body. rewrite Hin, Hvalid. cbn.
  rewrite Htype, Hchild. exact IH.
Qed.

(** ** Type tables *)

(** X17: getInputType only returns primary input types, so the
    parameterInput that addParameterInput builds around the returned type
    passes validateInput (and so does a generateHashInput holding it). *)
Theorem getInputType_primary (t : ClauseParameterType) (s n : string) :
  getInputType t = Ok s ->
  isPrimaryInputType s = true
  /\ validateInput (plainInput "parameterInput" n s) = Ok true
  /\ validateInput (plainInput "generateHashInput" n s) = Ok true.
Proof.
  intros Ht.
  assert (isPrimaryInputType s = true) as Hprimary.
  { unfold getInputType in Ht. destruct t as [t|h]; cbn in Ht.
    - repeat match type of Ht with
             | (if ?c then _ else _) = _ => destruct c
             end;
        try discriminate; injection Ht as <-; reflexivity.
    - injection Ht as <-. reflexivity. }
  split; [exact Hprimary|].
  unfold isPrimaryInputType in Hprimary.
  unfold validateInput, isPrimaryInputType; cbn. rewrite Hprimary.
  split; reflexivity.
Qed.

(** ** Source map and key map *)

Lemma noneEquals_false (source : string) (sources : list string) :
  noneEquals source sources = false <-> In source sources.
Proof.
  induction sources as [|s rest IH]; cbn.
  - split; [discriminate|contradiction].
  - destruct (String.eqb s source) eqn:E.
    + apply eqb_true_iff in E. split; auto.
    + rewrite IH. split; [auto|]. intros [->|H]; [|exact H].
      rewrite String.eqb_refl in E. discriminate.
Qed.

(** X18: hasSourceChanged is false exactly when the source text is the
    stored source of some template of the source map. *)
Theorem hasSourceChanged_spec (source : string) (state : AppState.t) :
  hasSourceChanged source state = false
  <-> exists id, getTemplate id state = Some source.
Proof.
  unfold hasSourceChanged, getTemplate. rewrite noneEquals_false.
  rewrite <- list_elem_of_In, list_elem_of_fmap. split.
  - intros [[id src] [-> Hin]]. exists id.
    apply elem_of_map_to_list in Hin. exact Hin.
  - intros [id Hid]. exists (id, source). split; [reflexivity|].
    apply elem_of_map_to_list. exact Hid.
Qed.

Lemma collectKeys_spec (entries : list Input) (mapping : gmap string KeyData) :
  (Forall (fun input => type input = "publicKeyInput" ->
             is_Some (computedData input) /\ is_Some (keyData input)) entries ->
   exists keys, collectKeys entries mapping = Ok keys
     /\ forall computed key, keys !! computed = Some key ->
          mapping !! computed = Some key
          \/ exists input, In input entries
               /\ type input = "publicKeyInput"
               /\ computedData input = Some computed
               /\ keyData input = Some key)
  /\ (Exists (fun input => type input = "publicKeyInput"
               /\ (computedData input = None \/ keyData input = None)) entries ->
      collectKeys entries mapping
        = Err (Thrown "input.computedData unexpectedly undefined")
      \/ collectKeys entries mapping
        = Err (Thrown "input.keyData unexpectedly undefined")).
Proof.
  revert mapping. induction entries as [|input rest IH]; intros mapping.
  - split.
    + intros _. exists mapping. split; [reflexivity|auto].
    + intros H. inversion H.
  - split.
    + intros Hall. inversion Hall as [|? ? Hhead Hrest]; subst. cbn.
      destruct (String.eqb (type input) "publicKeyInput") eqn:E.
      * apply eqb_true_iff in E.
        destruct (Hhead E) as [[computed Hc] [key Hk]]. rewrite Hc, Hk.
        destruct (proj1 (IH (<[computed := key]> mapping)) Hrest)
          as (keys & Hkeys & Hfrom).
        exists keys. split; [exact Hkeys|].
        intros c k Hlook. destruct (Hfrom c k Hlook) as [Hm|(i & Hi & H)].
        -- destruct (decide (computed = c)) as [->|Hne].
           ++ rewrite lookup_insert_eq in Hm. injection Hm as <-.
              right. exists input. cbn. auto.
           ++ rewrite lookup_insert_ne in Hm by exact Hne. left. exact Hm.
        -- right. exists i. cbn. tauto.
      * destruct (proj1 (IH mapping) Hrest) as (keys & Hkeys & Hfrom).
        exists keys. split; [exact Hkeys|].
        intros c k Hlook. destruct (Hfrom c k Hlook) as [Hm|(i & Hi & H)].
        -- left. exact Hm.
        -- right. exists i. cbn. tauto.
    + intros Hex. cbn.
      destruct (String.eqb (type input) "publicKeyInput") eqn:E.
      * destruct (computedData input) as [computed|] eqn:Hc;
          [|left; reflexivity].
        destruct (keyData input) as [key|] eqn:Hk; [|right; reflexivity].
        apply Exists_cons in Hex as [(_ & [H|H])|Hrest];
          [congruence|congruence|].
        apply IH, Hrest.
      * apply Exists_cons in Hex as [(Ht & _)|Hrest].
        -- rewrite Ht in E. cbn in E. discriminate.
        -- apply IH, Hrest.
Qed.

(** X19: getPublicKeys returns a key map when every publicKeyInput of the
    map carries both computedData and keyData, and every entry of the key
    map then pairs the computedData of some publicKeyInput with its keyData;
    when a publicKeyInput lacks one of the two, it throws one of its two
    "unexpectedly undefined" texts. *)
Theorem getPublicKeys_spec (inputsById : InputMap) :
  ((forall id input, inputsById !! id = Some input ->
      type input = "publicKeyInput" ->
      is_Some (computedData input) /\ is_Some (keyData input)) ->
   exists keys, getPublicKeys inputsById = Ok keys
     /\ forall computed key, keys !! computed = Some key ->
          exists id input, inputsById !! id = Some input
            /\ type input = "publicKeyInput"
            /\ computedData input = Some computed
            /\ keyData input = Some key)
  /\ (forall id input, inputsById !! id = Some input ->
        type input = "publicKeyInput" ->
        computedData input = None \/ keyData input = None ->
        getPublicKeys inputsById
          = Err (Thrown "input.computedData unexpectedly undefined")
        \/ getPublicKeys inputsById
          = Err (Thrown "input.keyData unexpectedly undefined")).
Proof.
  assert (forall input, In input ((map_to_list inputsById).*2) ->
            exists id, inputsById !! id = Some input) as Hentries.
  { intros input Hin. apply list_elem_of_In, list_elem_of_fmap in Hin.
    destruct Hin as [[id i] [-> Hin]]. exists id.
    apply elem_of_map_to_list in Hin. exact Hin. }
  unfold getPublicKeys. split.
  - intros Hall.
    destruct (proj1 (collectKeys_spec ((map_to_list inputsById).*2) ∅))
      as (keys & Hkeys & Hfrom).
    { rewrite Forall_forall. intros input Hin Ht.
      apply list_elem_of_In in Hin.
      destruct (Hentries input Hin) as [id Hid]. exact (Hall id input Hid Ht). }
    exists keys. split; [exact Hkeys|].
    intros computed key Hlook.
    destruct (Hfrom computed key Hlook) as [Hm|(input & Hin & H)].
    + rewrite lookup_empty in Hm. discriminate.
    + destruct (Hentries input Hin) as [id Hid]. exists id, input. tauto.
  - intros id input Hid Ht Hmissing.
    apply (proj2 (collectKeys_spec _ _)). rewrite Exists_exists.
    exists input. split; [|auto].
    apply list_elem_of_fmap. exists (id, input). split; [reflexivity|].
    apply elem_of_map_to_list. exact Hid.
Qed.

(** ** Names and their segments *)

Lemma String_split_nonempty (sep : ascii) (s : string) :
  String_split sep s <> [].
Proof.
  induction s as [|c s IH]; cbn; [discriminate|].
  destruct (Ascii.eqb c sep); [discriminate|].
  destruct (String_split sep s); discriminate.
Qed.

(* the first segment of a name does not depend on what follows a dot *)
Lemma String_split_head (a b : string) :
  exists segment rest rest',
    String_split "." (a +:+ "." +:+ b) = segment :: rest
    /\ String_split "." a = segment :: rest'.
Proof.
  induction a as [|c a IH].
  - change ("" +:+ "." +:+ b) with (String "." b). cbn. eauto.
  - change (String c a +:+ "." +:+ b) with (String c (a +:+ "." +:+ b)).
    cbn. destruct (Ascii.eqb c "."); [eauto|].
    destruct IH as (segment & rest & rest' & -> & ->). eauto.
Qed.

Lemma getInputNameContext_child (a b : string) :
  getInputNameContext (a +:+ "." +:+ b) = getInputNameContext a.
Proof.
  unfold getInputNameContext, at_index.
  destruct (String_split_head a b) as (segment & rest & rest' & -> & ->).
  reflexivity.
Qed.

Lemma getInputNameContext_below (a b : string) :
  getInputNameContext (a +:+ String "." b) = getInputNameContext a.
Proof. apply getInputNameContext_child. Qed.

(* a text without dots is one segment *)
Lemma String_split_segment (p rest : string) :
  ~ In "."%char (list_ascii_of_string p) ->
  String_split "." p = [p]
  /\ String_split "." (p +:+ "." +:+ rest) = p :: String_split "." rest.
Proof.
  induction p as [|c p IH]; intros Hdot.
  - split; reflexivity.
  - change (String c p +:+ "." +:+ rest) with (String c (p +:+ "." +:+ rest)).
    cbn in Hdot. cbn.
    destruct (Ascii.eqb c ".") eqn:E.
    + apply Ascii.eqb_eq in E. subst. tauto.
    + destruct IH as [-> ->]; [tauto|]. split; reflexivity.
Qed.

Lemma append_assoc3 (a b c : string) : (a +:+ b) +:+ c = a +:+ b +:+ c.
Proof.
  induction a as [|x a IH]; [reflexivity|].
  change (String x ((a +:+ b) +:+ c) = String x (a +:+ b +:+ c)).
  f_equal. exact IH.
Qed.

(* the segments of a path that starts with segments without dots *)
Lemma String_split_below (p : string) (path : option string) :
  ~ In "."%char (list_ascii_of_string p) ->
  exists rest,
    String_split "." (match path with
                      | None => p
                      | Some q => p +:+ "." +:+ q
                      end) = p :: rest.
Proof.
  intros Hp. destruct path as [q|].
  - exists (String_split "." q). apply String_split_segment, Hp.
  - exists []. apply (String_split_segment p ""), Hp.
Qed.

(** X20: getParameterIdentifier recovers the parameter an input belongs
    to: for a name made of a contract context, a parameter name without
    dots and any further path, it returns the parameter name; for the clause
    contexts, where a clause name comes second, it returns the third
    segment. *)
Theorem getParameterIdentifier_subtree (context clause param : string)
    (path : option string) (input : Input) :
  ~ In "."%char (list_ascii_of_string clause) ->
  ~ In "."%char (list_ascii_of_string param) ->
  let below (id : string) :=
    match path with None => id | Some p => id +:+ "." +:+ p end in
  (one_of context ["contractParameters"; "contractValue"] = true ->
   name input = below (context +:+ "." +:+ param) ->
   getInputContext input = context
   /\ getParameterIdentifier input = Ok (Some param))
  /\ (one_of context ["clauseParameters"; "clauseValue"] = true ->
      name input = below (context +:+ "." +:+ clause +:+ "." +:+ param) ->
      getInputContext input = context
      /\ getParameterIdentifier input = Ok (Some param)).
Proof.
  intros Hclause Hparam below.
  destruct (String_split_below param path Hparam) as [rest Hrest].
  assert (forall prefix, below (prefix +:+ "." +:+ param)
                         = prefix +:+ "." +:+ below param) as Hbelow.
  { intros prefix. unfold below. destruct path; [|reflexivity].
    rewrite !append_assoc3. reflexivity. }
  assert (forall c, In c ["contractParameters"; "contractValue";
                          "clauseParameters"; "clauseValue"] ->
                    ~ In "."%char (list_ascii_of_string c)) as Hcontext.
  { intros c Hc. cbn in Hc. intuition subst; cbn in *; intuition discriminate. }
  split; intros Hone Hname; apply one_of_In in Hone;
    unfold getParameterIdentifier, getInputContext, getInputNameContext;
    rewrite Hname.
  - rewrite Hbelow.
    rewrite (proj2 (String_split_segment context (below param)
                      ltac:(apply Hcontext; cbn in *; tauto))).
    fold (below param) in Hrest. rewrite Hrest.
    cbn in Hone. destruct Hone as [<-|[<-|[]]]; split; reflexivity.
  - replace (context +:+ "." +:+ clause +:+ "." +:+ param)
      with ((context +:+ "." +:+ clause) +:+ "." +:+ param)
      by (rewrite !append_assoc3; reflexivity).
    rewrite Hbelow, !append_assoc3.
    rewrite (proj2 (String_split_segment context _
                      ltac:(apply Hcontext; cbn in *; tauto))).
    rewrite (proj2 (String_split_segment clause _ Hclause)).
    fold (below param) in Hrest. rewrite Hrest.
    cbn in Hone. destruct Hone as [<-|[<-|[]]]; split; reflexivity.
Qed.

(** ** The builders of the default input tree *)

Lemma pushed_below_refl (p : string) (st : BuildState) : pushed_below p st st.
Proof. exists []. rewrite app_nil_r. repeat split; [constructor|lia]. Qed.

Lemma pushed_below_trans (p : string) (st st1 st2 : BuildState) :
  pushed_below p st st1 -> pushed_below p st1 st2 -> pushed_below p st st2.
Proof.
  intros (n1 & H1 & F1 & D1) (n2 & H2 & F2 & D2). exists (n1 ++ n2).
  rewrite H2, H1, <- app_assoc. repeat split; [|lia].
  apply Forall_app; split; assumption.
Qed.

Lemma pushed_below_child (p t : string) (st st' : BuildState) :
  pushed_below (p +:+ "." +:+ t) st st' -> pushed_below p st st'.
Proof.
  intros (news & H & F & D). exists news. repeat split; [exact H| |exact D].
  eapply Forall_impl; [exact F|]. intros n [path Hn]. cbn beta in Hn.
  exists (t +:+ "." +:+ path). rewrite Hn, append_assoc3. reflexivity.
Qed.

Lemma pushed_below_bind {A B : Type} (m : Build A) (k : A -> Build B)
    (p : string) (st : BuildState) :
  pushed_below p st (runBuild m st).1 ->
  (forall a st1, pushed_below p st1 (runBuild (k a) st1).1) ->
  pushed_below p st (runBuild (m ≫= k) st).1.
Proof.
  intros Hm Hk. unfold mbind, Build_bind. cbn.
  destruct (runBuild m st) as [st1 [a|e]]; cbn in *; [|exact Hm].
  eapply pushed_below_trans; [exact Hm|apply Hk].
Qed.

Lemma pushed_below_push (p path : string) (input : NewInput) (st : BuildState) :
  new_name input = p +:+ "." +:+ path ->
  pushed_below p st (runBuild (push input) st).1.
Proof.
  intros Hname. exists [input]. cbn. repeat split; [|lia].
  repeat constructor. exists path. exact Hname.
Qed.

Lemma addDefaultInput_below (fuel : nat) (inputType parentName : string)
    (st : BuildState) :
  pushed_below parentName st
    (runBuild (addDefaultInput fuel inputType parentName) st).1.
Proof.
  revert inputType parentName st.
  induction fuel as [|fuel IH]; intros inputType parentName st;
    [apply pushed_below_refl|].
  cbn [addDefaultInput]. cbv zeta.
  apply pushed_below_bind; [apply pushed_below_refl|]. intros value st1.
  apply pushed_below_bind.
  - repeat match goal with |- context [if ?c then _ else _] => destruct c end.
    + apply pushed_below_bind.
      * exists []. cbn. rewrite app_nil_r. repeat split; [constructor|lia].
      * intros bytes st2. eapply pushed_below_push. reflexivity.
    + eapply pushed_below_push. reflexivity.
    + eapply pushed_below_push. reflexivity.
  - intros _ st2.
    repeat match goal with |- context [if ?c then _ else _] => destruct c end;
      repeat first
        [ apply pushed_below_refl
        | eapply pushed_below_child; apply IH
        | apply pushed_below_bind; [|intros ? ?] ].
Qed.

Lemma addInputForType_below (fuel : nat) (parameterType : ClauseParameterType)
    (parentName : string) (st : BuildState) :
  pushed_below parentName st
    (runBuild (addInputForType fuel parameterType parentName) st).1.
Proof.
  revert parameterType parentName st.
  induction fuel as [|fuel IH]; intros parameterType parentName st;
    [apply pushed_below_refl|].
  cbn [addInputForType]. destruct parameterType as [t|h].
  - apply pushed_below_bind; [apply pushed_below_refl|]. intros inputType st1.
    apply addDefaultInput_below.
  - unfold addHashInput, addHashInputs. cbv zeta.
    repeat first
      [ apply pushed_below_refl
      | eapply pushed_below_child; eapply pushed_below_child; apply IH
      | eapply pushed_below_push; rewrite ?append_assoc3; reflexivity
      | apply pushed_below_bind; [|intros ? ?] ].
Qed.

(** X21: the builders only append, and only below the name they are called
    for: addDefaultInput leaves the inputs already in the array untouched
    and every input it pushes has a name that extends parentName + ".",
    whether it returns or throws; addParameterInput pushes nothing when the
    parameter type has no input type, and otherwise first the parameterInput
    named name, holding the input type and the parameter type, and then only
    inputs below that name. *)
Theorem addParameterInput_pushes (fuel : nat) (st : BuildState) :
  (forall inputType parentName,
     pushed_below parentName st
       (runBuild (addDefaultInput fuel inputType parentName) st).1)
  /\ (forall valueType name e,
        getInputType valueType = Err e ->
        runBuild (addParameterInput fuel valueType name) st = (st, Err e))
  /\ (forall valueType name inputType,
        getInputType valueType = Ok inputType ->
        exists st1,
          built st1
          = built st ++ [ {| new_type := "parameterInput";
                             new_value := Some inputType;
                             new_name := name; new_seed := None;
                             new_hashType := None; new_hashFunction := None;
                             new_valueType := Some valueType |} ]
          /\ drawn st1 = drawn st
          /\ pushed_below name st1
               (runBuild (addParameterInput fuel valueType name) st).1).
Proof.
  split; [|split].
  - intros inputType parentName. apply addDefaultInput_below.
  - intros valueType name e He. unfold addParameterInput.
    unfold mbind, Build_bind. cbn. rewrite He. reflexivity.
  - intros valueType name inputType Ht.
    exists {| built := built st ++ [ {| new_type := "parameterInput";
                                       new_value := Some inputType;
                                       new_name := name; new_seed := None;
                                       new_hashType := None;
                                       new_hashFunction := None;
                                       new_valueType := Some valueType |} ];
              drawn := drawn st |}.
    split; [reflexivity|split; [reflexivity|]].
    unfold addParameterInput, mbind, Build_bind. cbn [runBuild liftB push].
    rewrite Ht. apply addInputForType_below.
Qed.

Lemma getDefaultValue_contract (inputType name : string) :
  one_of (getInputNameContext name) ["contractParameters"; "contractValue"]
  = true ->
  getDefaultValue inputType name
  = getDefaultContractParameterValue inputType (getInputNameContext name).
Proof.
  intros H. apply one_of_In in H. unfold getDefaultValue.
  cbn in H. destruct H as [<-|[<-|[]]]; reflexivity.
Qed.

Lemma getInputType_cases (valueType : ClauseParameterType) (s : string) :
  getInputType valueType = Ok s ->
  match valueType with
  | TypeHash _ => s = "hashInput"
  | TypeName _ =>
      In s ["numberInput"; "booleanInput"; "stringInput"; "provideOriginInput";
            "publicKeyInput"; "timeInput"; "signatureInput"; "valueInput";
            "programInput"; "assetInput"; "amountInput"]
  end.
Proof.
  unfold getInputType. destruct valueType as [t|h]; cbn; intros Ht.
  - repeat match type of Ht with
           | (if ?c then _ else _) = _ => destruct c
           end;
      try discriminate; injection Ht as <-; cbn; tauto.
  - injection Ht as <-. reflexivity.
Qed.

Lemma parseInt_empty : parseInt "" 10 = NaN.
Proof. reflexivity. Qed.

Lemma parseInt_32 : parseInt "32" 10 = Num 32.
Proof. reflexivity. Qed.

(* runs a builder on a name of known context *)
Ltac run_builder Hctx :=
  repeat (cbn -[getInputNameContext getDefaultValue];
          rewrite ?getDefaultValue_contract
            by (rewrite ?getInputNameContext_child,
                        ?getInputNameContext_below, Hctx; reflexivity);
          rewrite ?getInputNameContext_child, ?getInputNameContext_below,
                  ?Hctx).

(* the entries a map stores of an explicit list of built inputs *)
Ltac stored H :=
  unfold stores in H;
  repeat match type of H with
         | Forall _ (_ :: _) =>
             let Hhead := fresh "Hstored" in
             apply Forall_cons in H; destruct H as [Hhead H];
             cbn in Hhead;
             first [ specialize (Hhead _ eq_refl) | clear Hhead ]
         end.

(* reads the map at an id it is known to store *)
Ltac lookup_stored :=
  match goal with
  | Hstored : ?m !! ?k = Some _ |- context [?m !! ?k'] =>
      change k' with k; rewrite Hstored
  end.

Lemma addParameterInput_TypeName (fuel : nat) (t name inputType : string) :
  getInputType (TypeName t) = Ok inputType ->
  addParameterInput (S fuel) (TypeName t) name
  = (push {| new_type := "parameterInput"; new_value := Some inputType;
             new_name := name; new_seed := None; new_hashType := None;
             new_hashFunction := None;
             new_valueType := Some (TypeName t) |};;
     addDefaultInput fuel inputType name).
Proof.
  intros Ht. unfold addParameterInput. cbn [addInputForType].
  rewrite Ht. reflexivity.
Qed.

(** X22: what a fresh parameter subtree is worth before the user has typed
    anything.  For a name in the contractParameters or contractValue context
    and a parameter type other than Signature that getInputType knows,
    addParameterInput returns within a call depth of four, and on any map
    that stores the inputs it built isValidInput answers true for a
    parameter of the plain types String, Hash, Boolean and Asset (the random
    seed having the 520 bytes asked for), for a Time parameter whether
    Date.parse reads the empty text as a time, and false for every other
    parameter, a parameterized hash kind included. *)
Theorem fresh_parameter_validity (fuel : nat) (valueType : ClauseParameterType)
    (inputType name : string) (st : BuildState) :
  (forall i n, length (crypto_randomBytes i n) = n) ->
  one_of (getInputNameContext name) ["contractParameters"; "contractValue"]
  = true ->
  getInputType valueType = Ok inputType ->
  inputType <> "signatureInput" ->
  exists st' news,
    runBuild (addParameterInput (4 + fuel) valueType name) st = (st', Ok tt)
    /\ built st' = built st ++ news
    /\ forall inputMap, stores inputMap news ->
         isValidInput (4 + fuel) name inputMap
         = Ok (if one_of inputType ["stringInput"; "booleanInput"; "assetInput"]
               then true
               else if one_of inputType ["timeInput"]
                    then negb (isNaN (Date_parse ""))
                    else false).
Proof.
  intros Hrandom Hone Ht Hsig.
  change (4 + fuel)%nat with (S (S (S (S fuel)))).
  pose proof (getInputType_cases _ _ Ht) as Hcases.
  apply one_of_In in Hone. cbn in Hone.
  destruct Hone as [Hctx|[Hctx|[]]]; symmetry in Hctx;
    destruct valueType as [t|h].
  1, 3: rewrite (addParameterInput_TypeName _ _ _ _ Ht); clear Ht;
    cbn in Hcases;
    repeat (destruct Hcases as [Hcases|Hcases]; [subst inputType|]);
    try contradiction; try (exfalso; apply Hsig; reflexivity).
  21, 22: subst inputType; unfold addParameterInput.
  all: run_builder Hctx;
    rewrite <- ?app_assoc; cbn [app];
    eexists _, _; (split; [reflexivity|split; [reflexivity|]]);
    intros inputMap H; stored H;
    repeat (cbn [isValidInput]; unfold isValidInput_body; lookup_stored; cbn);
    unfold validateInput; cbn; rewrite ?parseInt_empty, ?parseInt_32; cbn;
    rewrite ?(proj1 (proj2 (Buffer_toString_hex_spec _))), ?Hrandom;
    reflexivity.
Qed.

(** X23: a Signature parameter has no default in the contract contexts:
    for a name in the contractParameters or contractValue context,
    addParameterInput pushes the parameterInput and then throws
    "signatureInput should not be allowed", leaving the parameterInput in
    the array. *)
Theorem addParameterInput_Signature (fuel : nat) (valueType : ClauseParameterType)
    (name : string) (st : BuildState) :
  one_of (getInputNameContext name) ["contractParameters"; "contractValue"]
  = true ->
  getInputType valueType = Ok "signatureInput" ->
  runBuild (addParameterInput (2 + fuel) valueType name) st
  = ({| built := built st ++ [ {| new_type := "parameterInput";
                                  new_value := Some "signatureInput";
                                  new_name := name; new_seed := None;
                                  new_hashType := None;
                                  new_hashFunction := None;
                                  new_valueType := Some valueType |} ];
        drawn := drawn st |},
     Err (Thrown "signatureInput should not be allowed")).
Proof.
  intros Hone Ht. change (2 + fuel)%nat with (S (S fuel)).
  pose proof (getInputType_cases _ _ Ht) as Hcases.
  destruct valueType as [t|h]; [|discriminate].
  rewrite (addParameterInput_TypeName _ _ _ _ Ht).
  apply one_of_In in Hone. cbn in Hone.
  destruct Hone as [Hctx|[Hctx|[]]]; symmetry in Hctx;
    run_builder Hctx; reflexivity.
Qed.

(** X24: the fresh String (or Hash-named) and Boolean parameters of a
    contract carry data at once: on any map that stores the inputs that
    addParameterInput built, getData resolves the String parameter to the
    first 32 of the 520 random bytes drawn for its seed, and the Boolean
    parameter, whose default is "false", to 1. *)
Theorem fresh_parameter_data (fuel : nat) (valueType : ClauseParameterType)
    (inputType name : string) (st : BuildState) :
  (forall i n, length (crypto_randomBytes i n) = n) ->
  one_of (getInputNameContext name) ["contractParameters"; "contractValue"]
  = true ->
  getInputType valueType = Ok inputType ->
  one_of inputType ["stringInput"; "booleanInput"] = true ->
  exists st' news,
    runBuild (addParameterInput (3 + fuel) valueType name) st = (st', Ok tt)
    /\ built st' = built st ++ news
    /\ forall inputMap, stores inputMap news ->
         getData (3 + fuel) name inputMap
         = Ok (if String.eqb inputType "stringInput"
               then DBuffer (firstn 32 (crypto_randomBytes (drawn st) 520))
               else DNumber (Num 1)).
Proof.
  intros Hrandom Hone Ht Htype.
  change (3 + fuel)%nat with (S (S (S fuel))).
  pose proof (getInputType_cases _ _ Ht) as Hcases.
  destruct valueType as [t|h]; [|subst inputType; discriminate].
  rewrite (addParameterInput_TypeName _ _ _ _ Ht). clear Ht Hcases.
  apply one_of_In in Htype. cbn in Htype.
  apply one_of_In in Hone. cbn in Hone.
  destruct Hone as [Hctx|[Hctx|[]]]; symmetry in Hctx;
    destruct Htype as [<-|[<-|[]]];
    run_builder Hctx;
    rewrite <- ?app_assoc; cbn [app];
    eexists _, _; (split; [reflexivity|split; [reflexivity|]]);
    intros inputMap H; stored H;
    repeat (cbn [getData]; unfold getData_body; lookup_stored;
            unfold validateInput, getGenerateStringInputValue; cbn;
            rewrite ?parseInt_32; cbn;
            rewrite ?(proj1 (proj2 (Buffer_toString_hex_spec _))), ?Hrandom;
            cbn);
    try reflexivity.
  all: rewrite String_slice_prefix by lia.
  all: change (Z.to_nat (32 * 2)) with (2 * 32)%nat.
  all: rewrite substring_hex_prefix by apply Buffer_toString_hex_spec.
  all: rewrite (proj2 (proj2 (Buffer_toString_hex_spec _))); reflexivity.
Qed.

Lemma getDefaultValue_clause (inputType name : string) :
  one_of (getInputNameContext name) ["clauseParameters"; "clauseValue"] = true ->
  getDefaultValue inputType name = getDefaultClauseParameterValue inputType.
Proof.
  intros H. apply one_of_In in H. unfold getDefaultValue.
  cbn in H. destruct H as [<-|[<-|[]]]; reflexivity.
Qed.

Ltac run_clause_builder Hctx :=
  repeat (cbn -[getInputNameContext getDefaultValue];
          rewrite ?getDefaultValue_clause
            by (rewrite ?getInputNameContext_child,
                        ?getInputNameContext_below, Hctx; reflexivity)).

Lemma append_inj_r (a x y : string) : a +:+ x = a +:+ y -> x = y.
Proof.
  induction a as [|c a IH]; intros H; [exact H|].
  apply IH. change (String c (a +:+ x) = String c (a +:+ y)) in H.
  congruence.
Qed.

Lemma append_nil_r (a : string) : a +:+ "" = a.
Proof.
  induction a as [|c a IH]; [reflexivity|].
  change (String c (a +:+ "") = String c a). f_equal. exact IH.
Qed.

(** X25: in the clause contexts the default of a Time parameter names a
    child that is never built.  For a name in the clauseParameters or
    clauseValue context, addParameterInput builds the parameterInput, a
    timeInput whose value is "blockheightTimeInput" and a timestampTimeInput,
    and no input named name + ".timeInput.blockheightTimeInput"; so on a map
    that stores what was built and nothing under that id, isValidInput fails
    with the TypeError of a read on undefined and getData rejects the
    timeInput as invalid. *)
Theorem clause_Time_parameter (fuel : nat) (valueType : ClauseParameterType)
    (name : string) (st : BuildState) :
  one_of (getInputNameContext name) ["clauseParameters"; "clauseValue"] = true ->
  getInputType valueType = Ok "timeInput" ->
  exists st' news,
    runBuild (addParameterInput (3 + fuel) valueType name) st = (st', Ok tt)
    /\ built st' = built st ++ news
    /\ In (newInput "timeInput" (Some "blockheightTimeInput")
             (name +:+ ".timeInput")) news
    /\ Forall (fun n => new_name n
                        <> name +:+ ".timeInput.blockheightTimeInput") news
    /\ forall inputMap,
         stores inputMap news ->
         inputMap !! (name +:+ ".timeInput.blockheightTimeInput") = None ->
         isValidInput (3 + fuel) name inputMap = Err TypeError
         /\ getData (3 + fuel) name inputMap
            = Err (Thrown ("invalid input: " +:+ name +:+ ".timeInput")).
Proof.
  intros Hone Ht. change (3 + fuel)%nat with (S (S (S fuel))).
  pose proof (getInputType_cases _ _ Ht) as Hcases.
  destruct valueType as [t|h]; [|discriminate].
  rewrite (addParameterInput_TypeName _ _ _ _ Ht). clear Ht Hcases.
  run_clause_builder Hone.
  rewrite <- ?app_assoc; cbn [app].
  eexists _, _. split; [reflexivity|split; [reflexivity|]].
  split; [cbn; auto|]. split.
  - repeat constructor; cbn; intros Heq.
    + rewrite <- (append_nil_r name) in Heq at 1.
      apply append_inj_r in Heq. discriminate.
    + apply (append_inj_r name) in Heq. discriminate.
    + rewrite (append_assoc3 name) in Heq.
      apply (append_inj_r name) in Heq. discriminate.
  - intros inputMap H Hnone. stored H.
    assert (inputMap !! ((name +:+ "." +:+ "timeInput")
                         +:+ "." +:+ "blockheightTimeInput") = None)
      as Hchild by (rewrite append_assoc3; exact Hnone).
    split.
    + repeat (cbn [isValidInput]; unfold isValidInput_body; lookup_stored; cbn).
      match goal with
      | |- context [inputMap !! ?k] =>
          change k with ((name +:+ "." +:+ "timeInput")
                         +:+ "." +:+ "blockheightTimeInput")
      end.
      rewrite Hchild. unfold unowned. rewrite inherited_dotted. reflexivity.
    + repeat (cbn [getData]; unfold getData_body; lookup_stored;
              unfold validateInput; cbn).
      reflexivity.
Qed.

(** ** Where the recursion descends *)

(* getData calls itself nowhere but where [getData_calls] says *)
Lemma getData_body_calls (rec rec' : string -> InputMap -> result Data)
    (inputsById : InputMap) (id : string) :
  (forall id', getData_calls inputsById id id' ->
               rec id' inputsById = rec' id' inputsById) ->
  getData_body rec id inputsById = getData_body rec' id inputsById.
Proof.
  intros Hrec. unfold getData_body.
  destruct (inputsById !! id) as [input|] eqn:Hin; [|reflexivity].
  destruct (validateInput input) as [[]|] eqn:Hvalid; cbn; try reflexivity.
  destruct (one_of (type input) _) eqn:Hpass.
  { apply Hrec. apply (getData_calls_child _ _ _ Hin Hvalid).
    apply one_of_In in Hpass. cbn in Hpass.
    destruct Hpass as [<-|[<-|[<-|[<-|[<-|[]]]]]]; reflexivity. }
  clear Hpass.
  repeat (destruct (one_of (type input) _); [reflexivity|]).
  destruct (one_of (type input) _) eqn:Hhash; [|reflexivity].
  rewrite Hrec; [reflexivity|].
  apply (getData_calls_child _ _ _ Hin Hvalid).
  apply one_of_In in Hhash. cbn in Hhash.
  destruct Hhash as [<-|[]]. reflexivity.
Qed.

(* isValidInput calls itself nowhere but where [isValidInput_calls] says *)
Lemma isValidInput_body_calls (fuel : nat)
    (rec' : string -> InputMap -> result bool) (inputMap : InputMap)
    (id : string) :
  (forall id', isValidInput_calls inputMap id id' ->
               rec' id' inputMap = isValidInput fuel id' inputMap) ->
  isValidInput_body rec' id inputMap = isValidInput (S fuel) id inputMap.
Proof.
  intros Hrec. cbn [isValidInput]. unfold isValidInput_body.
  destruct (inputMap !! id) as [input|] eqn:Hin; [|reflexivity]. cbn zeta.
  destruct (one_of (type input) _) eqn:Hchild.
  { apply Hrec. apply (isValidInput_calls_child _ _ _ Hin).
    apply one_of_In in Hchild. cbn in Hchild.
    destruct Hchild as [<-|[<-|[<-|[<-|[<-|[<-|[<-|[<-|[<-|[]]]]]]]]]];
      reflexivity. }
  clear Hchild.
  destruct (one_of (type input) _) eqn:Hvalue; [|reflexivity].
  rewrite one_of_single in Hvalue. apply eqb_true_iff in Hvalue.
  assert (forall k suffix, valueChildren !! k = Some suffix ->
            (forall j earlier, (j < k)%nat ->
               valueChildren !! j = Some earlier ->
               isValidInput fuel (name input +:+ earlier) inputMap = Ok true) ->
            rec' (name input +:+ suffix) inputMap
            = isValidInput fuel (name input +:+ suffix) inputMap) as Hk.
  { intros k suffix Hlook Hearlier. apply Hrec.
    apply (isValidInput_calls_value _ _ _ k suffix Hin Hvalue Hlook).
    intros j earlier Hj Hl. exists fuel. apply (Hearlier j earlier Hj Hl). }
  rewrite (Hk 0%nat ".accountInput" eq_refl) by (intros; lia).
  destruct (isValidInput fuel (name input +:+ ".accountInput") inputMap)
    as [[]|e] eqn:E0; cbn; try reflexivity.
  rewrite (Hk 1%nat ".assetInput" eq_refl).
  2: { intros [|j] earlier Hj Hl; [|lia]. cbn in Hl. injection Hl as <-.
       exact E0. }
  destruct (isValidInput fuel (name input +:+ ".assetInput") inputMap)
    as [[]|e] eqn:E1; cbn; try reflexivity.
  rewrite (Hk 2%nat ".amountInput" eq_refl).
  2: { intros [|[|j]] earlier Hj Hl; [| |lia]; cbn in Hl;
         injection Hl as <-; assumption. }
  destruct (isValidInput fuel (name input +:+ ".amountInput") inputMap)
    as [[]|e] eqn:E2; cbn; try reflexivity.
  rewrite (Hk 3%nat ".passwordInput" eq_refl).
  2: { intros [|[|[|j]]] earlier Hj Hl; [| | |lia]; cbn in Hl;
         injection Hl as <-; assumption. }
  destruct (isValidInput fuel (name input +:+ ".passwordInput") inputMap)
    as [[]|e] eqn:E3; cbn; try reflexivity.
  rewrite (Hk 4%nat ".gasInput" eq_refl); [reflexivity|].
  intros [|[|[|[|j]]]] earlier Hj Hl; [| | | |lia]; cbn in Hl;
    injection Hl as <-; assumption.
Qed.

(** X26: getChild is only applied to complex inputs.  The body of getData
    uses its recursive call nowhere but at getChild(input), and only when
    the input read at the id is complex; the body of isValidInput nowhere
    but at getChild(input) when the input is complex, and at the five fixed
    children when it is a valueInput.  So every call the recursion makes
    (getData_calls, isValidInput_calls) goes from a complex input to
    getChild(input), or from a valueInput to one of its five children.  Not
    every complex input is descended into: a generatePublicKeyInput or
    generateSignatureInput is validated as a leaf by isValidInput, and
    getData refuses it when it is valid. *)
Theorem getChild_complex (inputMap : InputMap) (id : string) :
  (forall rec rec' : string -> InputMap -> result Data,
     (forall input, inputMap !! id = Some input ->
        isComplexInput input = true ->
        rec (getChild input) inputMap = rec' (getChild input) inputMap) ->
     getData_body rec id inputMap = getData_body rec' id inputMap)
  /\ (forall rec rec' : string -> InputMap -> result bool,
        (forall input, inputMap !! id = Some input ->
           (isComplexInput input = true ->
            rec (getChild input) inputMap = rec' (getChild input) inputMap)
           /\ (type input = "valueInput" ->
               forall suffix, In suffix valueChildren ->
                 rec (name input +:+ suffix) inputMap
                 = rec' (name input +:+ suffix) inputMap)) ->
        isValidInput_body rec id inputMap = isValidInput_body rec' id inputMap)
  /\ (forall id', getData_calls inputMap id id' ->
        exists input, inputMap !! id = Some input
          /\ isComplexInput input = true /\ id' = getChild input)
  /\ (forall id', isValidInput_calls inputMap id id' ->
        exists input, inputMap !! id = Some input
          /\ (isComplexInput input = true /\ id' = getChild input
              \/ type input = "valueInput"
                 /\ exists suffix, In suffix valueChildren
                      /\ id' = name input +:+ suffix))
  /\ (forall input fuel,
        inputMap !! id = Some input ->
        one_of (type input) ["generatePublicKeyInput"; "generateSignatureInput"]
        = true ->
        isComplexInput input = true
        /\ isValidInput (S fuel) id inputMap = validateInput input
        /\ (validateInput input = Ok true ->
            getData (S fuel) id inputMap
            = Err (Thrown ("should not call getData with " +:+ type input)))).
Proof.
  assert (forall id', getData_calls inputMap id id' ->
            exists input, inputMap !! id = Some input
              /\ isComplexInput input = true /\ id' = getChild input)
    as Hdata.
  { intros id' Hcall. inversion Hcall as [id0 input Hin Hvalid Hone]; subst.
    exists input. split; [exact Hin|split; [|reflexivity]].
    apply one_of_In in Hone. cbn in Hone. unfold isComplexInput.
    destruct Hone as [<-|[<-|[<-|[<-|[<-|[<-|[]]]]]]]; reflexivity. }
  split; [|split; [|split; [exact Hdata|split]]].
  - intros rec rec' Hrec. apply getData_body_calls. intros id' Hcall.
    destruct (Hdata id' Hcall) as (input & Hin & Hcomplex & ->).
    apply (Hrec input Hin Hcomplex).
  - intros rec rec' Hrec. unfold isValidInput_body.
    destruct (inputMap !! id) as [input|] eqn:Hin; [|reflexivity]. cbn zeta.
    destruct (Hrec input eq_refl) as [Hchild Hvalue].
    destruct (one_of (type input) _) eqn:Hone.
    { apply Hchild. apply one_of_In in Hone. cbn in Hone.
      unfold isComplexInput.
      destruct Hone as [<-|[<-|[<-|[<-|[<-|[<-|[<-|[<-|[<-|[]]]]]]]]]];
        reflexivity. }
    clear Hone.
    destruct (one_of (type input) _) eqn:Hv; [|reflexivity].
    rewrite one_of_single in Hv. apply eqb_true_iff in Hv.
    rewrite !(Hvalue Hv) by (cbn; auto 10). reflexivity.
  - intros id' Hcall.
    inversion Hcall as [id0 input Hin Hone|id0 input k suffix Hin Ht Hk Hbefore];
      subst; exists input; (split; [exact Hin|]).
    + left. split; [|reflexivity].
      apply one_of_In in Hone. cbn in Hone. unfold isComplexInput.
      destruct Hone as [<-|[<-|[<-|[<-|[<-|[<-|[<-|[<-|[]]]]]]]]]; reflexivity.
    + right. split; [exact Ht|]. exists suffix. split; [|reflexivity].
      apply list_elem_of_In. eapply list_elem_of_lookup_2. exact Hk.
  - intros input fuel Hin Hone. apply one_of_In in Hone. cbn in Hone.
    unfold isComplexInput. cbn [isValidInput getData].
    unfold isValidInput_body, getData_body. rewrite Hin.
    destruct Hone as [Ht|[Ht|[]]]; rewrite <- Ht;
      (split; [reflexivity|split; [reflexivity|]]);
      intros Hvalid; rewrite Hvalid; reflexivity.
Qed.

End Console.

(** * Runs of the model on the sample data *)

Example sha256_abc :
  Buffer_toString_hex (SHA256.digest ["a"; "b"; "c"]%byte)
  = "ba7816bf8f01cfea414140de5dae2223b00361a396177a9cb410ff61f20015ad".
Proof. vm_compute. reflexivity. Qed.

Example sha3_256_abc :
  Buffer_toString_hex (Keccak.sha3_256_digest ["a"; "b"; "c"]%byte)
  = "3a985da74fe225b2045c172d6bd390bd855f086e3e9d525b46bfe24511431532".
Proof. vm_compute. reflexivity. Qed.

Example sha3_256_empty : 
  Sample.sha3_256 []
  = "a7ffc6f8bf1ed76651c14756a061d662f580ff4de43b49fa82d80a4b80f8434a".
Proof. vm_compute. reflexivity. Qed.

Lemma Sample_sha256_length (buf : Buffer) :
  length (Sample.sha256 buf) = 32%nat.
Proof. reflexivity. Qed.

Lemma Sample_sha3_256_hex (buf : Buffer) :
  String.length (Sample.sha3_256 buf) = 64%nat
  /\ validateHex (Sample.sha3_256 buf) = true.
Proof.
  unfold Sample.sha3_256.
  destruct (Buffer_toString_hex_spec (Keccak.sha3_256_digest buf)) as (H1 & H2 & _).
  split; [rewrite H2; reflexivity|exact H1].
Qed.

(* a complete run of create: the compile call carries the boolean as 0 and
   the SHA-256 digest of the preimage as hex text *)
Example create_sample_run :
  create Sample.MIN_NUMBER Sample.MAX_NUMBER Sample.BTM_ASSET_ID
    Sample.Date_parse Sample.strToHexCharCode Sample.sha256 Sample.sha3_256
    Sample.listReceiver Sample.createAccountPubkey Sample.compile
    Sample.createLockingTx 5 Sample.state
  = mkM
      [ Dispatch (updateIsCalling true);
        ClientCompile "contract LockWithSecret"
          [ wire_integer (Num 0);
            wire_string
              "ba7816bf8f01cfea414140de5dae2223b00361a396177a9cb410ff61f20015ad" ];
        CreateLockingTx
          [ ActSpendFromAccount
              {| SpendFromAccount.type := "spendFromAccount";
                 SpendFromAccount.accountId := "acc1";
                 SpendFromAccount.assetId := "assetAliasInput";
                 SpendFromAccount.amount := Num 500;
                 SpendFromAccount.password := "pw" |};
            ActControlWithReceiver "00c0" "assetAliasInput" (Num 500);
            ActGas "acc1" 20000000 "spendFromAccount"
              "ffffffffffffffffffffffffffffffffffffffffffffffffffffffffffffffff" ]
          "pw";
        Dispatch (setSource "contract LockWithSecret");
        Dispatch (updateIsCalling false);
        Dispatch (updateLockMessage
          (_success "transactions has been submited successfully."
                    "/dashboard/transactions/tx1" "tx1"));
        Dispatch (showLockInputMessages true) ]
      (Ok tt).
Proof. vm_compute. reflexivity. Qed.

(** ** Instances of the properties *)

Lemma create_invalid_inputs_witness :
  areInputsValid Sample.MIN_NUMBER Sample.MAX_NUMBER Sample.BTM_ASSET_ID
    Sample.Date_parse 5 Sample.invalidState = Ok false
  /\ events (create Sample.MIN_NUMBER Sample.MAX_NUMBER Sample.BTM_ASSET_ID
       Sample.Date_parse Sample.strToHexCharCode Sample.sha256 Sample.sha3_256
       Sample.listReceiver Sample.createAccountPubkey Sample.compile
       Sample.createLockingTx 5 Sample.invalidState)
     = [ Dispatch (updateIsCalling true);
         Dispatch (updateIsCalling false);
         Dispatch (showLockInputMessages true);
         Dispatch (updateLockMessage (_error (Thrown
           "One or more arguments to the contract are invalid."))) ].
Proof.
  split; [vm_compute; reflexivity|].
  rewrite (proj1 (create_invalid_inputs Sample.MIN_NUMBER Sample.MAX_NUMBER
    Sample.BTM_ASSET_ID Sample.Date_parse Sample.strToHexCharCode Sample.sha256
    Sample.sha3_256 Sample.listReceiver Sample.createAccountPubkey
    Sample.compile Sample.createLockingTx 5 Sample.invalidState
    ltac:(vm_compute; reflexivity))).
  reflexivity.
Defined.

Lemma fundingMap_children (id : string) (input : Input) :
  Sample.fundingMap !! id = Some input -> type input = "valueInput" ->
  children_present Sample.fundingMap input.
Proof.
  revert id input.
  change (map_Forall (fun _ input => type input = "valueInput" ->
            children_present Sample.fundingMap input) Sample.fundingMap).
  apply (bool_decide_unpack _). vm_compute. exact I.
Qed.

Lemma getContractValue_spec_witness :
  getContractValue (Sample.stateOf (Some Sample.fundingMap) None)
  = Ok (Some {| SpendFromAccount.type := "spendFromAccount";
                SpendFromAccount.accountId := "acc1";
                SpendFromAccount.assetId := "asset1";
                SpendFromAccount.amount := Num 500;
                SpendFromAccount.password := "pw" |}).
Proof.
  apply (proj1 (getContractValue_spec
                  (Sample.stateOf (Some Sample.fundingMap) None)
                  Sample.fundingMap eq_refl fundingMap_children)).
  exists (plainInput "valueInput" "contractValue.v" "").
  split; vm_compute; reflexivity.
Defined.

Lemma getData_booleanInput_witness :
  getData Sample.MIN_NUMBER Sample.MAX_NUMBER Sample.BTM_ASSET_ID
    Sample.Date_parse Sample.strToHexCharCode Sample.sha256 Sample.sha3_256
    1 "contractParameters.flag.booleanInput" Sample.inputMap
  = Ok (DNumber (Num 0)).
Proof.
  apply (getData_booleanInput Sample.MIN_NUMBER Sample.MAX_NUMBER
           Sample.BTM_ASSET_ID Sample.Date_parse Sample.strToHexCharCode
           Sample.sha256 Sample.sha3_256 0
           "contractParameters.flag.booleanInput" Sample.inputMap
           (plainInput "booleanInput" "contractParameters.flag.booleanInput" "true"));
    vm_compute; reflexivity.
Defined.

Lemma getData_generateHashInput_witness :
  getData Sample.MIN_NUMBER Sample.MAX_NUMBER Sample.BTM_ASSET_ID
    Sample.Date_parse Sample.strToHexCharCode Sample.sha256 Sample.sha3_256
    2 "contractParameters.secret.hashInput.generateHashInput" Sample.inputMap
  = Ok (DBuffer (Sample.sha256 ["a"; "b"; "c"]%byte))
  /\ length (Sample.sha256 ["a"; "b"; "c"]%byte) = 32%nat.
Proof.
  apply (getData_generateHashInput Sample.MIN_NUMBER Sample.MAX_NUMBER
           Sample.BTM_ASSET_ID Sample.Date_parse Sample.strToHexCharCode
           Sample.sha256 Sample.sha3_256 1
           "contractParameters.secret.hashInput.generateHashInput"
           Sample.inputMap
           (Sample.hashKindInput "generateHashInput"
              "contractParameters.secret.hashInput.generateHashInput"
              "provideOriginInput" "sha256")
           {| hash_inputType := "String"; hash_hashFunction := "sha256" |}
           Sample_sha256_length Sample_sha3_256_hex);
    vm_compute; reflexivity.
Defined.

Lemma create_argument_coercion_witness :
  coerceArg (VBuffer ["171"]%byte) = Ok (wire_string "ab")
  /\ coerceArg VUndefined = Err (Thrown "unsupported argument type undefined").
Proof.
  destruct (create_argument_coercion Sample.MIN_NUMBER Sample.MAX_NUMBER
              Sample.BTM_ASSET_ID Sample.Date_parse Sample.strToHexCharCode
              Sample.sha256 Sample.sha3_256 Sample.listReceiver
              Sample.createAccountPubkey Sample.compile Sample.createLockingTx)
    as (Hbuffer & _ & _ & _ & Hother & _).
  split; [apply Hbuffer|apply Hother; exact I].
Defined.

Lemma getGenerateStringInputValue_spec_witness :
  getGenerateStringInputValue (Sample.generateString "p.generateStringInput" "4")
  = Ok "5a5a5a5a"
  /\ getGenerateStringInputValue (Sample.generateString "p.generateStringInput" "521")
     = Err (Thrown "invalid length value for generateStringInput: 521").
Proof.
  split.
  - apply (proj1 (proj2 (proj2 (getGenerateStringInputValue_spec
             (Sample.generateString "p.generateStringInput" "4"))))
             (Buffer_toString_hex (repeat "Z"%byte 520)));
      vm_compute; reflexivity.
  - apply (proj2 (proj2 (proj2 (getGenerateStringInputValue_spec
             (Sample.generateString "p.generateStringInput" "521"))))).
    reflexivity.
Defined.

Lemma validateInput_generatePublicKeyInput_witness :
  validateInput Sample.MIN_NUMBER Sample.MAX_NUMBER Sample.BTM_ASSET_ID
    Sample.Date_parse
    (plainInput "generatePublicKeyInput" "k.generatePublicKeyInput"
                "providePrivateKeyInput")
  = Ok true.
Proof.
  exact (proj1 (validateInput_generatePublicKeyInput Sample.MIN_NUMBER
           Sample.MAX_NUMBER Sample.BTM_ASSET_ID Sample.Date_parse
           (plainInput "generatePublicKeyInput" "k.generatePublicKeyInput"
                       "providePrivateKeyInput") eq_refl)).
Defined.

Lemma getContractArgs_spec_witness :
  exists id e,
    In id ["contractParameters.flag"; "contractParameters.secret"]
    /\ getData Sample.MIN_NUMBER Sample.MAX_NUMBER Sample.BTM_ASSET_ID
         Sample.Date_parse Sample.strToHexCharCode Sample.sha256
         Sample.sha3_256 5 id Sample.invalidInputMap = Err e
    /\ getContractArgs Sample.MIN_NUMBER Sample.MAX_NUMBER Sample.BTM_ASSET_ID
         Sample.Date_parse Sample.strToHexCharCode Sample.sha256
         Sample.sha3_256 5 Sample.invalidState Sample.invalidInputMap
       = mkM [ConsoleLog e] (Ok []).
Proof.
  apply (proj1 (proj2 (getContractArgs_spec Sample.MIN_NUMBER Sample.MAX_NUMBER
           Sample.BTM_ASSET_ID Sample.Date_parse Sample.strToHexCharCode
           Sample.sha256 Sample.sha3_256 5 Sample.invalidState
           Sample.invalidInputMap)
           ["contractParameters.flag"; "contractParameters.secret"] eq_refl)).
  apply Exists_cons_hd. eexists. vm_compute. reflexivity.
Defined.

Lemma noPasswordMap_single_value (id : string) (input : Input) :
  Sample.noPasswordMap !! id = Some input -> type input = "valueInput" ->
  id = "contractValue.locked.valueInput".
Proof.
  revert id input.
  change (map_Forall (fun id input => type input = "valueInput" ->
            id = "contractValue.locked.valueInput") Sample.noPasswordMap).
  apply (bool_decide_unpack _). vm_compute. exact I.
Qed.

Lemma getContractValue_password_unchecked_witness :
  getContractValue (Sample.stateOf (Some Sample.noPasswordMap) None)
  = Ok (Some {| SpendFromAccount.type := "spendFromAccount";
                SpendFromAccount.accountId := "acc1";
                SpendFromAccount.assetId := "assetAliasInput";
                SpendFromAccount.amount := Num 500;
                SpendFromAccount.password := "" |}).
Proof.
  apply (getContractValue_password_unchecked
           (Sample.stateOf (Some Sample.noPasswordMap) None)
           Sample.noPasswordMap "contractValue.locked.valueInput"
           (plainInput "valueInput" "contractValue.locked.valueInput" "")
           (plainInput "accountInput"
              "contractValue.locked.valueInput.accountInput" "acc1")
           (plainInput "assetInput"
              "contractValue.locked.valueInput.assetInput" "assetAliasInput")
           (plainInput "amountInput"
              "contractValue.locked.valueInput.amountInput" "500")
           (plainInput "passwordInput"
              "contractValue.locked.valueInput.passwordInput" "")
           500);
    try (vm_compute; reflexivity); try (vm_compute; discriminate);
    try exact noPasswordMap_single_value.
Defined.

Lemma getData_isValidInput_partial_witness :
  (exists n, forall fuel, (n <= fuel)%nat ->
     getData Sample.MIN_NUMBER Sample.MAX_NUMBER Sample.BTM_ASSET_ID
       Sample.Date_parse Sample.strToHexCharCode Sample.sha256 Sample.sha3_256
       fuel "contractParameters.secret" Sample.danglingMap = Err TypeError)
  /\ (exists n, forall fuel, (n <= fuel)%nat ->
     isValidInput Sample.MIN_NUMBER Sample.MAX_NUMBER Sample.BTM_ASSET_ID
       Sample.Date_parse fuel "contractParameters.secret" Sample.danglingMap
     = Err TypeError).
Proof.
  destruct (getData_isValidInput_partial Sample.MIN_NUMBER Sample.MAX_NUMBER
              Sample.BTM_ASSET_ID Sample.Date_parse Sample.strToHexCharCode
              Sample.sha256 Sample.sha3_256 Sample.danglingMap
              "contractParameters.secret"
              "contractParameters.secret.hashInput.generateHashInput.provideOriginInput"
              ltac:(vm_compute; reflexivity)) as [Hown _].
  destruct (Hown ltac:(vm_compute; reflexivity)) as [Hdata Hvalid].
  split.
  - apply Hdata.
    eapply rtc_l;
      [exact (getData_calls_child _ _ _ _ Sample.danglingMap
                "contractParameters.secret"
                (plainInput "parameterInput" "contractParameters.secret" "hashInput")
                ltac:(vm_compute; reflexivity) eq_refl eq_refl)|].
    eapply rtc_l;
      [exact (getData_calls_child _ _ _ _ Sample.danglingMap
                "contractParameters.secret.hashInput"
                (Sample.hashKindInput "hashInput"
                   "contractParameters.secret.hashInput" "generateHashInput"
                   "sha256")
                ltac:(vm_compute; reflexivity) eq_refl eq_refl)|].
    eapply rtc_l;
      [exact (getData_calls_child _ _ _ _ Sample.danglingMap
                "contractParameters.secret.hashInput.generateHashInput"
                (Sample.hashKindInput "generateHashInput"
                   "contractParameters.secret.hashInput.generateHashInput"
                   "provideOriginInput" "sha256")
                ltac:(vm_compute; reflexivity) eq_refl eq_refl)|].
    apply rtc_refl.
  - apply Hvalid.
    eapply rtc_l;
      [exact (isValidInput_calls_child _ _ _ _ Sample.danglingMap
                "contractParameters.secret"
                (plainInput "parameterInput" "contractParameters.secret" "hashInput")
                ltac:(vm_compute; reflexivity) eq_refl)|].
    eapply rtc_l;
      [exact (isValidInput_calls_child _ _ _ _ Sample.danglingMap
                "contractParameters.secret.hashInput"
                (Sample.hashKindInput "hashInput"
                   "contractParameters.secret.hashInput" "generateHashInput"
                   "sha256")
                ltac:(vm_compute; reflexivity) eq_refl)|].
    eapply rtc_l;
      [exact (isValidInput_calls_child _ _ _ _ Sample.danglingMap
                "contractParameters.secret.hashInput.generateHashInput"
                (Sample.hashKindInput "generateHashInput"
                   "contractParameters.secret.hashInput.generateHashInput"
                   "provideOriginInput" "sha256")
                ltac:(vm_compute; reflexivity) eq_refl)|].
    apply rtc_refl.
Defined.

(** ** Inputs on which the properties as first stated fail *)

(* a valueInput without children: no entry qualifies, yet the selector does
   not return undefined, it fails on the property read; and a valueInput
   that lacks only its passwordInput child: exactly one entry qualifies, yet
   no SpendFromAccount is returned *)
Lemma getContractValue_missing_children :
  (List.filter (qualifies Sample.orphanMap) (map_to_list Sample.orphanMap).*2
   = []
   /\ getContractValue (Sample.stateOf (Some Sample.orphanMap) None)
      = Err TypeError
   /\ getContractValue (Sample.stateOf (Some Sample.orphanMap) None) <> Ok None)
  /\ (List.filter (qualifies Sample.noPasswordChildMap)
        (map_to_list Sample.noPasswordChildMap).*2
      = [plainInput "valueInput" "contractValue.v" ""]
      /\ getContractValue (Sample.stateOf (Some Sample.noPasswordChildMap) None)
         = Err TypeError).
Proof. repeat split; vm_compute; try reflexivity; discriminate. Qed.

(* the child resolves to the byte ab and the hash function is sha256, yet
   getData does not return the digest: the value "provideStringInput" is not
   a primary input type and validateInput rejects the input first *)
Lemma getData_generateHashInput_not_validated :
  getData Sample.MIN_NUMBER Sample.MAX_NUMBER Sample.BTM_ASSET_ID
    Sample.Date_parse Sample.strToHexCharCode Sample.sha256 Sample.sha3_256
    1 "h.provideStringInput" Sample.nonPrimaryHashMap
  = Ok (DBuffer ["171"]%byte)
  /\ getData Sample.MIN_NUMBER Sample.MAX_NUMBER Sample.BTM_ASSET_ID
       Sample.Date_parse Sample.strToHexCharCode Sample.sha256 Sample.sha3_256
       2 "h" Sample.nonPrimaryHashMap
     = Err (Thrown "invalid input: h")
  /\ getData Sample.MIN_NUMBER Sample.MAX_NUMBER Sample.BTM_ASSET_ID
       Sample.Date_parse Sample.strToHexCharCode Sample.sha256 Sample.sha3_256
       2 "h" Sample.nonPrimaryHashMap
     <> Ok (DBuffer (Sample.sha256 ["171"]%byte)).
Proof. repeat split; vm_compute; [reflexivity..|discriminate]. Qed.

(* with value "accountInput" the second case would answer true; the first
   case runs and answers false *)
Lemma validateInput_generatePublicKeyInput_accountInput :
  validateInput Sample.MIN_NUMBER Sample.MAX_NUMBER Sample.BTM_ASSET_ID
    Sample.Date_parse
    (plainInput "generatePublicKeyInput" "k.generatePublicKeyInput" "accountInput")
  = Ok false
  /\ ~ (validateInput Sample.MIN_NUMBER Sample.MAX_NUMBER Sample.BTM_ASSET_ID
          Sample.Date_parse
          (plainInput "generatePublicKeyInput" "k.generatePublicKeyInput"
                      "accountInput")
        = Ok true
        <-> value (plainInput "generatePublicKeyInput"
                     "k.generatePublicKeyInput" "accountInput")
            = "accountInput").
Proof.
  split; [reflexivity|].
  intros [_ H]. specialize (H eq_refl). vm_compute in H. discriminate.
Qed.

(* the funding subtree without its passwordInput child: account and asset
   are non-empty and the amount parses to 500, yet no SpendFromAccount is
   produced: the read of the password child's value fails *)
Lemma getContractValue_password_child_absent :
  Sample.noPasswordChildMap !! "contractValue.v"
  = Some (plainInput "valueInput" "contractValue.v" "")
  /\ value <$> Sample.noPasswordChildMap !! "contractValue.v.accountInput"
     = Some "acc1"
  /\ value <$> Sample.noPasswordChildMap !! "contractValue.v.assetInput"
     = Some "asset1"
  /\ (fun amount => parseInt (value amount) 10)
       <$> Sample.noPasswordChildMap !! "contractValue.v.amountInput"
     = Some (Num 500)
  /\ Sample.noPasswordChildMap !! "contractValue.v.passwordInput" = None
  /\ collectSources Sample.noPasswordChildMap
       [plainInput "valueInput" "contractValue.v" ""] []
     = Err TypeError
  /\ getContractValue (Sample.stateOf (Some Sample.noPasswordChildMap) None)
     = Err TypeError.
Proof. repeat split; vm_compute; reflexivity. Qed.

(* "toString" is no key of the map, yet the failure is not the TypeError of
   a read on undefined: the lookup finds the member every object inherits,
   which has no type, and the default case of validateInput throws a text *)
Lemma getData_isValidInput_inherited_id :
  Sample.inputMap !! "toString" = None
  /\ (forall fuel,
        getData Sample.MIN_NUMBER Sample.MAX_NUMBER Sample.BTM_ASSET_ID
          Sample.Date_parse Sample.strToHexCharCode Sample.sha256
          Sample.sha3_256 (S fuel) "toString" Sample.inputMap
        = Err (Thrown "input type not valid undefined"))
  /\ (forall fuel,
        isValidInput Sample.MIN_NUMBER Sample.MAX_NUMBER Sample.BTM_ASSET_ID
          Sample.Date_parse (S fuel) "toString" Sample.inputMap
        = Err (Thrown "input type not valid undefined")).
Proof. repeat split; intros; vm_compute; reflexivity. Qed.

(** ** Instances of the further properties *)

Lemma computeDataForInput_hex_witness :
  validateHex "c0ffee" = true
  /\ exists b,
       getData Sample.MIN_NUMBER Sample.MAX_NUMBER Sample.BTM_ASSET_ID
         Sample.Date_parse Sample.strToHexCharCode Sample.sha256
         Sample.sha3_256 1 "s.provideStringInput" Fresh.kindsMap
       = Ok (DBuffer b)
       /\ Buffer_from_hex "c0ffee" = b
       /\ String.length "c0ffee" = (2 * length b)%nat.
Proof.
  apply (proj1 (computeDataForInput_hex Sample.MIN_NUMBER Sample.MAX_NUMBER
                  Sample.BTM_ASSET_ID Sample.Date_parse Sample.strToHexCharCode
                  Sample.sha256 Sample.sha3_256 1 "s.provideStringInput"
                  Fresh.kindsMap) "c0ffee").
  vm_compute. reflexivity.
Defined.

Lemma computeDataForInput_provideStringInput_witness :
  computeDataForInput Sample.MIN_NUMBER Sample.MAX_NUMBER Sample.BTM_ASSET_ID
    Sample.Date_parse Sample.strToHexCharCode Sample.sha256 Sample.sha3_256
    1 "s.provideStringInput" Fresh.kindsMap
  = Ok "c0ffee".
Proof.
  apply (computeDataForInput_provideStringInput Sample.MIN_NUMBER
           Sample.MAX_NUMBER Sample.BTM_ASSET_ID Sample.Date_parse
           Sample.strToHexCharCode Sample.sha256 Sample.sha3_256
           Sample.listReceiver Sample.createAccountPubkey Sample.compile
           0 "s.provideStringInput" Fresh.kindsMap
           (plainInput "provideStringInput" "s.provideStringInput" "c0ffee"));
    vm_compute; reflexivity.
Defined.

Lemma getData_provideHashInput_witness :
  exists b,
    getData Sample.MIN_NUMBER Sample.MAX_NUMBER Sample.BTM_ASSET_ID
      Sample.Date_parse Sample.strToHexCharCode Sample.sha256 Sample.sha3_256
      1 "h.provideHashInput" Fresh.kindsMap
    = Ok (DBuffer b)
    /\ length b = 32%nat
    /\ Buffer_toString_hex b
       = "ba7816bf8f01cfea414140de5dae2223b00361a396177a9cb410ff61f20015ad".
Proof.
  apply (getData_provideHashInput Sample.MIN_NUMBER Sample.MAX_NUMBER
           Sample.BTM_ASSET_ID Sample.Date_parse Sample.strToHexCharCode
           Sample.sha256 Sample.sha3_256 Sample.listReceiver
           Sample.createAccountPubkey Sample.compile 0 "h.provideHashInput"
           Fresh.kindsMap
           (Sample.provideHash "h.provideHashInput"
              "ba7816bf8f01cfea414140de5dae2223b00361a396177a9cb410ff61f20015ad"
              "sha256"));
    vm_compute; reflexivity.
Defined.

Lemma getData_generateStringInput_witness :
  exists l,
    parseInt "4" 10 = Num l /\ 0 <= l <= 520
    /\ getData Sample.MIN_NUMBER Sample.MAX_NUMBER Sample.BTM_ASSET_ID
         Sample.Date_parse Sample.strToHexCharCode Sample.sha256
         Sample.sha3_256 1 "g.generateStringInput" Fresh.kindsMap
       = Ok (DBuffer (firstn (Z.to_nat l)
               (Buffer_from_hex (Buffer_toString_hex (repeat "Z"%byte 520)))))
    /\ length (firstn (Z.to_nat l)
         (Buffer_from_hex (Buffer_toString_hex (repeat "Z"%byte 520))))
       = Z.to_nat l.
Proof.
  apply (getData_generateStringInput Sample.MIN_NUMBER Sample.MAX_NUMBER
           Sample.BTM_ASSET_ID Sample.Date_parse Sample.strToHexCharCode
           Sample.sha256 Sample.sha3_256 Sample.listReceiver
           Sample.createAccountPubkey Sample.compile 0 "g.generateStringInput"
           Fresh.kindsMap (Sample.generateString "g.generateStringInput" "4")
           (Buffer_toString_hex (repeat "Z"%byte 520)));
    vm_compute; reflexivity.
Defined.

Lemma getData_numeric_bounds_witness :
  exists z,
    getData Sample.MIN_NUMBER Sample.MAX_NUMBER Sample.BTM_ASSET_ID
      Sample.Date_parse Sample.strToHexCharCode Sample.sha256 Sample.sha3_256
      1 "n.numberInput" Fresh.kindsMap
    = Ok (DNumber (Num z))
    /\ num_le Sample.MIN_NUMBER (Num z) = true
    /\ num_le (Num z) Sample.MAX_NUMBER = true.
Proof.
  apply (proj1 (getData_numeric_bounds Sample.MIN_NUMBER Sample.MAX_NUMBER
                  Sample.BTM_ASSET_ID Sample.Date_parse Sample.strToHexCharCode
                  Sample.sha256 Sample.sha3_256 0 "n.numberInput"
                  Fresh.kindsMap (plainInput "numberInput" "n.numberInput" "42")
                  ltac:(vm_compute; reflexivity)
                  ltac:(vm_compute; reflexivity))).
  reflexivity.
Defined.

Lemma isValidInput_valueInput_witness :
  isValidInput Sample.MIN_NUMBER Sample.MAX_NUMBER Sample.BTM_ASSET_ID
    Sample.Date_parse 2 "contractValue.v" Sample.fundingMap
  = Ok true.
Proof.
  apply (proj1 (isValidInput_valueInput Sample.MIN_NUMBER Sample.MAX_NUMBER
                  Sample.BTM_ASSET_ID Sample.Date_parse Sample.strToHexCharCode
                  Sample.sha256 Sample.sha3_256 Sample.listReceiver
                  Sample.createAccountPubkey Sample.compile Fresh.randomBytes
                  1 "contractValue.v" Sample.fundingMap
                  (plainInput "valueInput" "contractValue.v" "")
                  ltac:(vm_compute; reflexivity) eq_refl)).
  intros suffix Hin. cbn in Hin.
  destruct Hin as [<-|[<-|[<-|[<-|[<-|[]]]]]]; vm_compute; reflexivity.
Defined.

Lemma areInputsValid_spec_witness :
  areInputsValid Sample.MIN_NUMBER Sample.MAX_NUMBER Sample.BTM_ASSET_ID
    Sample.Date_parse 5 (Sample.stateOf None (Some Sample.compiled))
  = Ok false.
Proof.
  apply (proj2 (areInputsValid_spec Sample.MIN_NUMBER Sample.MAX_NUMBER
                  Sample.BTM_ASSET_ID Sample.Date_parse 5
                  (Sample.stateOf None (Some Sample.compiled)))).
  left. reflexivity.
Defined.



Lemma getPromisedInputMap_offline_witness :
  events (getPromisedInputMap Sample.listReceiver Sample.createAccountPubkey
            Fresh.offlineMap) = [].
Proof.
  apply (getPromisedInputMap_offline Sample.listReceiver
           Sample.createAccountPubkey Fresh.offlineMap).
  change (map_Forall (fun _ input =>
            one_of (type input) ["publicKeyInput"; "programInput"] = true ->
            value input = "provideStringInput") Fresh.offlineMap).
  apply (bool_decide_unpack _). vm_compute. exact I.
Defined.

Lemma create_busy_flag_witness :
  exists calls,
    events (create Sample.MIN_NUMBER Sample.MAX_NUMBER Sample.BTM_ASSET_ID
              Sample.Date_parse Sample.strToHexCharCode Sample.sha256
              Sample.sha3_256 Sample.listReceiver Sample.createAccountPubkey
              Sample.compile Sample.createLockingTx 5
              (Sample.stateOf (Some Sample.danglingMap) (Some Sample.compiled)))
    = Dispatch (updateIsCalling true) :: calls
    /\ Forall (fun ev => is_resolution_call ev = true) calls.
Proof.
  apply (create_busy_flag Sample.MIN_NUMBER Sample.MAX_NUMBER
           Sample.BTM_ASSET_ID Sample.Date_parse Sample.strToHexCharCode
           Sample.sha256 Sample.sha3_256 Sample.listReceiver
           Sample.createAccountPubkey Sample.compile Sample.createLockingTx 5
           (Sample.stateOf (Some Sample.danglingMap) (Some Sample.compiled))
           TypeError).
  vm_compute. reflexivity.
Defined.

Lemma create_locking_tx_witness :
  exists spendFromAccount args program before after,
    getContractValue Sample.state = Ok (Some spendFromAccount)
    /\ events (create Sample.MIN_NUMBER Sample.MAX_NUMBER Sample.BTM_ASSET_ID
                 Sample.Date_parse Sample.strToHexCharCode Sample.sha256
                 Sample.sha3_256 Sample.listReceiver
                 Sample.createAccountPubkey Sample.compile
                 Sample.createLockingTx 5 Sample.state)
       = before ++ ClientCompile (getSource Sample.state) args
           :: CreateLockingTx
                [ ActSpendFromAccount
                    {| SpendFromAccount.type := "spendFromAccount";
                       SpendFromAccount.accountId := "acc1";
                       SpendFromAccount.assetId := "assetAliasInput";
                       SpendFromAccount.amount := Num 500;
                       SpendFromAccount.password := "pw" |};
                  ActControlWithReceiver "00c0" "assetAliasInput" (Num 500);
                  ActGas "acc1" 20000000 "spendFromAccount"
                    "ffffffffffffffffffffffffffffffffffffffffffffffffffffffffffffffff" ]
                "pw"
           :: after
    /\ Sample.compile (getSource Sample.state) args = Ok (CompileDone program).
Proof.
  destruct (create_locking_tx Sample.MIN_NUMBER Sample.MAX_NUMBER
              Sample.BTM_ASSET_ID Sample.Date_parse Sample.strToHexCharCode
              Sample.sha256 Sample.sha3_256 Sample.listReceiver
              Sample.createAccountPubkey Sample.compile Sample.createLockingTx
              5 Sample.state
              [ ActSpendFromAccount
                  {| SpendFromAccount.type := "spendFromAccount";
                     SpendFromAccount.accountId := "acc1";
                     SpendFromAccount.assetId := "assetAliasInput";
                     SpendFromAccount.amount := Num 500;
                     SpendFromAccount.password := "pw" |};
                ActControlWithReceiver "00c0" "assetAliasInput" (Num 500);
                ActGas "acc1" 20000000 "spendFromAccount"
                  "ffffffffffffffffffffffffffffffffffffffffffffffffffffffffffffffff" ]
              "pw"
              ltac:(vm_compute; right; right; left; reflexivity))
    as (spendFromAccount & args & program & before & after & _ & Hvalue
        & Hevents & _ & Hcompile & _).
  exists spendFromAccount, args, program, before, after. auto.
Defined.

Lemma create_success_message_witness :
  exists actions password utxo,
    Sample.createLockingTx actions password = Ok utxo
    /\ "tx1" = transactionId utxo
    /\ outcome (create Sample.MIN_NUMBER Sample.MAX_NUMBER Sample.BTM_ASSET_ID
                  Sample.Date_parse Sample.strToHexCharCode Sample.sha256
                  Sample.sha3_256 Sample.listReceiver
                  Sample.createAccountPubkey Sample.compile
                  Sample.createLockingTx 5 Sample.state) = Ok tt.
Proof.
  destruct (create_success_message Sample.MIN_NUMBER Sample.MAX_NUMBER
              Sample.BTM_ASSET_ID Sample.Date_parse Sample.strToHexCharCode
              Sample.sha256 Sample.sha3_256 Sample.listReceiver
              Sample.createAccountPubkey Sample.compile Sample.createLockingTx
              5 Sample.state "transactions has been submited successfully."
              "/dashboard/transactions/tx1" "tx1"
              ltac:(vm_compute; do 5 right; left; reflexivity))
    as (actions & password & utxo & _ & Htx & Hlabel & _ & _ & Hout).
  exists actions, password, utxo. auto.
Defined.

Lemma create_unresolved_arguments_witness :
  exists id e rest,
    In id ["contractParameters.flag"; "contractParameters.secret"]
    /\ events (create Sample.MIN_NUMBER Sample.MAX_NUMBER Sample.BTM_ASSET_ID
                 Sample.Date_parse Sample.strToHexCharCode Sample.sha256
                 Sample.sha3_256 Sample.listReceiver
                 Sample.createAccountPubkey Sample.compile
                 Sample.createLockingTx 5 Fresh.hashOfNumberState)
       = Dispatch (updateIsCalling true)
         :: ConsoleLog e
         :: ClientCompile "contract LockWithSecret" [] :: rest.
Proof.
  pose (resolved :=
          match outcome (getPromisedInputMap Sample.listReceiver
                           Sample.createAccountPubkey Fresh.hashOfNumberMap) with
          | Ok (Ok resolved) => resolved
          | _ => ∅
          end).
  assert (getPromisedInputMap Sample.listReceiver Sample.createAccountPubkey
            Fresh.hashOfNumberMap = mkM [] (Ok (Ok resolved))) as E
    by (vm_compute; reflexivity).
  destruct (create_unresolved_arguments Sample.MIN_NUMBER Sample.MAX_NUMBER
              Sample.BTM_ASSET_ID Sample.Date_parse Sample.strToHexCharCode
              Sample.sha256 Sample.sha3_256 Sample.listReceiver
              Sample.createAccountPubkey Sample.compile Sample.createLockingTx
              5 Fresh.hashOfNumberState Fresh.hashOfNumberMap resolved
              {| SpendFromAccount.type := "spendFromAccount";
                 SpendFromAccount.accountId := "acc1";
                 SpendFromAccount.assetId := "assetAliasInput";
                 SpendFromAccount.amount := Num 500;
                 SpendFromAccount.password := "pw" |}
              [] ["contractParameters.flag"; "contractParameters.secret"]
              ltac:(vm_compute; reflexivity) eq_refl
              ltac:(vm_compute; reflexivity) E eq_refl
              ltac:(apply Exists_cons_tl, Exists_cons_hd; eexists;
                    vm_compute; reflexivity))
    as (id & e & rest & Hin & _ & Hevents).
  exists id, e, rest. split; [exact Hin|exact Hevents].
Defined.

Lemma getData_isValidInput_depth_witness :
  getData Sample.MIN_NUMBER Sample.MAX_NUMBER Sample.BTM_ASSET_ID
    Sample.Date_parse Sample.strToHexCharCode Sample.sha256 Sample.sha3_256
    200 "contractParameters.secret" Sample.inputMap
  = getData Sample.MIN_NUMBER Sample.MAX_NUMBER Sample.BTM_ASSET_ID
      Sample.Date_parse Sample.strToHexCharCode Sample.sha256 Sample.sha3_256
      (80 + 2) "contractParameters.secret" Sample.inputMap.
Proof.
  apply (getData_isValidInput_depth Sample.MIN_NUMBER Sample.MAX_NUMBER
           Sample.BTM_ASSET_ID Sample.Date_parse Sample.strToHexCharCode
           Sample.sha256 Sample.sha3_256 Sample.inputMap 80 200
           "contractParameters.secret").
  - change (map_Forall (fun id input => name input = id) Sample.inputMap).
    apply (bool_decide_unpack _). vm_compute. exact I.
  - change (map_Forall (fun id (_ : Input) => (String.length id <= 80)%nat)
              Sample.inputMap).
    apply (bool_decide_unpack _). vm_compute. exact I.
  - lia.
Defined.

Lemma getData_self_child_witness :
  getData Sample.MIN_NUMBER Sample.MAX_NUMBER Sample.BTM_ASSET_ID
    Sample.Date_parse Sample.strToHexCharCode Sample.sha256 Sample.sha3_256
    1000 "p.hashInput" Fresh.misfiledMap
  = Err RangeError.
Proof.
  apply (getData_self_child Sample.MIN_NUMBER Sample.MAX_NUMBER
           Sample.BTM_ASSET_ID Sample.Date_parse Sample.strToHexCharCode
           Sample.sha256 Sample.sha3_256 Fresh.misfiledMap "p.hashInput"
           (plainInput "parameterInput" "p" "hashInput"));
    vm_compute; reflexivity.
Defined.

Lemma getInputType_primary_witness :
  isPrimaryInputType "stringInput" = true
  /\ validateInput Sample.MIN_NUMBER Sample.MAX_NUMBER Sample.BTM_ASSET_ID
       Sample.Date_parse
       (plainInput "parameterInput" "contractParameters.secret" "stringInput")
     = Ok true
  /\ validateInput Sample.MIN_NUMBER Sample.MAX_NUMBER Sample.BTM_ASSET_ID
       Sample.Date_parse
       (plainInput "generateHashInput" "contractParameters.secret" "stringInput")
     = Ok true.
Proof.
  exact (getInputType_primary Sample.MIN_NUMBER Sample.MAX_NUMBER
           Sample.BTM_ASSET_ID Sample.Date_parse (TypeName "String")
           "stringInput" "contractParameters.secret" eq_refl).
Defined.

Lemma hasSourceChanged_spec_witness :
  hasSourceChanged "contract LockWithSecret" Fresh.libraryState = false.
Proof.
  apply (proj2 (hasSourceChanged_spec "contract LockWithSecret"
                  Fresh.libraryState)).
  exists "LockWithSecret". vm_compute. reflexivity.
Defined.

Lemma getPublicKeys_spec_witness :
  exists keys,
    getPublicKeys Fresh.derivedMap = Ok keys
    /\ forall computed key, keys !! computed = Some key ->
         exists id input,
           Fresh.derivedMap !! id = Some input
           /\ type input = "publicKeyInput"
           /\ computedData input = Some computed
           /\ keyData input = Some key.
Proof.
  apply (proj1 (getPublicKeys_spec Sample.BTM_ASSET_ID Sample.Date_parse
                  Sample.strToHexCharCode Sample.listReceiver
                  Sample.createAccountPubkey Sample.compile Fresh.derivedMap)).
  change (map_Forall (fun _ input =>
            type input = "publicKeyInput" ->
            is_Some (computedData input) /\ is_Some (keyData input))
            Fresh.derivedMap).
  apply (bool_decide_unpack _). vm_compute. exact I.
Defined.

Lemma getParameterIdentifier_subtree_witness :
  getInputContext
    (plainInput "hashInput" "contractParameters.secret.hashInput"
                "generateHashInput") = "contractParameters"
  /\ getParameterIdentifier
       (plainInput "hashInput" "contractParameters.secret.hashInput"
                   "generateHashInput") = Ok (Some "secret").
Proof.
  apply (proj1 (getParameterIdentifier_subtree Sample.BTM_ASSET_ID
                  Sample.Date_parse Sample.strToHexCharCode Sample.listReceiver
                  Sample.createAccountPubkey Sample.compile
                  "contractParameters" "spend" "secret" (Some "hashInput")
                  (plainInput "hashInput" "contractParameters.secret.hashInput"
                              "generateHashInput")
                  ltac:(cbn; intuition discriminate)
                  ltac:(cbn; intuition discriminate)));
    reflexivity.
Defined.

Lemma addParameterInput_pushes_witness :
  runBuild (addParameterInput Fresh.randomBytes 5 (TypeName "Unknown")
              "contractParameters.x") {| built := []; drawn := 0 |}
  = ({| built := []; drawn := 0 |},
     Err (Thrown "can't yet get input type for Unknown")).
Proof.
  apply (proj1 (proj2 (addParameterInput_pushes Fresh.randomBytes 5
                         {| built := []; drawn := 0 |}))).
  reflexivity.
Defined.

Lemma Fresh_randomBytes_length (draw size : nat) :
  length (Fresh.randomBytes draw size) = size.
Proof. apply repeat_length. Qed.

Lemma fresh_parameter_validity_witness :
  isValidInput Sample.MIN_NUMBER Sample.MAX_NUMBER Sample.BTM_ASSET_ID
    Sample.Date_parse 4 "contractParameters.secret" Fresh.stringParameterMap
  = Ok true.
Proof.
  destruct (fresh_parameter_validity Sample.MIN_NUMBER Sample.MAX_NUMBER
              Sample.BTM_ASSET_ID Sample.Date_parse Sample.strToHexCharCode
              Sample.listReceiver Sample.createAccountPubkey Sample.compile
              Fresh.randomBytes 0 (TypeName "String") "stringInput"
              "contractParameters.secret" {| built := []; drawn := 0 |}
              Fresh_randomBytes_length eq_refl eq_refl ltac:(discriminate))
    as (st' & news & Hrun & Hbuilt & Hvalid).
  vm_compute in Hrun. injection Hrun as <-. cbn in Hbuilt. subst news.
  apply Hvalid. repeat constructor; intros input Hinput;
    injection Hinput as <-; vm_compute; reflexivity.
Defined.

Lemma addParameterInput_Signature_witness :
  runBuild (addParameterInput Fresh.randomBytes 2 (TypeName "Signature")
              "contractParameters.sig") {| built := []; drawn := 0 |}
  = ({| built := [ {| new_type := "parameterInput";
                      new_value := Some "signatureInput";
                      new_name := "contractParameters.sig"; new_seed := None;
                      new_hashType := None; new_hashFunction := None;
                      new_valueType := Some (TypeName "Signature") |} ];
        drawn := 0 |},
     Err (Thrown "signatureInput should not be allowed")).
Proof.
  exact (addParameterInput_Signature Sample.BTM_ASSET_ID Sample.Date_parse
           Sample.strToHexCharCode Sample.listReceiver
           Sample.createAccountPubkey Sample.compile Fresh.randomBytes 0
           (TypeName "Signature") "contractParameters.sig"
           {| built := []; drawn := 0 |} eq_refl eq_refl).
Defined.

Lemma fresh_parameter_data_witness :
  getData Sample.MIN_NUMBER Sample.MAX_NUMBER Sample.BTM_ASSET_ID
    Sample.Date_parse Sample.strToHexCharCode Sample.sha256 Sample.sha3_256
    3 "contractParameters.secret" Fresh.stringParameterMap
  = Ok (DBuffer (repeat "Z"%byte 32)).
Proof.
  destruct (fresh_parameter_data Sample.MIN_NUMBER Sample.MAX_NUMBER
              Sample.BTM_ASSET_ID Sample.Date_parse Sample.strToHexCharCode
              Sample.sha256 Sample.sha3_256 Sample.listReceiver
              Sample.createAccountPubkey Sample.compile Fresh.randomBytes 0
              (TypeName "String") "stringInput" "contractParameters.secret"
              {| built := []; drawn := 0 |}
              Fresh_randomBytes_length eq_refl eq_refl eq_refl)
    as (st' & news & Hrun & Hbuilt & Hdata).
  vm_compute in Hrun. injection Hrun as <-. cbn in Hbuilt. subst news.
  apply Hdata. repeat constructor; intros input Hinput;
    injection Hinput as <-; vm_compute; reflexivity.
Defined.

Lemma clause_Time_parameter_witness :
  isValidInput Sample.MIN_NUMBER Sample.MAX_NUMBER Sample.BTM_ASSET_ID
    Sample.Date_parse 3 "clauseParameters.spend.deadline" Fresh.timeParameterMap
  = Err TypeError
  /\ getData Sample.MIN_NUMBER Sample.MAX_NUMBER Sample.BTM_ASSET_ID
       Sample.Date_parse Sample.strToHexCharCode Sample.sha256 Sample.sha3_256
       3 "clauseParameters.spend.deadline" Fresh.timeParameterMap
     = Err (Thrown "invalid input: clauseParameters.spend.deadline.timeInput").
Proof.
  destruct (clause_Time_parameter Sample.MIN_NUMBER Sample.MAX_NUMBER
              Sample.BTM_ASSET_ID Sample.Date_parse Sample.strToHexCharCode
              Sample.sha256 Sample.sha3_256 Sample.listReceiver
              Sample.createAccountPubkey Sample.compile Fresh.randomBytes 0
              (TypeName "Time") "clauseParameters.spend.deadline"
              {| built := []; drawn := 0 |} eq_refl eq_refl)
    as (st' & news & Hrun & Hbuilt & _ & _ & Hfails).
  vm_compute in Hrun. injection Hrun as <-. cbn in Hbuilt. subst news.
  apply Hfails; [|vm_compute; reflexivity].
  repeat constructor; intros input Hinput;
    injection Hinput as <-; vm_compute; reflexivity.
Defined.

Lemma getChild_complex_witness :
  exists input,
    Sample.inputMap !! "contractParameters.secret" = Some input
    /\ isComplexInput input = true
    /\ "contractParameters.secret.hashInput" = getChild input.
Proof.
  apply (proj1 (proj2 (proj2
           (getChild_complex Sample.MIN_NUMBER Sample.MAX_NUMBER
              Sample.BTM_ASSET_ID Sample.Date_parse Sample.strToHexCharCode
              Sample.sha256 Sample.sha3_256 Sample.inputMap
              "contractParameters.secret")))).
  exact (getData_calls_child Sample.MIN_NUMBER Sample.MAX_NUMBER
           Sample.BTM_ASSET_ID Sample.Date_parse Sample.inputMap
           "contractParameters.secret"
           (plainInput "parameterInput" "contractParameters.secret" "hashInput")
           ltac:(vm_compute; reflexivity) eq_refl eq_refl).
Defined.
